(** * HR answer analyzer: a shallow embedding of [backend/services/hr_analyzer.py]

    The analyzer scores a free-text interview answer.  The embedding follows
    the Python source function by function:

    - text is a [string] whose characters are code points 0..255; the
      [str] methods the source uses are embedded in [Py] with the behaviour
      CPython has on that range;
    - Python [int] is [Z]; Python [float] is an exact rational [Q].  The
      floats of the source are ratios of lengths and small multiples of
      one half, on which IEEE doubles and rationals order alike for any
      text shorter than 2^50 characters;
    - the regular expressions are terms of [Re.regex], matched by
      derivatives, with [re.IGNORECASE] built into the character test;
    - a [dict] built by the code is an insertion-ordered association list;
      the fixed-key result dicts are records;
    - operations that can raise ([/], [max] and [min] of a sequence, [d[k]])
      live in the monad [M], which also records each function entered. *)

From Stdlib Require Import ZArith QArith List String Ascii Bool Lia Lqa.
Import ListNotations.

Local Open Scope string_scope.
Local Open Scope Z_scope.

(** ** Python primitives *)

Module Py.

Definition ord (c : ascii) : Z := Z.of_N (N_of_ascii c).
Definition chr (n : Z) : ascii := ascii_of_N (Z.to_N n).

Definition between (lo n hi : Z) : bool := (lo <=? n) && (n <=? hi).

(** [str.isspace] on one character; also the class [\s] of [re]. *)
Definition isspace (c : ascii) : bool :=
  let n := ord c in
  between 9 n 13 || between 28 n 32 || (n =? 133) || (n =? 160).

(** [str.isdigit] on one character: the decimal digits and the
    superscripts one, two and three. *)
Definition isdigit (c : ascii) : bool :=
  let n := ord c in
  between 48 n 57 || (n =? 178) || (n =? 179) || (n =? 185).

(** The class [\d] of [re]: decimal digits only. *)
Definition isdecimal (c : ascii) : bool := between 48 (ord c) 57.

(** [c in string.punctuation]. *)
Definition ispunct (c : ascii) : bool :=
  let n := ord c in
  between 33 n 47 || between 58 n 64 || between 91 n 96 || between 123 n 126.

Definition lower_char (c : ascii) : ascii :=
  let n := ord c in
  if between 65 n 90 || (between 192 n 222 && negb (n =? 215))
  then chr (n + 32) else c.

(** [str.upper], on the unaccented letters; the source applies it to the
    four component names only. *)
Definition upper_char (c : ascii) : ascii :=
  let n := ord c in
  if between 97 n 122 then chr (n - 32) else c.

Fixpoint smap (f : ascii -> ascii) (s : string) : string :=
  match s with
  | EmptyString => EmptyString
  | String c s' => String (f c) (smap f s')
  end.

Definition lower (s : string) : string := smap lower_char s.
Definition upper (s : string) : string := smap upper_char s.

Definition len (s : string) : Z := Z.of_nat (String.length s).
Definition llen {A} (l : list A) : Z := Z.of_nat (List.length l).

Definition nonempty (s : string) : bool :=
  match s with EmptyString => false | String _ _ => true end.

Definition startswith (s p : string) : bool := String.prefix p s.

(** [sub in s]. *)
Fixpoint contains (sub s : string) : bool :=
  String.prefix sub s ||
  match s with
  | EmptyString => false
  | String _ s' => contains sub s'
  end.

(** [c in s] for a single character. *)
Fixpoint has_char (c : ascii) (s : string) : bool :=
  match s with
  | EmptyString => false
  | String d s' => Ascii.eqb c d || has_char c s'
  end.

(** [s.count(sub)] for a non-empty [sub]: occurrences that do not overlap,
    found left to right.  [skip] characters of the last occurrence are
    still to be passed. *)
Fixpoint count_from (sub s : string) (skip : nat) : Z :=
  match s with
  | EmptyString => 0
  | String _ s' =>
      match skip with
      | S k => count_from sub s' k
      | O => if String.prefix sub s
             then 1 + count_from sub s' (String.length sub - 1)
             else count_from sub s' 0
      end
  end.

Definition count (s sub : string) : Z := count_from sub s 0.

(** The pieces of [s] between the characters that satisfy [sep], empty
    pieces included; [cur] is the piece being read. *)
Fixpoint fields (sep : ascii -> bool) (s cur : string) : list string :=
  match s with
  | EmptyString => [cur]
  | String c s' =>
      if sep c then cur :: fields sep s' EmptyString
      else fields sep s' (cur ++ String c EmptyString)
  end.

(** [s.split()]: the maximal runs of characters that are not white space. *)
Definition split (s : string) : list string :=
  filter nonempty (fields isspace s EmptyString).

Fixpoint lstrip (s : string) : string :=
  match s with
  | EmptyString => EmptyString
  | String c s' => if isspace c then lstrip s' else s
  end.

Fixpoint rstrip (s : string) : string :=
  match s with
  | EmptyString => EmptyString
  | String c s' =>
      let r := rstrip s' in
      if isspace c && negb (nonempty r) then EmptyString else String c r
  end.

Definition strip (s : string) : string := rstrip (lstrip s).

(** [s.replace(old, new)] for a one-character [old]. *)
Fixpoint replace (s : string) (old : ascii) (new : string) : string :=
  match s with
  | EmptyString => EmptyString
  | String c s' =>
      if Ascii.eqb c old then new ++ replace s' old new
      else String c (replace s' old new)
  end.

(** [len(set(s))]. *)
Definition distinct_chars (s : string) : Z :=
  llen (nodup ascii_dec (list_ascii_of_string s)).

(** [sum(1 for c in s if p(c))]. *)
Fixpoint count_chars (p : ascii -> bool) (s : string) : Z :=
  match s with
  | EmptyString => 0
  | String c s' => (if p c then 1 else 0) + count_chars p s'
  end.

Definition join (sep : string) (l : list string) : string := String.concat sep l.

Definition sum (l : list Z) : Z := fold_left Z.add l 0.

(** [sum(1 for x in l if p(x))]. *)
Definition count_if {A} (p : A -> bool) (l : list A) : Z :=
  llen (filter p l).

(** [l.append(x)], as a new list. *)
Definition append {A} (l : list A) (x : A) : list A := (l ++ [x])%list.

(** [l[:n]]. *)
Definition take {A} (n : nat) (l : list A) : list A := firstn n l.

(** Insertion-ordered [dict] with string keys. *)
Definition dict (V : Type) : Type := list (string * V).

Fixpoint get {V} (d : dict V) (k : string) : option V :=
  match d with
  | [] => None
  | (k', v) :: d' => if String.eqb k k' then Some v else get d' k
  end.

Fixpoint set {V} (d : dict V) (k : string) (v : V) : dict V :=
  match d with
  | [] => [(k, v)]
  | (k', v') :: d' =>
      if String.eqb k k' then (k', v) :: d' else (k', v') :: set d' k v
  end.

Definition keys {V} (d : dict V) : list string := map fst d.
Definition values {V} (d : dict V) : list V := map snd d.

(** Floats. *)
Definition Z2Q (n : Z) : Q := inject_Z n.

Definition Qlt_bool (x y : Q) : bool := negb (Qle_bool y x).

(** [int(x)]: truncation toward zero. *)
Definition int (x : Q) : Z := Z.quot (Qnum x) (Zpos (Qden x)).

(** [min(x, y)] of two numbers: [y] only where it is smaller. *)
Definition fmin (x y : Q) : Q := if Qlt_bool y x then y else x.

End Py.

(** ** Regular expressions ([re.search] under [re.IGNORECASE]) *)

Module Re.

Inductive regex : Type :=
| Empty                       (* matches nothing *)
| Eps                         (* the empty word *)
| Chr (c : ascii)             (* a literal character *)
| Dot                         (* [.]: any character but a line feed *)
| Space                       (* [\s] *)
| Digit                       (* [\d] *)
| Seq (r1 r2 : regex)
| Alt (r1 r2 : regex)
| Star (r : regex).

Definition Opt (r : regex) : regex := Alt r Eps.
Definition Plus (r : regex) : regex := Seq r (Star r).

Fixpoint Lit (s : string) : regex :=
  match s with
  | EmptyString => Eps
  | String c s' => Seq (Chr c) (Lit s')
  end.

Fixpoint nullable (r : regex) : bool :=
  match r with
  | Empty | Chr _ | Dot | Space | Digit => false
  | Eps | Star _ => true
  | Seq r1 r2 => nullable r1 && nullable r2
  | Alt r1 r2 => nullable r1 || nullable r2
  end.

Definition seq (r1 r2 : regex) : regex :=
  match r1, r2 with
  | Empty, _ | _, Empty => Empty
  | Eps, _ => r2
  | _, _ => Seq r1 r2
  end.

Definition alt (r1 r2 : regex) : regex :=
  match r1, r2 with
  | Empty, _ => r2
  | _, Empty => r1
  | _, _ => Alt r1 r2
  end.

Definition LF : ascii := Py.chr 10.

(** Two characters are the same up to case. *)
Definition same_char (c d : ascii) : bool :=
  Ascii.eqb (Py.lower_char c) (Py.lower_char d).

Definition of_bool (b : bool) : regex := if b then Eps else Empty.

(** The derivative of [r] by the character [d]. *)
Fixpoint deriv (d : ascii) (r : regex) : regex :=
  match r with
  | Empty | Eps => Empty
  | Chr c => of_bool (same_char c d)
  | Dot => of_bool (negb (Ascii.eqb d LF))
  | Space => of_bool (Py.isspace d)
  | Digit => of_bool (Py.isdecimal d)
  | Seq r1 r2 =>
      if nullable r1 then alt (seq (deriv d r1) r2) (deriv d r2)
      else seq (deriv d r1) r2
  | Alt r1 r2 => alt (deriv d r1) (deriv d r2)
  | Star r1 => seq (deriv d r1) (Star r1)
  end.

(** Some prefix of [s] matches [r]. *)
Fixpoint match_prefix (r : regex) (s : string) : bool :=
  nullable r ||
  match s with
  | EmptyString => false
  | String c s' => match_prefix (deriv c r) s'
  end.

(** All of [s] matches [r]. *)
Fixpoint match_all (r : regex) (s : string) : bool :=
  match s with
  | EmptyString => nullable r
  | String c s' => match_all (deriv c r) s'
  end.

(** Some substring of [s] matches [r]. *)
Fixpoint match_anywhere (r : regex) (s : string) : bool :=
  match_prefix r s ||
  match s with
  | EmptyString => false
  | String _ s' => match_anywhere r s'
  end.

(** [s] starts with [n] more characters that are [c] up to case. *)
Fixpoint run_of (c : ascii) (n : nat) (s : string) : bool :=
  match n with
  | O => true
  | S k =>
      match s with
      | EmptyString => false
      | String d s' => same_char c d && run_of c k s'
      end
  end.

(** Some character other than a line feed is followed by at least [n]
    copies of itself. *)
Fixpoint repeated (n : nat) (s : string) : bool :=
  match s with
  | EmptyString => false
  | String c s' =>
      (negb (Ascii.eqb c LF) && run_of c n s') || repeated n s'
  end.

(** The shapes of pattern the source uses. *)
Inductive pattern : Type :=
| Find (r : regex)        (* [r], no anchor *)
| Whole (r : regex)       (* [^r$] *)
| Repeat (n : nat).       (* [(.)\1{n,}] *)

(** [bool(re.search(p, s, re.IGNORECASE))].  Without [re.MULTILINE], [^]
    is the start of the text and [$] its end or the place before a final
    line feed. *)
Definition search (p : pattern) (s : string) : bool :=
  match p with
  | Find r => match_anywhere r s
  | Whole r => match_all (Seq r (Opt (Chr LF))) s
  | Repeat n => repeated n s
  end.

(** [re.split] on a class of single characters. *)
Definition split_class (cls s : string) : list string :=
  Py.fields (fun c => Py.has_char c cls) s EmptyString.

End Re.

(** ** Exceptions and the call trace *)

Inductive exn : Type := ZeroDivisionError | ValueError | KeyError.

(** The functions of the module. *)
Inductive fn : Type :=
| Fdetect_gibberish
| Fcheck_answer_relevance
| Fdetect_red_flags
| Fanalyze_hr_response
| Fevaluate_clarity
| Fevaluate_confidence
| Fevaluate_star_structure
| Fdetect_star_components
| Fcount_confidence_keywords
| Fcount_leadership_keywords
| Fgenerate_rejection_feedback
| Fgenerate_hr_feedback.

(** A computation either raises or returns, and lists the functions it
    entered, in order. *)
Definition M (A : Type) : Type := (exn + A) * list fn.

Definition ret {A} (a : A) : M A := (inr a, []).
Definition raise {A} (e : exn) : M A := (inl e, []).
Definition enter (f : fn) : M unit := (inr tt, [f]).

Definition bind {A B} (m : M A) (k : A -> M B) : M B :=
  match m with
  | (inl e, l) => (inl e, l)
  | (inr a, l) => let (r, l') := k a in (r, (l ++ l')%list)
  end.

Notation "x <- m ;; k" := (bind m (fun x => k))
  (at level 61, m at next level, right associativity).
Notation "m ;; k" := (bind m (fun _ => k))
  (at level 61, right associativity).

Definition value {A} (m : M A) : option A :=
  match fst m with inr a => Some a | inl _ => None end.
Definition trace {A} (m : M A) : list fn := snd m.

(** [x / y]. *)
Definition truediv (x y : Q) : M Q :=
  if Qeq_bool y 0 then raise ZeroDivisionError else ret (x / y)%Q.

(** [max(l)] and [min(l)] of a sequence. *)
Definition pymax (l : list Z) : M Z :=
  match l with
  | [] => raise ValueError
  | x :: l' => ret (fold_left Z.max l' x)
  end.

Definition pymin (l : list Z) : M Z :=
  match l with
  | [] => raise ValueError
  | x :: l' => ret (fold_left Z.min l' x)
  end.

(** [d[k]]. *)
Definition getitem {V} (d : Py.dict V) (k : string) : M V :=
  match Py.get d k with
  | Some v => ret v
  | None => raise KeyError
  end.

(** Truth value of a list. *)
Definition truthy {A} (l : list A) : bool :=
  match l with [] => false | _ :: _ => true end.

(** ** Lexicons *)

Import Re.

Definition CONFIDENCE_KEYWORDS : list string :=
  [ "led"; "lead"; "managed"; "directed"; "spearheaded"; "initiated";
    "achieved"; "accomplished"; "delivered"; "exceeded"; "surpassed";
    "improved"; "increased"; "reduced"; "optimized"; "transformed";
    "responsible"; "ownership"; "accountable"; "drove"; "championed";
    "successfully"; "effectively"; "efficiently"; "proactively";
    "decided"; "determined"; "resolved"; "solved"; "overcame" ].

Definition LEADERSHIP_KEYWORDS : list string :=
  [ "team"; "collaborated"; "coordinated"; "mentored"; "coached";
    "delegated"; "motivated"; "inspired"; "influenced"; "persuaded";
    "negotiated"; "facilitated"; "organized"; "supervised"; "trained";
    "led"; "leadership"; "cross-functional"; "stakeholder"; "consensus" ].

Definition STAR_INDICATORS : Py.dict (list string) :=
  [ ("situation",
     [ "situation"; "context"; "background"; "scenario"; "challenge";
       "problem"; "issue"; "when"; "while working"; "at my previous";
       "in my role"; "during"; "faced with" ]);
    ("task",
     [ "task"; "responsibility"; "goal"; "objective"; "assigned";
       "needed to"; "had to"; "required to"; "expected to"; "my role was";
       "i was responsible"; "charged with" ]);
    ("action",
     [ "action"; "i did"; "i took"; "implemented"; "developed"; "created";
       "designed"; "built"; "established"; "initiated"; "executed";
       "i decided"; "i started"; "i began"; "my approach"; "steps i took" ]);
    ("result",
     [ "result"; "outcome"; "impact"; "achieved"; "accomplished";
       "led to"; "resulted in"; "consequently"; "as a result"; "ultimately";
       "success"; "improved"; "increased"; "reduced"; "saved"; "delivered" ]) ].

Definition QUESTION_RELEVANCE_MAP : Py.dict (list string) :=
  [ ("challenge",
     [ "challenge"; "difficult"; "hard"; "problem"; "obstacle"; "struggle";
       "issue"; "tough"; "overcome" ]);
    ("difficult team member",
     [ "team"; "colleague"; "coworker"; "conflict"; "disagreement";
       "difficult person"; "communication" ]);
    ("leadership",
     [ "lead"; "led"; "team"; "managed"; "directed"; "initiative"; "guided";
       "motivated"; "inspired" ]);
    ("failed",
     [ "fail"; "mistake"; "error"; "wrong"; "learned"; "lesson"; "setback";
       "didn't work" ]);
    ("deadline",
     [ "deadline"; "time"; "urgent"; "quick"; "fast"; "pressure"; "rushed";
       "days"; "hours"; "weeks" ]);
    ("above and beyond",
     [ "extra"; "beyond"; "more than"; "additional"; "volunteered";
       "initiative"; "own time" ]);
    ("persuade",
     [ "persuade"; "convince"; "argument"; "presented"; "explained";
       "showed"; "demonstrated"; "negotiated" ]);
    ("feedback",
     [ "feedback"; "criticism"; "critique"; "review"; "told me"; "suggested";
       "improved"; "changed" ]) ].

(** [r1 r2 ... rn]. *)
Definition Cat (l : list regex) : regex := fold_right Seq Eps l.

(** [(w1|w2|...|wn)]. *)
Definition Words (l : list string) : regex :=
  fold_right (fun w r => Alt (Lit w) r) Empty l.

Definition RED_FLAG_PATTERNS : list pattern :=
  [ Find (Lit "asdf"); Find (Lit "qwerty"); Find (Lit "zxcv");
    Find (Lit "jkl");
    Find (Cat [Chr ";"; Star Space; Chr ";"; Star Space; Chr ";"]);
    Repeat 4;
    Find (Cat [Lit "test"; Star Space; Lit "test"]);
    Find (Cat [Lit "hello"; Star Space; Lit "hello"]);
    Find (Cat [Lit "blah"; Star Space; Lit "blah"]);
    Whole (Cat [Words [ "yes"; "no"; "ok"; "okay"; "sure"; "fine"; "good";
                        "bad"; "idk"; "dunno" ];
                Opt (Chr ".")]);
    Find (Lit "lorem ipsum");
    Find (Cat [Lit "i don"; Opt (Chr "'"); Lit "t know"]);
    Find (Lit "no idea");
    Find (Lit "not sure") ].

(** The pattern [\d+%?]. *)
Definition NUMBER_PATTERN : pattern := Find (Cat [Plus Digit; Opt (Chr "%")]).

Definition VAGUE_PHRASES : list string :=
  [ "i worked hard"; "i did my best"; "i tried"; "we worked together";
    "it was difficult"; "i managed it"; "things worked out"; "it went well";
    "i handled it"; "i dealt with it"; "we figured it out";
    "i made it happen"; "i was successful"; "good results";
    "positive outcome"; "everything was fine" ].

Definition HEDGING_WORDS : list string :=
  [ "maybe"; "perhaps"; "i think"; "i guess"; "sort of"; "kind of";
    "probably"; "might have"; "could have"; "possibly"; "somewhat";
    "i believe"; "i feel like"; "in a way"; "more or less" ].

Definition OFF_TOPIC_PHRASES : list string :=
  [ "what was the question"; "can you repeat"; "i forgot";
    "anyway"; "by the way"; "unrelated but"; "off topic" ].

(** [any(p in text for p in phrases)]. *)
Definition any_in (phrases : list string) (text : string) : bool :=
  existsb (fun p => Py.contains p text) phrases.

(** [sum(1 for p in phrases if p in text)]. *)
Definition count_in (phrases : list string) (text : string) : Z :=
  Py.count_if (fun p => Py.contains p text) phrases.

(** ** Result records *)

Record GibberishVerdict : Type := {
  is_gibberish : bool;
  severity : Z;
  issues : list string
}.

Record RelevanceVerdict : Type := {
  relevance_score : Z;
  question_type : option string;
  rel_issues : list string;
  is_relevant : bool
}.

(** The [details] entry; the rejection result has no [relevance_issues]
    key. *)
Record Details : Type := {
  star_components_found : Py.dict bool;
  confidence_keywords_found : Z;
  leadership_keywords_found : Z;
  red_flags : list string;
  relevance_issues : option (list string)
}.

(** The result of the analysis; only the rejection result has a
    [rejection_reason] key. *)
Record AnalysisResult : Type := {
  clarity : Z;
  confidence : Z;
  structure : Z;
  feedback : string;
  total_score : Z;
  is_valid : bool;
  rejection_reason : option string;
  details : Details
}.

(** ** The detectors *)

(** [issues.append(msg); severity = max(severity, s)] on the pair
    [(issues, severity)]. *)
Definition flag (msg : string) (s : Z) (st : list string * Z) : list string * Z :=
  (Py.append (fst st) msg, Z.max (snd st) s).

Definition detect_gibberish (text : string) : M GibberishVerdict :=
  enter Fdetect_gibberish ;;
  let text_lower := Py.lower text in
  let st : list string * Z := ([], 0) in
  (* red flag patterns: the loop stops at the first one found *)
  let st :=
    if existsb (fun pattern => Re.search pattern text_lower) RED_FLAG_PATTERNS
    then flag "Contains random or placeholder text" 3 st else st in
  (* character diversity *)
  let unique_chars := Py.distinct_chars (Py.replace text_lower " " "") in
  let total_chars := Py.len (Py.replace text_lower " " "") in
  let st :=
    if (total_chars >? 20) && (unique_chars <? 8)
    then flag "Very low character diversity - appears random" 3 st else st in
  (* excessive punctuation *)
  let punct_count := Py.count_chars Py.ispunct text in
  excessive <-
    (if Py.len text >? 10
     then r <- truediv (Py.Z2Q punct_count) (Py.Z2Q (Py.len text)) ;;
          ret (Py.Qlt_bool (3 # 10) r)
     else ret false) ;;
  let st := if excessive then flag "Excessive punctuation" 2 st else st in
  (* too many numbers *)
  digit_ratio <-
    truediv (Py.Z2Q (Py.count_chars Py.isdigit text))
            (Py.Z2Q (Z.max (Py.len text) 1)) ;;
  let st :=
    if Py.Qlt_bool (3 # 10) digit_ratio
       && negb (Py.contains "%" text) && negb (Py.contains "$" text)
    then flag "Excessive numbers without context" 2 st else st in
  (* word repetition *)
  let words := Py.split text_lower in
  st <-
    (if truthy words
     then
       let word_counts : Py.dict Z :=
         fold_left
           (fun wc word =>
              if Py.len word >? 2
              then Py.set wc word
                     (match Py.get wc word with Some n => n | None => 0 end + 1)
              else wc)
           words [] in
       max_repetition <-
         (if truthy word_counts then pymax (Py.values word_counts) else ret 0) ;;
       ret (if (max_repetition >? 5) && (Py.llen words <? 50)
            then flag "Excessive word repetition" 2 st else st)
     else ret st) ;;
  (* average word length *)
  st <-
    (if truthy words
     then
       avg_word_len <-
         truediv (Py.Z2Q (Py.sum (map Py.len words))) (Py.Z2Q (Py.llen words)) ;;
       ret (if Py.Qlt_bool 12 avg_word_len || Py.Qlt_bool avg_word_len 2
            then flag "Unusual word patterns" 2 st else st)
     else ret st) ;;
  ret {| is_gibberish := snd st >=? 2;
         severity := snd st;
         issues := fst st |}.

(** [issues.append(msg); relevance_score += d] on the pair
    [(issues, relevance_score)]. *)
Definition note (msg : string) (d : Z) (st : list string * Z) : list string * Z :=
  (Py.append (fst st) msg, snd st + d).

Definition story_indicators : list string :=
  [ "when"; "once"; "time"; "example"; "project"; "company"; "role"; "job" ].

Definition generic_starts : list string :=
  [ "i am a hard worker"; "i always try"; "i believe in"; "i am passionate";
    "communication is important"; "teamwork is essential"; "i am dedicated" ].

Definition check_answer_relevance (question answer : string) : M RelevanceVerdict :=
  enter Fcheck_answer_relevance ;;
  let question_lower := Py.lower question in
  let answer_lower := Py.lower answer in
  let st : list string * Z := ([], 5) in
  (* question type: the first entry of the map with a keyword in the question *)
  let question_type :=
    option_map fst
      (find (fun entry => any_in (snd entry) question_lower)
            QUESTION_RELEVANCE_MAP) in
  st <-
    (match question_type with
     | Some q_type =>
         if Py.nonempty q_type then
           relevant_keywords <- getitem QUESTION_RELEVANCE_MAP q_type ;;
           let matches := count_in relevant_keywords answer_lower in
           ret (if matches =? 0
                then note ("Answer doesn't address the '" ++ q_type
                           ++ "' aspect of the question") (-3) st
                else if matches >=? 2 then (fst st, snd st + 2)
                else st)
         else ret st
     | None => ret st
     end) ;;
  (* off-topic indicators: the loop stops at the first one found *)
  let st :=
    if any_in OFF_TOPIC_PHRASES answer_lower
    then note "Contains off-topic indicators" (-2) st else st in
  let has_story := any_in story_indicators answer_lower in
  let st :=
    if negb has_story && (Py.llen (Py.split answer) >? 20)
    then note "Doesn't provide a specific example or story" (-2) st else st in
  (* generic non-answers: the loop stops at the first one found *)
  let st :=
    if existsb (fun phrase =>
                  Py.startswith answer_lower phrase
                  || Py.contains (". " ++ phrase) answer_lower)
               generic_starts
    then note "Uses generic statements instead of specific examples" (-2) st
    else st in
  let relevance_score := snd st in
  ret {| relevance_score := Z.max 0 (Z.min 10 relevance_score);
         question_type := question_type;
         rel_issues := fst st;
         is_relevant := relevance_score >=? 4 |}.

Definition blame_patterns : list string :=
  [ "it was their fault"; "they made me"; "not my fault"; "blame";
    "they didn't"; "my manager was bad"; "my team was incompetent";
    "no one helped me"; "they were useless" ].

Definition negative_patterns : list string :=
  [ "i hate"; "i hated"; "stupid"; "dumb"; "worst"; "terrible company";
    "bad manager"; "toxic"; "the company was awful" ].

Definition too_brief : string :=
  "Response is too brief for a behavioral question - shows lack of depth or preparation".

Definition detect_red_flags (answer : string) : M (list string) :=
  enter Fdetect_red_flags ;;
  let answer_lower := Py.lower answer in
  let red_flags : list string := [] in
  let red_flags :=
    if any_in blame_patterns answer_lower
    then Py.append red_flags
      "Blames others instead of taking accountability - major red flag in big tech interviews"
    else red_flags in
  let red_flags :=
    if any_in negative_patterns answer_lower
    then Py.append red_flags
      "Displays negative attitude about previous employers - interviewers note this"
    else red_flags in
  let we_count := Py.count answer_lower " we " in
  let i_count := Py.count answer_lower " i " in
  let red_flags :=
    if (we_count >? 5) && (i_count <? 2)
    then Py.append red_flags
      "Uses 'we' excessively without clarifying your individual contribution"
    else red_flags in
  result_indicators <- getitem STAR_INDICATORS "result" ;;
  let has_result_keywords := any_in result_indicators answer_lower in
  let has_numbers := Re.search NUMBER_PATTERN answer in
  let word_count := Py.llen (Py.split answer) in
  let red_flags :=
    if (word_count >? 50) && negb has_result_keywords
    then Py.append red_flags
      "Long answer with no clear outcome or result mentioned"
    else red_flags in
  let red_flags :=
    if has_result_keywords && negb has_numbers && (word_count >? 30)
    then Py.append red_flags
      "Claims results but provides no quantifiable metrics (%, $, time saved, etc.)"
    else red_flags in
  let red_flags :=
    if word_count <? 30 then Py.append red_flags too_brief else red_flags in
  let hedge_count := count_in HEDGING_WORDS answer_lower in
  let red_flags :=
    if hedge_count >=? 3
    then Py.append red_flags "Excessive hedging language undermines confidence"
    else red_flags in
  let vague_count := count_in VAGUE_PHRASES answer_lower in
  let red_flags :=
    if vague_count >=? 2
    then Py.append red_flags
      "Uses vague phrases without concrete details - interviewers want specifics"
    else red_flags in
  ret red_flags.

(** ** The scorers *)

(** The sentences of an answer: the pieces between [.], [!] and [?],
    stripped, the empty ones dropped. *)
Definition sentences_of (answer : string) : list string :=
  filter Py.nonempty (map Py.strip (Re.split_class ".!?" answer)).

Definition Qle_and (lo x hi : Q) : bool := Qle_bool lo x && Qle_bool x hi.

Definition evaluate_clarity (answer : string) : M Z :=
  enter Fevaluate_clarity ;;
  let word_count := Py.llen (Py.split answer) in
  if word_count <? 5 then ret 1 else
  if word_count <? 10 then ret 2 else
  if word_count <? 20 then ret 3 else
  let score := 3 in
  let sentences := sentences_of answer in
  if negb (truthy sentences) then ret 1 else
  if Py.llen sentences <? 2 then ret 2 else
  avg_words_per_sentence <-
    truediv (Py.Z2Q (Py.sum (map (fun s => Py.llen (Py.split s)) sentences)))
            (Py.Z2Q (Py.llen sentences)) ;;
  let score :=
    if Qle_and 10 avg_words_per_sentence 25 then score + 4
    else if Qle_and 8 avg_words_per_sentence 30 then score + 2
    else if Py.Qlt_bool 40 avg_words_per_sentence then score - 1
    else if Py.Qlt_bool avg_words_per_sentence 5 then score - 1
    else score in
  (* run-on sentences *)
  let long_sentences :=
    Py.count_if (fun s => Py.llen (Py.split s) >? 40) sentences in
  let score :=
    if (long_sentences =? 0) && (Py.llen sentences >=? 3)
    then score + 2 else score in
  (* sentence variation *)
  score <-
    (if Py.llen sentences >=? 4
     then
       let lengths := map (fun s => Py.llen (Py.split s)) sentences in
       longest <- pymax lengths ;;
       shortest <- pymin lengths ;;
       let variation := longest - shortest in
       ret (if variation >? 5 then score + 1 else score)
     else ret score) ;;
  ret (Z.max 1 (Z.min 10 score)).

Definition count_confidence_keywords (answer_lower : string) : M Z :=
  enter Fcount_confidence_keywords ;;
  ret (count_in CONFIDENCE_KEYWORDS answer_lower).

Definition count_leadership_keywords (answer_lower : string) : M Z :=
  enter Fcount_leadership_keywords ;;
  ret (count_in LEADERSHIP_KEYWORDS answer_lower).

Definition first_person_patterns : list string :=
  [ "i led"; "i managed"; "i decided"; "i took"; "my decision"; "i initiated" ].

(** The list [hedging_words] local to [evaluate_confidence]. *)
Definition hedging_words : list string :=
  [ "maybe"; "perhaps"; "i think"; "i guess"; "sort of"; "kind of";
    "probably" ].

Definition evaluate_confidence (answer_lower : string) : M Z :=
  enter Fevaluate_confidence ;;
  let word_count := Py.llen (Py.split answer_lower) in
  if word_count <? 10 then ret 2 else
  if word_count <? 20 then ret 3 else
  let score := 2 in
  confidence_count <- count_confidence_keywords answer_lower ;;
  leadership_count <- count_leadership_keywords answer_lower ;;
  let total_keywords := confidence_count + leadership_count in
  let score :=
    if total_keywords >=? 8 then score + 5
    else if total_keywords >=? 5 then score + 4
    else if total_keywords >=? 3 then score + 3
    else if total_keywords >=? 2 then score + 2
    else if total_keywords >=? 1 then score + 1
    else score in
  let ownership_count := count_in first_person_patterns answer_lower in
  let score :=
    if ownership_count >=? 3 then score + 2
    else if ownership_count >=? 1 then score + 1
    else score in
  let hedge_count := count_in hedging_words answer_lower in
  let score :=
    if hedge_count >=? 3 then score - 3
    else if hedge_count >=? 1 then score - 1
    else score in
  ret (Z.max 1 (Z.min 10 score)).

Definition detect_star_components (answer_lower : string) : M (Py.dict bool) :=
  enter Fdetect_star_components ;;
  ret (fold_left
         (fun components entry =>
            let found := any_in (snd entry) answer_lower in
            Py.set components (fst entry) found)
         STAR_INDICATORS []).

(** Truth value of [d.get(k)]. *)
Definition get_truthy (d : Py.dict bool) (k : string) : bool :=
  match Py.get d k with Some b => b | None => false end.

Definition evaluate_star_structure (answer_lower : string) : M Z :=
  enter Fevaluate_star_structure ;;
  let word_count := Py.llen (Py.split answer_lower) in
  if word_count <? 10 then ret 1 else
  if word_count <? 20 then ret 2 else
  components_found <- detect_star_components answer_lower ;;
  let components_count :=
    Py.sum (map (fun b : bool => if b then 1 else 0) (Py.values components_found)) in
  let score :=
    if components_count =? 4 then 10
    else if components_count =? 3 then 7
    else if components_count =? 2 then 4
    else if components_count =? 1 then 2
    else 1 in
  let score :=
    if get_truthy components_found "situation"
       && get_truthy components_found "result"
    then Z.min 10 (score + 1) else score in
  ret score.

(** ** Feedback

    The feedback is only assembled, never inspected; its literals hold
    the source's text in UTF-8. *)

Definition newline : string := String Re.LF EmptyString.

Definition generate_rejection_feedback (issues : list string) : M string :=
  enter Fgenerate_rejection_feedback ;;
  ret ("This response cannot be evaluated. " ++
       Py.join " " issues ++ " " ++
       "In a real interview at companies like Google, Amazon, or Microsoft, " ++
       "this type of response would immediately disqualify you. " ++
       "Please provide a genuine, thoughtful answer that describes a specific situation from your experience.").

Definition bullet (s : string) : string := "• " ++ s.

(** The mean of the three scores is the exact rational here; the float
    of the source compares alike with 8, 6, 4 and 2 for the scores from
    1 to 10 that the orchestrator passes (for integers too large for a
    float Python would raise [OverflowError], which is not modelled). *)
Definition generate_hr_feedback (clarity confidence structure : Z)
    (answer_lower : string) (red_flags : list string)
    (relevance_result : option RelevanceVerdict) : M string :=
  enter Fgenerate_hr_feedback ;;
  let feedback_parts : list string := [] in
  avg_score <- truediv (Py.Z2Q (clarity + confidence + structure)) 3 ;;
  (* red flags first *)
  let feedback_parts :=
    if truthy red_flags
    then (feedback_parts ++ ["🚨 CRITICAL ISSUES DETECTED:"]
          ++ map bullet (Py.take 3 red_flags) ++ [""])%list
    else feedback_parts in
  (* relevance issues *)
  let feedback_parts :=
    match relevance_result with
    | Some rr =>
        if truthy (rel_issues rr)
        then (feedback_parts ++ ["⚠️ RELEVANCE CONCERNS:"]
              ++ map bullet (Py.take 2 (rel_issues rr)) ++ [""])%list
        else feedback_parts
    | None => feedback_parts
    end in
  (* structure *)
  components <- detect_star_components answer_lower ;;
  let missing_components :=
    map (fun kv => Py.upper (fst kv)) (filter (fun kv => negb (snd kv)) components) in
  let present_components :=
    map (fun kv => Py.upper (fst kv)) (filter (fun kv => snd kv) components) in
  let feedback_parts := Py.append feedback_parts "📋 STRUCTURE ANALYSIS:" in
  let feedback_parts :=
    if structure >=? 8 then
      Py.append feedback_parts
        "• Strong STAR method execution. All components clearly present."
    else if structure >=? 5 then
      let feedback_parts :=
        Py.append feedback_parts
          ("• Partial STAR structure detected. Found: " ++
           (if truthy present_components
            then Py.join ", " present_components else "None") ++ ".") in
      if truthy missing_components
      then Py.append feedback_parts
             ("• Missing: " ++ Py.join ", " missing_components ++
              ". At Google/Amazon, incomplete STAR = incomplete answer.")
      else feedback_parts
    else if structure >=? 3 then
      (feedback_parts ++
       [ "• Weak structure. Your answer rambles without clear organization.";
         ("• Missing STAR components: " ++ Py.join ", " missing_components ++ ".")%string;
         "• Big tech interviewers are trained to detect missing structure - this would hurt your scorecard." ])%list
    else
      (feedback_parts ++
       [ "• No discernible STAR structure. This is a fundamental requirement for behavioral interviews.";
         "• At companies like Meta, Microsoft, or Amazon, this answer would receive a 'Not Inclined' rating." ])%list in
  let feedback_parts := Py.append feedback_parts "" in
  (* confidence and ownership *)
  let feedback_parts := Py.append feedback_parts "💪 OWNERSHIP & CONFIDENCE:" in
  let we_count := Py.count answer_lower " we " in
  let i_count := Py.count answer_lower " i " in
  let feedback_parts :=
    if confidence >=? 8 then
      Py.append feedback_parts
        "• Good use of first-person ownership. You clearly articulated your individual contributions."
    else if confidence >=? 5 then
      if we_count >? i_count then
        (feedback_parts ++
         [ "• Too much 'we' and not enough 'I'. Interviewers want to know what YOU did, not your team.";
           "• Hiring managers will ask: 'But what was YOUR specific contribution?'" ])%list
      else
        Py.append feedback_parts
          "• Moderate confidence shown. Add more action verbs (led, drove, delivered, achieved)."
    else if confidence >=? 3 then
      (feedback_parts ++
       [ "• Weak ownership demonstrated. You sound unsure of your own contributions.";
         "• Hedging words like 'maybe', 'I think', 'sort of' undermine your credibility." ])%list
    else
      (feedback_parts ++
       [ "• Poor confidence projection. In a real interview, this would raise doubts about your capabilities.";
         "• Senior interviewers specifically look for candidates who can clearly articulate their impact." ])%list in
  let feedback_parts := Py.append feedback_parts "" in
  (* clarity *)
  let feedback_parts := Py.append feedback_parts "🎯 CLARITY & COMMUNICATION:" in
  let feedback_parts :=
    if clarity >=? 8 then
      Py.append feedback_parts
        "• Clear, well-structured sentences. Easy to follow your narrative."
    else if clarity >=? 5 then
      (feedback_parts ++
       [ "• Acceptable clarity but could be sharper. Aim for concise, punchy sentences.";
         "• Remember: interviewers are evaluating 5-8 candidates. Make your points memorable." ])%list
    else if clarity >=? 3 then
      (feedback_parts ++
       [ "• Unclear communication. Sentences are either too long or too choppy.";
         "• Practice the 'headline + details' approach: state your point, then elaborate." ])%list
    else
      (feedback_parts ++
       [ "• Very poor clarity. Hard to understand your main points.";
         "• This would be flagged as a communication concern in interviewer feedback." ])%list in
  let feedback_parts := Py.append feedback_parts "" in
  (* metrics *)
  let has_metrics := Re.search NUMBER_PATTERN answer_lower in
  let feedback_parts :=
    if negb has_metrics && Py.Qlt_bool avg_score 8 then
      (feedback_parts ++
       [ "📊 MISSING METRICS:";
         "• No quantifiable results mentioned. Big tech LOVES numbers.";
         "• Add metrics like: '20% improvement', 'reduced from 2 weeks to 3 days', '$50K saved'.";
         "" ])%list
    else feedback_parts in
  (* overall verdict *)
  let feedback_parts := Py.append feedback_parts "📝 OVERALL ASSESSMENT:" in
  let feedback_parts :=
    if Qle_bool 8 avg_score then
      (feedback_parts ++
       [ "• STRONG RESPONSE - Would likely receive a 'Strong Hire' signal for behavioral fit.";
         "• This demonstrates the depth and structure expected at top tech companies." ])%list
    else if Qle_bool 6 avg_score then
      (feedback_parts ++
       [ "• ACCEPTABLE RESPONSE - 'Inclined' but not exceptional.";
         "• In a competitive loop, this might not be enough. Aim higher." ])%list
    else if Qle_bool 4 avg_score then
      (feedback_parts ++
       [ "• WEAK RESPONSE - Would likely receive a 'Not Inclined' rating.";
         "• At companies like Amazon (Bar Raiser interviews), this would be concerning.";
         "• You need significant improvement in structure and specificity." ])%list
    else if Qle_bool 2 avg_score then
      (feedback_parts ++
       [ "• POOR RESPONSE - Would result in 'Strong No Hire' feedback.";
         "• This answer shows lack of preparation for behavioral interviews.";
         "• Recommend: Study STAR method, prepare 6-8 stories with specific metrics." ])%list
    else
      (feedback_parts ++
       [ "• UNACCEPTABLE RESPONSE - Interview would likely be stopped early.";
         "• This type of answer suggests either unprepared candidate or poor fit.";
         "• Action required: Complete preparation overhaul before real interviews." ])%list in
  ret (Py.join newline feedback_parts).

(** ** The orchestrator *)

Definition analyze_hr_response (answer question : string) : M AnalysisResult :=
  enter Fanalyze_hr_response ;;
  let answer_lower := Py.lower answer in
  (* gibberish first *)
  gibberish_check <- detect_gibberish answer ;;
  if is_gibberish gibberish_check then
    rejection <- generate_rejection_feedback (issues gibberish_check) ;;
    ret {| clarity := 1;
           confidence := 1;
           structure := 1;
           feedback := rejection;
           total_score := 1;
           is_valid := false;
           rejection_reason := Some "Invalid response detected";
           details :=
             {| star_components_found := [];
                confidence_keywords_found := 0;
                leadership_keywords_found := 0;
                red_flags := issues gibberish_check;
                relevance_issues := None |} |}
  else
  (* relevance, if a question is given *)
  relevance_result <-
    (if Py.nonempty question
     then rr <- check_answer_relevance question answer ;; ret (Some rr)
     else ret None) ;;
  red_flags <- detect_red_flags answer ;;
  clarity_score <- evaluate_clarity answer ;;
  confidence_score <- evaluate_confidence answer_lower ;;
  structure_score <- evaluate_star_structure answer_lower ;;
  (* penalties *)
  let red_flag_penalty := Py.fmin (Py.Z2Q (Py.llen red_flags) * (3 # 2)) 5 in
  let relevance_penalty :=
    match relevance_result with
    | Some rr => if negb (is_relevant rr) then 3 else 0
    | None => 0
    end in
  half <- truediv red_flag_penalty 2 ;;
  let clarity_score := Z.max 1 (clarity_score - Py.int half) in
  half <- truediv red_flag_penalty 2 ;;
  let confidence_score := Z.max 1 (confidence_score - Py.int half) in
  let structure_score := Z.max 1 (structure_score - relevance_penalty) in
  mean <- truediv (Py.Z2Q (clarity_score + confidence_score + structure_score)) 3 ;;
  let total_score := Py.int mean in
  feedback <-
    generate_hr_feedback clarity_score confidence_score structure_score
                         answer_lower red_flags relevance_result ;;
  star <- detect_star_components answer_lower ;;
  confidence_keywords <- count_confidence_keywords answer_lower ;;
  leadership_keywords <- count_leadership_keywords answer_lower ;;
  ret {| clarity := clarity_score;
         confidence := confidence_score;
         structure := structure_score;
         feedback := feedback;
         total_score := total_score;
         is_valid := true;
         rejection_reason := None;
         details :=
           {| star_components_found := star;
              confidence_keywords_found := confidence_keywords;
              leadership_keywords_found := leadership_keywords;
              red_flags := red_flags;
              relevance_issues :=
                Some (match relevance_result with
                      | Some rr => rel_issues rr
                      | None => []
                      end) |} |}.

(** * Vocabulary of the specification *)

(** The quantities the statements below speak of, named after the source
    expressions they stand for. *)

(** The last two flags of the red-flag detector. *)
Definition hedging_flag : string :=
  "Excessive hedging language undermines confidence".

Definition vague_flag : string :=
  "Uses vague phrases without concrete details - interviewers want specifics".

(** [len(s.split())]. *)
Definition words_in (s : string) : Z := Py.llen (Py.split s).

(** [avg_words_per_sentence], for a non-empty list. *)
Definition mean_words (sentences : list string) : Q :=
  (Py.Z2Q (Py.sum (map words_in sentences)) / Py.Z2Q (Py.llen sentences))%Q.

(** [max(l)] and [min(l)] of a non-empty list. *)
Definition maximum (l : list Z) : Z :=
  match l with [] => 0 | x :: l' => fold_left Z.max l' x end.

Definition minimum (l : list Z) : Z :=
  match l with [] => 0 | x :: l' => fold_left Z.min l' x end.

(** The bonus for sentences that do not run on. *)
Definition run_on_bonus (sentences : list string) : Z :=
  if (Py.count_if (fun s => words_in s >? 40) sentences =? 0)
     && (Py.llen sentences >=? 3)
  then 2 else 0.

(** The bonus for sentences of varied length. *)
Definition variation_bonus (sentences : list string) : Z :=
  if (Py.llen sentences >=? 4)
     && (maximum (map words_in sentences) - minimum (map words_in sentences) >? 5)
  then 1 else 0.

(** The chain of tests on the mean sentence length. *)
Definition band_bonus (avg : Q) : Z :=
  if Qle_and 10 avg 25 then 4
  else if Qle_and 8 avg 30 then 2
  else if Py.Qlt_bool 40 avg then -1
  else if Py.Qlt_bool avg 5 then -1
  else 0.

(** [max(lo, min(hi, x))]. *)
Definition clamp (lo hi x : Z) : Z := Z.max lo (Z.min hi x).

(** The three adjustments of the confidence scorer. *)
Definition keyword_bonus (k : Z) : Z :=
  if k >=? 8 then 5 else if k >=? 5 then 4 else if k >=? 3 then 3
  else if k >=? 2 then 2 else if k >=? 1 then 1 else 0.

Definition ownership_bonus (n : Z) : Z :=
  if n >=? 3 then 2 else if n >=? 1 then 1 else 0.

Definition hedging_penalty (n : Z) : Z :=
  if n >=? 3 then 3 else if n >=? 1 then 1 else 0.

(** The keys of [STAR_INDICATORS], in order. *)
Definition STAR_KEYS : list string := ["situation"; "task"; "action"; "result"].

(** The computation returns: it raises nothing. *)
Definition returns_value {A} (m : M A) : Prop := exists v l, m = (inr v, l).

(** The red-flag penalty, a float. *)
Definition red_flag_penalty (flags : list string) : Q :=
  Py.fmin (Py.Z2Q (Py.llen flags) * (3 # 2)) 5.

(** The relevance penalty, an integer. *)
Definition relevance_penalty (rel : option RelevanceVerdict) : Z :=
  match rel with
  | Some rr => if negb (is_relevant rr) then 3 else 0
  | None => 0
  end.

(** The relevance verdict the orchestrator holds: none without a
    question. *)
Definition relevance_of (question answer : string) : option RelevanceVerdict :=
  if Py.nonempty question
  then value (check_answer_relevance question answer) else None.

(** The scorers, the relevance checker and the red-flag detector. *)
Definition scoring (f : fn) : bool :=
  match f with
  | Fevaluate_clarity | Fevaluate_confidence | Fevaluate_star_structure
  | Fcheck_answer_relevance | Fdetect_red_flags => true
  | _ => false
  end.

(** The entries of the shared hedging lexicon that the confidence scorer
    does not look for. *)
Definition other_hedging_words : list string :=
  [ "might have"; "could have"; "possibly"; "somewhat";
    "i believe"; "i feel like"; "in a way"; "more or less" ].

(** Sample answers. *)
Definition hedged_answer : string :=
  "I believe the team possibly delivered the project on time and we somewhat improved the process for everyone involved in the whole company last year".

Definition three_short_sentences : string :=
  "I fixed the bug at work today. We shipped the new build on time. My team was happy with the result.".

Definition two_sentences : string :=
  "We had a hard problem at work last year. I led the team and we fixed it in two weeks with a new plan.".

(** * Further vocabulary *)

(** The eight flags of [detect_red_flags], in the order the function
    tests for them. *)
Definition blame_flag : string :=
  "Blames others instead of taking accountability - major red flag in big tech interviews".

Definition negative_flag : string :=
  "Displays negative attitude about previous employers - interviewers note this".

Definition we_flag : string :=
  "Uses 'we' excessively without clarifying your individual contribution".

Definition no_outcome_flag : string :=
  "Long answer with no clear outcome or result mentioned".

Definition no_metrics_flag : string :=
  "Claims results but provides no quantifiable metrics (%, $, time saved, etc.)".

Definition ALL_RED_FLAGS : list string :=
  [ blame_flag; negative_flag; we_flag; no_outcome_flag; no_metrics_flag;
    too_brief; hedging_flag; vague_flag ].

(** The entries of [l] at the places where [mask] is true. *)
Fixpoint select {A} (mask : list bool) (l : list A) : list A :=
  match mask, l with
  | b :: mask', x :: l' => if b then x :: select mask' l' else select mask' l'
  | _, _ => []
  end.

(** The STAR result component, as [detect_red_flags] tests it. *)
Definition has_result_keywords (answer : string) : bool :=
  any_in (match Py.get STAR_INDICATORS "result" with Some l => l | None => [] end)
         (Py.lower answer).

(** The eight tests of [detect_red_flags], in order. *)
Definition red_flag_tests (answer : string) : list bool :=
  let answer_lower := Py.lower answer in
  let word_count := words_in answer in
  [ any_in blame_patterns answer_lower;
    any_in negative_patterns answer_lower;
    (Py.count answer_lower " we " >? 5) && (Py.count answer_lower " i " <? 2);
    (word_count >? 50) && negb (has_result_keywords answer);
    has_result_keywords answer && negb (Re.search NUMBER_PATTERN answer)
      && (word_count >? 30);
    word_count <? 30;
    count_in HEDGING_WORDS answer_lower >=? 3;
    count_in VAGUE_PHRASES answer_lower >=? 2 ].

(** The question type [check_answer_relevance] detects. *)
Definition detected_type (question : string) : option string :=
  option_map fst
    (find (fun entry => any_in (snd entry) (Py.lower question))
          QUESTION_RELEVANCE_MAP).

(** The four issues of [check_answer_relevance]. *)
Definition topic_issue (q_type : string) : string :=
  "Answer doesn't address the '" ++ q_type ++ "' aspect of the question".

Definition off_topic_issue : string := "Contains off-topic indicators".

Definition no_story_issue : string :=
  "Doesn't provide a specific example or story".

Definition generic_issue : string :=
  "Uses generic statements instead of specific examples".

(** [get_hr_question_bank]: the questions with their focus tags. *)
Record BankEntry : Type := { bank_question : string; focus : list string }.

Definition get_hr_question_bank : list BankEntry :=
  [ {| bank_question := "Tell me about a time you faced a significant challenge at work.";
       focus := ["problem-solving"; "resilience"; "action-oriented"] |};
    {| bank_question := "Describe a situation where you had to work with a difficult team member.";
       focus := ["teamwork"; "conflict resolution"; "communication"] |};
    {| bank_question := "Give an example of a time you showed leadership.";
       focus := ["leadership"; "initiative"; "influence"] |};
    {| bank_question := "Tell me about a time you failed and what you learned from it.";
       focus := ["self-awareness"; "growth mindset"; "accountability"] |};
    {| bank_question := "Describe a situation where you had to meet a tight deadline.";
       focus := ["time management"; "prioritization"; "pressure handling"] |};
    {| bank_question := "Tell me about a time you went above and beyond for a project.";
       focus := ["initiative"; "dedication"; "impact"] |};
    {| bank_question := "Describe a situation where you had to persuade others to see your point of view.";
       focus := ["communication"; "influence"; "negotiation"] |};
    {| bank_question := "Tell me about a time you received critical feedback.";
       focus := ["receptiveness"; "self-improvement"; "professionalism"] |} ].

(** The number of the detected topic's keywords found in the answer;
    none when the question has no topic. *)
Definition topic_matches (question answer : string) : option Z :=
  match detected_type question with
  | Some q_type =>
      if Py.nonempty q_type
      then option_map (fun keywords => count_in keywords (Py.lower answer))
                      (Py.get QUESTION_RELEVANCE_MAP q_type)
      else None
  | None => None
  end.

(** The three later tests of [check_answer_relevance], in order. *)
Definition relevance_tests (answer : string) : list bool :=
  let answer_lower := Py.lower answer in
  [ any_in OFF_TOPIC_PHRASES answer_lower;
    negb (any_in story_indicators answer_lower) && (words_in answer >? 20);
    existsb (fun phrase =>
               Py.startswith answer_lower phrase
               || Py.contains (". " ++ phrase) answer_lower)
            generic_starts ].

(** What the keywords of the topic move the relevance score by. *)
Definition topic_adjustment (matches : option Z) : Z :=
  match matches with
  | Some m => if m =? 0 then -3 else if m >=? 2 then 2 else 0
  | None => 0
  end.

(** An answer with the four STAR components. *)
Definition star_answer : string :=
  "When I was at my previous company the task was to fix the build. I implemented a new cache and as a result we saved two hours every day of the week.".

(** The first two tests of [detect_gibberish], the severe ones. *)
Definition placeholder_found (text : string) : bool :=
  existsb (fun pattern => Re.search pattern (Py.lower text)) RED_FLAG_PATTERNS.

Definition low_diversity (text : string) : bool :=
  (Py.len (Py.replace (Py.lower text) " " "") >? 20)
  && (Py.distinct_chars (Py.replace (Py.lower text) " " "") <? 8).

(** What [detect_gibberish] keeps true of its pair [(issues, severity)]:
    both empty, or a severity of 2 or 3 with an issue; [n] bounds the
    number of issues and [severe] tells when the severity is 3. *)
Definition graded (severe : bool) (n : nat) (st : list string * Z) : Prop :=
  ((snd st = 0 /\ fst st = []) \/ ((snd st = 2 \/ snd st = 3) /\ fst st <> []))
  /\ (List.length (fst st) <= n)%nat
  /\ (snd st = 3 <-> severe = true).

(** The phrases that [RED_FLAG_PATTERNS] looks for as they stand. *)
Definition PLACEHOLDER_PHRASES : list string :=
  [ "asdf"; "qwerty"; "zxcv"; "jkl"; "lorem ipsum"; "no idea"; "not sure" ].

(** A real answer that says it was not sure. *)
Definition unsure_answer : string :=
  "I was Not Sure at first, but then I led the team and we delivered the project two weeks early.".

(** ** The feedback text *)

(** The feedback [m] returns is a text whose lines satisfy [P]. *)
Definition feedback_lines (m : M string) (P : list string -> Prop) : Prop :=
  exists parts l, m = (inr (Py.join newline parts), l) /\ P parts.

(** Between [lo] and [hi] lines, each one a bullet. *)
Definition bulleted (lo hi : Z) (lines : list string) : Prop :=
  lo <= Py.llen lines <= hi
  /\ Forall (fun line => String.prefix "• " line = true) lines.

(** The opening sections of the feedback: the first three red flags and
    the first two relevance issues. *)
Definition critical_section (red_flags : list string) : list string :=
  if truthy red_flags
  then "🚨 CRITICAL ISSUES DETECTED:" :: map bullet (Py.take 3 red_flags) ++ [""]
  else [].

Definition relevance_section (relevance_result : option RelevanceVerdict)
  : list string :=
  match relevance_result with
  | Some rr =>
      if truthy (rel_issues rr)
      then "⚠️ RELEVANCE CONCERNS:" :: map bullet (Py.take 2 (rel_issues rr)) ++ [""]
      else []
  | None => []
  end.

(** The first line of the overall assessment, by the sum of the three
    scores. *)
Definition strong_response : string :=
  "• STRONG RESPONSE - Would likely receive a 'Strong Hire' signal for behavioral fit.".
Definition acceptable_response : string :=
  "• ACCEPTABLE RESPONSE - 'Inclined' but not exceptional.".
Definition weak_response : string :=
  "• WEAK RESPONSE - Would likely receive a 'Not Inclined' rating.".
Definition poor_response : string :=
  "• POOR RESPONSE - Would result in 'Strong No Hire' feedback.".
Definition unacceptable_response : string :=
  "• UNACCEPTABLE RESPONSE - Interview would likely be stopped early.".

Definition verdict_headline (total : Z) : string :=
  if 24 <=? total then strong_response
  else if 18 <=? total then acceptable_response
  else if 12 <=? total then weak_response
  else if 6 <=? total then poor_response
  else unacceptable_response.

Definition all_components_present : string :=
  "• Strong STAR method execution. All components clearly present.".

(** The layout of the feedback for given scores. *)
Definition layout (clarity confidence structure : Z) (answer_lower : string)
    (red_flags : list string) (relevance_result : option RelevanceVerdict)
    (parts : list string) : Prop :=
  exists structure_lines confidence_lines clarity_lines metrics verdict,
    parts
    = (critical_section red_flags ++ relevance_section relevance_result
       ++ ["📋 STRUCTURE ANALYSIS:"] ++ structure_lines
       ++ [""; "💪 OWNERSHIP & CONFIDENCE:"] ++ confidence_lines
       ++ [""; "🎯 CLARITY & COMMUNICATION:"] ++ clarity_lines
       ++ [""] ++ metrics
       ++ ["📝 OVERALL ASSESSMENT:"] ++ verdict)%list
    /\ bulleted 1 3 structure_lines
    /\ bulleted 1 2 confidence_lines
    /\ bulleted 1 2 clarity_lines
    /\ bulleted 2 3 verdict
    /\ (metrics = []
        \/ exists advice,
             metrics = ("📊 MISSING METRICS:" :: advice ++ [""])%list
             /\ bulleted 2 2 advice)
    /\ (metrics = [] <->
        Re.search NUMBER_PATTERN answer_lower = true
        \/ 24 <= clarity + confidence + structure)
    /\ (8 <= structure -> structure_lines = [all_components_present])
    /\ hd "" verdict = verdict_headline (clarity + confidence + structure).

(** * The PDF text extractor ([backend/services/resume_parser.py])

    The extractor calls three libraries (pdfplumber, pdf2image and
    pytesseract), reads an upload, prints, and asks exceptions for
    their [str].  What these return and raise is not in the source, so
    the embedding takes them as the fields of [Libraries], and every
    statement about the extractor holds whatever they do.  Two things
    are taken from their types: [page.extract_text()] gives a [str] or
    [None], and [image_to_string] a [str].

    An exception travels as Python has it: [except Exception] catches
    the instances of [Exception] and lets the others through
    ([asyncio.CancelledError], [KeyboardInterrupt]); [except
    HTTPException: raise] re-raises; an exception raised inside a
    handler replaces the one handled; [__exit__] runs when the [with]
    block is left, normally or not.  The environment answers a call
    the same way each time it is made, and a [print] that raises is
    taken to have printed nothing. *)

Module Parser.

(** [re.sub] of the runs of one character: every maximal run of [c]
    longer than [keep] is cut down to [keep] copies.  [run] copies of [c]
    were read just before [s]. *)
Fixpoint squeeze_from (c : ascii) (keep run : nat) (s : string) : string :=
  match s with
  | EmptyString => EmptyString
  | String d s' =>
      if Ascii.eqb d c
      then if (run <? keep)%nat
           then String d (squeeze_from c keep (S run) s')
           else squeeze_from c keep (S run) s'
      else String d (squeeze_from c keep 0 s')
  end.

Definition squeeze (c : ascii) (keep : nat) (s : string) : string :=
  squeeze_from c keep 0 s.

Definition is_LF (c : ascii) : bool := Ascii.eqb c Re.LF.

Definition clean_text (text : string) : string :=
  if negb (Py.nonempty text) then "" else
  (* re.sub(r' +', ' ', text) *)
  let text := squeeze " " 1 text in
  (* re.sub(r'\n{3,}', '\n\n', text) *)
  let text := squeeze Re.LF 2 text in
  let lines := map Py.strip (Py.fields is_LF text EmptyString) in
  let text := Py.join newline lines in
  Py.strip text.

(** [not text.strip()]. *)
Definition blank (text : string) : bool := negb (Py.nonempty (Py.strip text)).

(** The environment of the extractor: the exception objects it can meet
    and the calls it makes. *)
Record Libraries : Type := {
  (** the exceptions that calls raise, with [isinstance(e, Exception)],
      [isinstance(e, HTTPException)] and [str(e)], which may itself
      raise *)
  pyexn : Type;
  is_Exception : pyexn -> bool;
  is_HTTPException : pyexn -> bool;
  str : pyexn -> pyexn + string;
  (** [print(line)]: what it raises, if it does *)
  print : string -> option pyexn;
  (** [pdfplumber.open(...)] entered by [with]; the pages that
      iterating [pdf.pages] yields and the exception that ends the
      iteration, if one does; [page.extract_text()], which gives [None]
      for a page without text; and [__exit__], which is passed the
      exception in flight and raises or tells whether to swallow it *)
  pdf : Type;
  page : Type;
  pdfplumber_open : list Byte.byte -> pyexn + pdf;
  pages : pdf -> list page * option pyexn;
  extract_text : page -> pyexn + option string;
  pdf_exit : pdf -> option pyexn -> pyexn + bool;
  (** [convert_from_bytes(pdf_bytes, dpi, poppler_path)], the path
      optional, with the images that iterating its result yields and the
      exception that ends the iteration, if one does; and
      [pytesseract.image_to_string(image)] *)
  image : Type;
  convert_from_bytes :
    list Byte.byte -> Z -> option string -> pyexn + (list image * option pyexn);
  image_to_string : image -> pyexn + string;
  (** the first Poppler directory that exists, found when the module is
      loaded *)
  POPPLER_PATH : option string
}.

(** What the extractor raises: an exception it builds, or one of the
    environment's that it lets through as it is. *)
Inductive raised (L : Libraries) : Type :=
| HTTPException (status_code : Z) (detail : string)
| ValueError (message : string)
| LibraryError (e : pyexn L).

Arguments HTTPException {L}.
Arguments ValueError {L}.
Arguments LibraryError {L}.

(** The loop over the pages: the texts that are neither [None] nor
    empty are appended to [text_content], in order.  The loop ends at
    the first call that raises, or with [stop] when the iteration itself
    raises; the list keeps what was appended until then. *)
Fixpoint page_texts {E X} (text_of : X -> E + option string) (pages : list X)
    (stop : option E) (text_content : list string) : list string * option E :=
  match pages with
  | [] => (text_content, stop)
  | p :: pages' =>
      match text_of p with
      | inl e => (text_content, Some e)
      | inr page_text =>
          page_texts text_of pages' stop
            (match page_text with
             | Some t => if Py.nonempty t then Py.append text_content t
                         else text_content
             | None => text_content
             end)
      end
  end.

(** The [with pdfplumber.open(...) as pdf] block, which fills
    [text_content]: when the body raises, [__exit__] may swallow the
    exception, and the code after the block goes on with the texts read
    so far. *)
Definition direct_texts (L : Libraries) (pdf_bytes : list Byte.byte)
    : pyexn L + list string :=
  match pdfplumber_open L pdf_bytes with
  | inl e => inl e
  | inr opened =>
      let (found, stop) := pages L opened in
      let (text_content, failure) :=
        page_texts (extract_text L) found stop [] in
      match pdf_exit L opened failure with
      | inl e => inl e
      | inr swallow =>
          match failure with
          | Some e => if swallow then inr text_content else inl e
          | None => inr text_content
          end
      end
  end.

(** The [try] block of [extract_text_with_ocr]. *)
Definition ocr_attempt (L : Libraries) (pdf_bytes : list Byte.byte)
    : pyexn L + string :=
  match
    match POPPLER_PATH L with
    | Some path =>
        if Py.nonempty path
        then convert_from_bytes L pdf_bytes 300 (Some path)
        else convert_from_bytes L pdf_bytes 300 None
    | None => convert_from_bytes L pdf_bytes 300 None
    end
  with
  | inl e => inl e
  | inr (images, stop) =>
      match page_texts (fun i => match image_to_string L i with
                                 | inl e => inl e
                                 | inr t => inr (Some t)
                                 end) images stop [] with
      | (_, Some e) => inl e
      | (text_content, None) =>
          inr (clean_text (Py.join newline text_content))
      end
  end.

(** The result, or the exception that escapes, and the lines printed.
    [except Exception] lets through what is not an [Exception]; the
    handler itself raises when [str(e)] or [print] does. *)
Definition extract_text_with_ocr (L : Libraries) (pdf_bytes : list Byte.byte)
    : (pyexn L + string) * list string :=
  match ocr_attempt L pdf_bytes with
  | inr text => (inr text, [])
  | inl e =>
      if is_Exception L e then
        match str L e with
        | inl e' => (inl e', [])
        | inr s =>
            let line := "OCR extraction failed: " ++ s in
            match print L line with
            | Some e' => (inl e', [])
            | None => (inr "", [line])
            end
        end
      else (inl e, [])
  end.

(** The [try] block of [extract_text_from_bytes]. *)
Definition from_bytes_attempt (L : Libraries) (pdf_bytes : list Byte.byte)
    : (pyexn L + string) * list string :=
  match direct_texts L pdf_bytes with
  | inl e => (inl e, [])
  | inr text_content =>
      let full_text := clean_text (Py.join newline text_content) in
      if blank full_text
      then extract_text_with_ocr L pdf_bytes
      else (inr full_text, [])
  end.

Definition extract_text_from_bytes (L : Libraries) (pdf_bytes : list Byte.byte)
    : (raised L + string) * list string :=
  match from_bytes_attempt L pdf_bytes with
  | (inr full_text, printed) => (inr full_text, printed)
  | (inl e, printed) =>
      if is_Exception L e then
        match str L e with
        | inl e' => (inl (LibraryError e'), printed)
        | inr s => (inl (ValueError ("Failed to parse PDF: " ++ s)), printed)
        end
      else (inl (LibraryError e), printed)
  end.

(** The [try] block of [extract_text_from_pdf]; [file] is what
    [await file.read()] gives. *)
Definition from_pdf_attempt (L : Libraries) (file : pyexn L + list Byte.byte)
    : (raised L + string) * list string :=
  match file with
  | inl e => (inl (LibraryError e), [])
  | inr contents =>
      match direct_texts L contents with
      | inl e => (inl (LibraryError e), [])
      | inr text_content =>
          let full_text := Py.join newline text_content in
          let full_text := clean_text full_text in
          let (outcome, printed) :=
            if blank full_text
            then extract_text_with_ocr L contents
            else (inr full_text, []) in
          match outcome with
          | inl e => (inl (LibraryError e), printed)
          | inr full_text =>
              if blank full_text
              then (inl (HTTPException 400
                           "Could not extract text from PDF. The file may be empty or OCR failed."),
                    printed)
              else (inr full_text, printed)
          end
      end
  end.

(** [except HTTPException: raise] comes first, then [except Exception],
    which builds the status 400 from [str(e)]; what is neither escapes
    as it is. *)
Definition extract_text_from_pdf (L : Libraries) (file : pyexn L + list Byte.byte)
    : (raised L + string) * list string :=
  let parse_failure (s : string) : raised L :=
    HTTPException 400
      ("Failed to parse PDF: " ++ s
       ++ ". The file may be corrupted or not a valid PDF.") in
  match from_pdf_attempt L file with
  | (inr full_text, printed) => (inr full_text, printed)
  | (inl (HTTPException status_code detail), printed) =>
      (inl (HTTPException status_code detail), printed)
  | (inl (ValueError message), printed) =>
      (inl (parse_failure message), printed)
  | (inl (LibraryError e), printed) =>
      if is_HTTPException L e then (inl (LibraryError e), printed)
      else if is_Exception L e then
        match str L e with
        | inl e' => (inl (LibraryError e'), printed)
        | inr s => (inl (parse_failure s), printed)
        end
      else (inl (LibraryError e), printed)
  end.

End Parser.

(** No two spaces in a row in [s], nor at its start when the character
    before it is a space ([prev]). *)
Fixpoint single_spaced (prev : bool) (s : string) : bool :=
  match s with
  | EmptyString => true
  | String c s' =>
      negb (prev && Ascii.eqb c " ") && single_spaced (Ascii.eqb c " ") s'
  end.

(** * Verification *)

(** ** The primitives on small inputs *)

Example split_runs : Py.split "  a  b c " = ["a"; "b"; "c"].
Proof. reflexivity. Qed.

Example count_does_not_overlap : Py.count " we we we " " we " = 2.
Proof. reflexivity. Qed.

Example split_class_keeps_empty :
  Re.split_class ".!?" "a.b!!c" = ["a"; "b"; ""; "c"].
Proof. reflexivity. Qed.

Example sentences_are_stripped :
  sentences_of "One two.  Three!? " = ["One two"; "Three"].
Proof. reflexivity. Qed.

Example stock_reply_is_found :
  existsb (fun p => Re.search p "yes.") RED_FLAG_PATTERNS = true
  /\ existsb (fun p => Re.search p "yes, I led it") RED_FLAG_PATTERNS = false.
Proof. split; reflexivity. Qed.

Example repeated_character_needs_five :
  Re.search (Repeat 4) "baaaaa" = true /\ Re.search (Repeat 4) "baaaa" = false.
Proof. split; reflexivity. Qed.

Example spaced_placeholder_is_found :
  Re.search (Find (Cat [Lit "test"; Star Space; Lit "test"])) "a Test   tEST" = true.
Proof. reflexivity. Qed.

Example number_pattern :
  Re.search NUMBER_PATTERN "up by 20%" = true
  /\ Re.search NUMBER_PATTERN "up a lot" = false.
Proof. split; reflexivity. Qed.

Example truncation_is_toward_zero :
  Py.int (3 # 4) = 0 /\ Py.int (3 # 2) = 1 /\ Py.int (-3 # 2) = -1.
Proof. repeat split. Qed.

(** ** Running computations *)

Lemma bind_ret {A B} (a : A) (k : A -> M B) : bind (ret a) k = k a.
Proof. unfold bind, ret. destruct (k a). reflexivity. Qed.

Lemma bind_returned {A B} (a : A) (l : list fn) (k : A -> M B) :
  bind (inr a, l) k = (fst (k a), (l ++ snd (k a))%list).
Proof. unfold bind. destruct (k a). reflexivity. Qed.

Lemma bind_step {A B} (m : M A) (k : A -> M B) a l r l' :
  m = (inr a, l) -> k a = (r, l') -> bind m k = (r, (l ++ l')%list).
Proof. intros -> E. unfold bind. rewrite E. reflexivity. Qed.

Lemma bind_enter {B} (f : fn) (k : unit -> M B) :
  bind (enter f) k = (fst (k tt), f :: snd (k tt)).
Proof. unfold enter. rewrite bind_returned. reflexivity. Qed.

Lemma truediv_const (x y : Q) :
  Qeq_bool y 0 = false -> truediv x y = ret (x / y)%Q.
Proof. intros H. unfold truediv. rewrite H. reflexivity. Qed.

Lemma truediv_nonzero (x : Q) (n : Z) :
  n <> 0 -> truediv x (Py.Z2Q n) = ret (x / Py.Z2Q n)%Q.
Proof.
  intros H. apply truediv_const.
  unfold Qeq_bool, Py.Z2Q, inject_Z. simpl.
  destruct n; [congruence | reflexivity | reflexivity].
Qed.

Lemma truthy_llen {A} (l : list A) : truthy l = true -> Py.llen l <> 0.
Proof. destruct l; [discriminate | intros _; unfold Py.llen; simpl; lia]. Qed.

Lemma pymax_truthy (l : list Z) :
  truthy l = true -> exists v, pymax l = ret v.
Proof. destruct l; [discriminate | intros _; eexists; reflexivity]. Qed.

Lemma truthy_map {A B} (f : A -> B) (l : list A) : truthy (map f l) = truthy l.
Proof. destruct l; reflexivity. Qed.

Lemma llen_truthy {A} (l : list A) : 0 < Py.llen l -> truthy l = true.
Proof. destruct l; [unfold Py.llen; simpl; lia | reflexivity]. Qed.

(** ** The gibberish detector returns *)

Lemma detect_gibberish_returns (text : string) :
  exists g, detect_gibberish text = (inr g, [Fdetect_gibberish])
            /\ is_gibberish g = (severity g >=? 2).
Proof.
  unfold detect_gibberish. rewrite bind_enter. cbv zeta.
  set (st0 := if existsb _ _ then _ else _).
  set (st1 := if (_ >? 20) && _ then _ else st0).
  assert (E1 : exists e,
    (if Py.len text >? 10
     then r <- truediv (Py.Z2Q (Py.count_chars Py.ispunct text))
                 (Py.Z2Q (Py.len text)) ;; ret (Py.Qlt_bool (3 # 10) r)
     else ret false) = ret e).
  { destruct (Py.len text >? 10) eqn:E; [| eexists; reflexivity].
    rewrite truediv_nonzero by (apply Z.gtb_lt in E; lia).
    rewrite bind_ret. eexists; reflexivity. }
  destruct E1 as [e ->]. rewrite bind_ret.
  rewrite truediv_nonzero by lia. rewrite bind_ret.
  set (st2 := if e then _ else st1).
  set (st3 := if _ && _ && _ then _ else st2).
  destruct (truthy (Py.split (Py.lower text))) eqn:W.
  - set (wc := fold_left _ _ _).
    assert (E2 : exists m, (if truthy wc then pymax (Py.values wc) else ret 0) = ret m).
    { destruct (truthy wc) eqn:T; [| eexists; reflexivity].
      apply pymax_truthy. unfold Py.values. rewrite truthy_map. exact T. }
    destruct E2 as [m ->]. rewrite !bind_ret.
    rewrite truediv_nonzero by (apply truthy_llen; exact W).
    rewrite !bind_ret. eexists. split; reflexivity.
  - rewrite !bind_ret. eexists. split; reflexivity.
Qed.

(** ** The red-flag detector returns *)

Lemma result_indicators_found :
  exists l, getitem STAR_INDICATORS "result" = ret l
            /\ Py.get STAR_INDICATORS "result" = Some l.
Proof. eexists. split; reflexivity. Qed.

(** The red-flag detector returns; the last flags it adds are the
    hedging flag and the vagueness flag, in that order. *)
Lemma detect_red_flags_returns (answer : string) :
  exists earlier,
    detect_red_flags answer =
      (inr (earlier
            ++ (if count_in HEDGING_WORDS (Py.lower answer) >=? 3
                then [hedging_flag] else [])
            ++ (if count_in VAGUE_PHRASES (Py.lower answer) >=? 2
                then [vague_flag] else []))%list,
       [Fdetect_red_flags]).
Proof.
  unfold detect_red_flags. rewrite bind_enter.
  destruct result_indicators_found as (l & -> & _). rewrite bind_ret.
  cbv zeta.
  match goal with
  | |- context [if count_in HEDGING_WORDS _ >=? 3 then Py.append ?e _ else _] =>
      exists e; set (earlier := e)
  end.
  clearbody earlier.
  unfold Py.append, hedging_flag, vague_flag, ret.
  destruct (count_in HEDGING_WORDS (Py.lower answer) >=? 3);
    destruct (count_in VAGUE_PHRASES (Py.lower answer) >=? 2);
    cbn [fst snd]; rewrite ?app_nil_r, ?app_assoc, ?app_nil_r; reflexivity.
Qed.

(** ** The clarity scorer *)

Lemma pymax_maximum (l : list Z) : truthy l = true -> pymax l = ret (maximum l).
Proof. destruct l; [discriminate | reflexivity]. Qed.

Lemma pymin_minimum (l : list Z) : truthy l = true -> pymin l = ret (minimum l).
Proof. destruct l; [discriminate | reflexivity]. Qed.

Lemma evaluate_clarity_long (answer : string) :
  20 <= words_in answer ->
  2 <= Py.llen (sentences_of answer) ->
  evaluate_clarity answer =
    (inr (clamp 1 10 (3 + band_bonus (mean_words (sentences_of answer))
                      + run_on_bonus (sentences_of answer)
                      + variation_bonus (sentences_of answer))),
     [Fevaluate_clarity]).
Proof.
  intros Hw Hs. unfold evaluate_clarity. rewrite bind_enter.
  fold (words_in answer). cbv zeta.
  assert (T : truthy (sentences_of answer) = true) by (apply llen_truthy; lia).
  replace (words_in answer <? 5) with false by (symmetry; apply Z.ltb_ge; lia).
  replace (words_in answer <? 10) with false by (symmetry; apply Z.ltb_ge; lia).
  replace (words_in answer <? 20) with false by (symmetry; apply Z.ltb_ge; lia).
  rewrite T.
  replace (Py.llen (sentences_of answer) <? 2) with false
    by (symmetry; apply Z.ltb_ge; lia).
  cbn [negb].
  rewrite truediv_nonzero by lia. rewrite bind_ret.
  change (fun s : string => Py.llen (Py.split s)) with words_in.
  fold (mean_words (sentences_of answer)).
  unfold band_bonus, run_on_bonus, variation_bonus, clamp.
  set (ss := sentences_of answer) in *.
  set (avg := mean_words ss).
  unfold words_in.
  destruct (Py.llen ss >=? 4) eqn:E4.
  - rewrite pymax_maximum, pymin_minimum by (rewrite truthy_map; exact T).
    rewrite !bind_ret.
    destruct (Qle_and 10 avg 25); [| destruct (Qle_and 8 avg 30);
      [| destruct (Py.Qlt_bool 40 avg); [| destruct (Py.Qlt_bool avg 5)]]];
    destruct ((Py.count_if _ ss =? 0) && (Py.llen ss >=? 3));
    destruct (maximum _ - minimum _ >? 5);
    reflexivity.
  - rewrite !bind_ret.
    destruct (Qle_and 10 avg 25); [| destruct (Qle_and 8 avg 30);
      [| destruct (Py.Qlt_bool 40 avg); [| destruct (Py.Qlt_bool avg 5)]]];
    destruct ((Py.count_if _ ss =? 0) && (Py.llen ss >=? 3));
    reflexivity.
Qed.

Lemma clamp_range (x : Z) : 1 <= clamp 1 10 x <= 10.
Proof. unfold clamp. lia. Qed.

Lemma evaluate_clarity_returns (answer : string) :
  exists v, evaluate_clarity answer = (inr v, [Fevaluate_clarity])
            /\ 1 <= v <= 10.
Proof.
  destruct (Z.lt_ge_cases (words_in answer) 20) as [Hw | Hw].
  - unfold evaluate_clarity. rewrite bind_enter. fold (words_in answer).
    cbv zeta.
    destruct (words_in answer <? 5); [eexists; split; [reflexivity | lia] |].
    destruct (words_in answer <? 10); [eexists; split; [reflexivity | lia] |].
    replace (words_in answer <? 20) with true by (symmetry; apply Z.ltb_lt; lia).
    eexists; split; [reflexivity | lia].
  - destruct (Z.lt_ge_cases (Py.llen (sentences_of answer)) 2) as [Hs | Hs].
    + unfold evaluate_clarity. rewrite bind_enter. fold (words_in answer).
      cbv zeta.
      replace (words_in answer <? 5) with false by (symmetry; apply Z.ltb_ge; lia).
      replace (words_in answer <? 10) with false by (symmetry; apply Z.ltb_ge; lia).
      replace (words_in answer <? 20) with false by (symmetry; apply Z.ltb_ge; lia).
      destruct (negb (truthy (sentences_of answer)));
        [eexists; split; [reflexivity | lia] |].
      replace (Py.llen (sentences_of answer) <? 2) with true
        by (symmetry; apply Z.ltb_lt; lia).
      eexists; split; [reflexivity | lia].
    + rewrite evaluate_clarity_long by assumption.
      eexists; split; [reflexivity | apply clamp_range].
Qed.

(** ** The confidence scorer *)

Lemma count_confidence_keywords_returns (answer_lower : string) :
  count_confidence_keywords answer_lower =
    (inr (count_in CONFIDENCE_KEYWORDS answer_lower), [Fcount_confidence_keywords]).
Proof. reflexivity. Qed.

Lemma count_leadership_keywords_returns (answer_lower : string) :
  count_leadership_keywords answer_lower =
    (inr (count_in LEADERSHIP_KEYWORDS answer_lower), [Fcount_leadership_keywords]).
Proof. reflexivity. Qed.

Lemma evaluate_confidence_short (answer_lower : string) :
  words_in answer_lower < 20 ->
  evaluate_confidence answer_lower =
    (inr (if words_in answer_lower <? 10 then 2 else 3), [Fevaluate_confidence]).
Proof.
  intros Hw. unfold evaluate_confidence. rewrite bind_enter.
  fold (words_in answer_lower). cbv zeta.
  destruct (words_in answer_lower <? 10); [reflexivity |].
  replace (words_in answer_lower <? 20) with true by (symmetry; apply Z.ltb_lt; lia).
  reflexivity.
Qed.

Lemma evaluate_confidence_long (answer_lower : string) :
  20 <= words_in answer_lower ->
  evaluate_confidence answer_lower =
    (inr (clamp 1 10
            (2 + keyword_bonus (count_in CONFIDENCE_KEYWORDS answer_lower
                                + count_in LEADERSHIP_KEYWORDS answer_lower)
             + ownership_bonus (count_in first_person_patterns answer_lower)
             - hedging_penalty (count_in hedging_words answer_lower))),
     [Fevaluate_confidence; Fcount_confidence_keywords;
      Fcount_leadership_keywords]).
Proof.
  intros Hw. unfold evaluate_confidence. rewrite bind_enter.
  fold (words_in answer_lower). cbv zeta.
  replace (words_in answer_lower <? 10) with false by (symmetry; apply Z.ltb_ge; lia).
  replace (words_in answer_lower <? 20) with false by (symmetry; apply Z.ltb_ge; lia).
  rewrite count_confidence_keywords_returns, bind_returned.
  rewrite count_leadership_keywords_returns, bind_returned.
  unfold keyword_bonus, ownership_bonus, hedging_penalty, clamp, ret.
  cbn [fst snd app].
  set (k := count_in CONFIDENCE_KEYWORDS answer_lower
            + count_in LEADERSHIP_KEYWORDS answer_lower).
  set (o := count_in first_person_patterns answer_lower).
  set (h := count_in hedging_words answer_lower).
  f_equal. f_equal. f_equal. f_equal.
  destruct (k >=? 8); [| destruct (k >=? 5); [| destruct (k >=? 3);
    [| destruct (k >=? 2); [| destruct (k >=? 1)]]]];
  (destruct (o >=? 3); [| destruct (o >=? 1)]);
  (destruct (h >=? 3); [| destruct (h >=? 1)]); lia.
Qed.

Lemma evaluate_confidence_returns (answer_lower : string) :
  exists v l, evaluate_confidence answer_lower = (inr v, l) /\ 1 <= v <= 10.
Proof.
  destruct (Z.lt_ge_cases (words_in answer_lower) 20) as [Hw | Hw].
  - rewrite evaluate_confidence_short by assumption.
    do 2 eexists. split; [reflexivity |].
    destruct (words_in answer_lower <? 10); lia.
  - rewrite evaluate_confidence_long by assumption.
    do 2 eexists. split; [reflexivity | apply clamp_range].
Qed.

(** ** The STAR detector and the structure scorer *)

Lemma detect_star_components_returns (answer_lower : string) :
  exists s t a r,
    detect_star_components answer_lower =
      (inr [("situation", s); ("task", t); ("action", a); ("result", r)],
       [Fdetect_star_components]).
Proof.
  unfold detect_star_components. rewrite bind_enter.
  do 4 eexists. reflexivity.
Qed.

Lemma evaluate_star_structure_returns (answer_lower : string) :
  exists v l, evaluate_star_structure answer_lower = (inr v, l) /\ 1 <= v <= 10.
Proof.
  unfold evaluate_star_structure. rewrite bind_enter. cbv zeta.
  destruct (_ <? 10); [do 2 eexists; split; [reflexivity | lia] |].
  destruct (_ <? 20); [do 2 eexists; split; [reflexivity | lia] |].
  destruct (detect_star_components_returns answer_lower) as (s & t & a & r & ->).
  rewrite bind_returned.
  do 2 eexists. split; [reflexivity |].
  unfold ret. cbn [fst].
  destruct s, t, a, r; vm_compute; split; discriminate.
Qed.

(** ** The relevance checker *)

Lemma find_get {V} (p : string * V -> bool) (d : Py.dict V) (e : string * V) :
  find p d = Some e -> exists v, Py.get d (fst e) = Some v.
Proof.
  induction d as [| [k v] d IH]; simpl; [discriminate |].
  destruct (p (k, v)).
  - intros [= <-]. simpl. rewrite String.eqb_refl. eauto.
  - intros H. destruct (String.eqb (fst e) k); eauto.
Qed.

Lemma relevant_iff_clamped (raw : Z) :
  (raw >=? 4) = true <-> 4 <= clamp 0 10 raw.
Proof. rewrite Z.geb_le. unfold clamp. lia. Qed.

Lemma check_answer_relevance_returns (question answer : string) :
  exists topic off_topic story generic rr,
    check_answer_relevance question answer = (inr rr, [Fcheck_answer_relevance])
    /\ (topic = -3 \/ topic = 0 \/ topic = 2)
    /\ (off_topic = -2 \/ off_topic = 0)
    /\ (story = -2 \/ story = 0)
    /\ (generic = -2 \/ generic = 0)
    /\ relevance_score rr = clamp 0 10 (5 + topic + off_topic + story + generic)
    /\ (is_relevant rr = true <-> 4 <= relevance_score rr).
Proof.
  unfold check_answer_relevance. rewrite bind_enter. cbv zeta.
  set (found := find _ QUESTION_RELEVANCE_MAP).
  assert (E : exists topic issues0,
    (topic = -3 \/ topic = 0 \/ topic = 2) /\
    match option_map fst found with
    | Some q_type =>
        if Py.nonempty q_type
        then relevant_keywords <- getitem QUESTION_RELEVANCE_MAP q_type ;;
             ret (if count_in relevant_keywords (Py.lower answer) =? 0
                  then note ("Answer doesn't address the '" ++ q_type
                             ++ "' aspect of the question") (-3) ([], 5)
                  else if count_in relevant_keywords (Py.lower answer) >=? 2
                  then (fst ([] : list string, 5), snd ([] : list string, 5) + 2)
                  else ([], 5))
        else ret ([], 5)
    | None => ret ([], 5)
    end = ret (issues0, 5 + topic)).
  { destruct found as [e |] eqn:F; cbn [option_map].
    - destruct (Py.nonempty (fst e)).
      + destruct (find_get _ _ _ F) as [kw G].
        unfold getitem. rewrite G, bind_ret.
        destruct (count_in kw (Py.lower answer) =? 0).
        * exists (-3). eexists. split; [auto | reflexivity].
        * destruct (count_in kw (Py.lower answer) >=? 2).
          -- exists 2. eexists. split; [auto | reflexivity].
          -- exists 0. eexists. split; [auto | reflexivity].
      + exists 0. eexists. split; [auto | reflexivity].
    - exists 0. eexists. split; [auto | reflexivity]. }
  destruct E as (topic & issues0 & Ht & ->). rewrite bind_ret.
  exists topic.
  destruct (any_in OFF_TOPIC_PHRASES (Py.lower answer));
    [exists (-2) | exists 0];
  (destruct (negb (any_in story_indicators (Py.lower answer))
             && (Py.llen (Py.split answer) >? 20));
    [exists (-2) | exists 0]);
  (destruct (existsb _ generic_starts); [exists (-2) | exists 0]);
  (eexists; split; [reflexivity |]);
  unfold ret, note; cbn [fst snd relevance_score is_relevant];
  (repeat (split; [solve [auto] |]));
  (split; [unfold clamp; f_equal; f_equal; lia |]);
  rewrite relevant_iff_clamped; unfold clamp; lia.
Qed.

(** ** The feedback generator returns *)

Lemma returns_value_ret {A} (a : A) : returns_value (ret a).
Proof. do 2 eexists. reflexivity. Qed.

Lemma returns_value_bind {A B} (m : M A) (k : A -> M B) :
  returns_value m -> (forall a, returns_value (k a)) -> returns_value (bind m k).
Proof.
  intros (a & l & ->) H. destruct (H a) as (b & l' & E).
  rewrite bind_returned, E. do 2 eexists. reflexivity.
Qed.

Lemma generate_hr_feedback_returns (clarity confidence structure : Z)
    (answer_lower : string) (red_flags : list string)
    (relevance_result : option RelevanceVerdict) :
  returns_value (generate_hr_feedback clarity confidence structure
                   answer_lower red_flags relevance_result).
Proof.
  unfold generate_hr_feedback.
  apply returns_value_bind; [do 2 eexists; reflexivity | intros _].
  apply returns_value_bind.
  { rewrite truediv_const by reflexivity. apply returns_value_ret. }
  intros avg_score.
  apply returns_value_bind.
  { destruct (detect_star_components_returns answer_lower)
      as (s & t & a & r & ->). do 2 eexists. reflexivity. }
  intros components. apply returns_value_ret.
Qed.

(** ** The orchestrator, path by path *)

Lemma analyze_rejected (answer question : string) (g : GibberishVerdict) :
  detect_gibberish answer = (inr g, [Fdetect_gibberish]) ->
  is_gibberish g = true ->
  exists fb,
    analyze_hr_response answer question =
      (inr {| clarity := 1; confidence := 1; structure := 1;
              feedback := fb; total_score := 1; is_valid := false;
              rejection_reason := Some "Invalid response detected";
              details :=
                {| star_components_found := [];
                   confidence_keywords_found := 0;
                   leadership_keywords_found := 0;
                   red_flags := issues g;
                   relevance_issues := None |} |},
       [Fanalyze_hr_response; Fdetect_gibberish; Fgenerate_rejection_feedback]).
Proof.
  intros E G. unfold analyze_hr_response. rewrite bind_enter. cbv zeta.
  rewrite E, bind_returned, G.
  eexists. reflexivity.
Qed.

Lemma analyze_scored (answer question : string) (g : GibberishVerdict) :
  detect_gibberish answer = (inr g, [Fdetect_gibberish]) ->
  is_gibberish g = false ->
  exists flags c cf s star fb l,
    value (detect_red_flags answer) = Some flags
    /\ value (evaluate_clarity answer) = Some c /\ 1 <= c <= 10
    /\ value (evaluate_confidence (Py.lower answer)) = Some cf /\ 1 <= cf <= 10
    /\ value (evaluate_star_structure (Py.lower answer)) = Some s /\ 1 <= s <= 10
    /\ value (detect_star_components (Py.lower answer)) = Some star
    /\ analyze_hr_response answer question =
         (inr (let clarity := Z.max 1 (c - Py.int (red_flag_penalty flags / 2)) in
               let confidence := Z.max 1 (cf - Py.int (red_flag_penalty flags / 2)) in
               let structure :=
                 Z.max 1 (s - relevance_penalty (relevance_of question answer)) in
               {| clarity := clarity;
                  confidence := confidence;
                  structure := structure;
                  feedback := fb;
                  total_score :=
                    Py.int (Py.Z2Q (clarity + confidence + structure) / 3);
                  is_valid := true;
                  rejection_reason := None;
                  details :=
                    {| star_components_found := star;
                       confidence_keywords_found :=
                         count_in CONFIDENCE_KEYWORDS (Py.lower answer);
                       leadership_keywords_found :=
                         count_in LEADERSHIP_KEYWORDS (Py.lower answer);
                       red_flags := flags;
                       relevance_issues :=
                         Some (match relevance_of question answer with
                               | Some rr => rel_issues rr
                               | None => []
                               end) |} |}),
          l).
Proof.
  intros E G.
  assert (R : exists lr,
    (if Py.nonempty question
     then rr <- check_answer_relevance question answer ;; ret (Some rr)
     else ret None) = (inr (relevance_of question answer), lr)).
  { unfold relevance_of. destruct (Py.nonempty question); [| eexists; reflexivity].
    destruct (check_answer_relevance_returns question answer)
      as (? & ? & ? & ? & rr & -> & _).
    rewrite bind_returned. eexists. reflexivity. }
  destruct R as [lr Er].
  destruct (detect_red_flags_returns answer) as [earlier Ef].
  set (flags := (earlier ++ _ ++ _)%list) in Ef. clearbody flags.
  destruct (evaluate_clarity_returns answer) as (c & Ec & Hc).
  destruct (evaluate_confidence_returns (Py.lower answer)) as (cf & lcf & Ecf & Hcf).
  destruct (evaluate_star_structure_returns (Py.lower answer)) as (s & ls & Es & Hs).
  destruct (detect_star_components_returns (Py.lower answer))
    as (bs & bt & ba & br & Estar).
  destruct (generate_hr_feedback_returns
              (Z.max 1 (c - Py.int (red_flag_penalty flags / 2)))
              (Z.max 1 (cf - Py.int (red_flag_penalty flags / 2)))
              (Z.max 1 (s - relevance_penalty (relevance_of question answer)))
              (Py.lower answer) flags (relevance_of question answer))
    as (fb & lfb & Efb).
  exists flags, c, cf, s. eexists. exists fb. eexists.
  rewrite Ef, Ec, Ecf, Es, Estar.
  repeat (split; [first [reflexivity | lia] |]).
  unfold analyze_hr_response.
  eapply bind_step; [reflexivity |]. cbv beta zeta.
  eapply bind_step; [exact E |]. cbv beta. rewrite G.
  eapply bind_step; [exact Er |]. cbv beta.
  eapply bind_step; [exact Ef |]. cbv beta.
  eapply bind_step; [exact Ec |]. cbv beta.
  eapply bind_step; [exact Ecf |]. cbv beta.
  eapply bind_step; [exact Es |]. cbv beta.
  eapply bind_step; [apply truediv_const; reflexivity |]. cbv beta.
  eapply bind_step; [apply truediv_const; reflexivity |]. cbv beta.
  eapply bind_step; [apply truediv_const; reflexivity |]. cbv beta.
  eapply bind_step; [exact Efb |]. cbv beta.
  eapply bind_step; [exact Estar |]. cbv beta.
  eapply bind_step; [apply count_confidence_keywords_returns |]. cbv beta.
  eapply bind_step; [apply count_leadership_keywords_returns |]. cbv beta.
  reflexivity.
Qed.

(** ** Arithmetic of the penalties *)

(** Half the red-flag penalty, truncated, is 0, 1 or 2. *)
Lemma half_penalty_range (flags : list string) :
  0 <= Py.int (red_flag_penalty flags / 2) <= 2.
Proof.
  unfold red_flag_penalty, Py.fmin, Py.Qlt_bool.
  destruct (Qle_bool (Py.Z2Q (Py.llen flags) * (3 # 2)) 5) eqn:E; cbn [negb].
  - apply Qle_bool_iff in E. unfold Qle, Py.Z2Q, inject_Z in E. simpl in E.
    assert (H : 0 <= Py.llen flags <= 3) by (unfold Py.llen in *; lia).
    assert (C : Py.llen flags = 0 \/ Py.llen flags = 1
                \/ Py.llen flags = 2 \/ Py.llen flags = 3) by lia.
    destruct C as [-> | [-> | [-> | ->]]]; vm_compute; split; discriminate.
  - vm_compute; split; discriminate.
Qed.

Lemma relevance_penalty_range (rel : option RelevanceVerdict) :
  relevance_penalty rel = 0 \/ relevance_penalty rel = 3.
Proof.
  unfold relevance_penalty. destruct rel as [rr |]; [| auto].
  destruct (is_relevant rr); auto.
Qed.

(** Truncating the float mean of an integer sum is integer division
    that rounds toward zero. *)
Lemma int_mean (n : Z) : Py.int (Py.Z2Q n / 3) = n ÷ 3.
Proof.
  unfold Py.int, Py.Z2Q, inject_Z, Qdiv, Qmult, Qinv. simpl.
  rewrite Z.mul_1_r. reflexivity.
Qed.

(** ** The relevance checker in closed form *)

Lemma check_answer_relevance_closed (question answer : string) :
  exists rr,
    check_answer_relevance question answer = (inr rr, [Fcheck_answer_relevance])
    /\ question_type rr = detected_type question
    /\ rel_issues rr =
         ((match detected_type question, topic_matches question answer with
           | Some q_type, Some 0 => [topic_issue q_type]
           | _, _ => []
           end)
          ++ select (relevance_tests answer)
               [off_topic_issue; no_story_issue; generic_issue])%list
    /\ relevance_score rr =
         clamp 0 10
           (5 + (match topic_matches question answer with
                 | Some m => if m =? 0 then -3 else if m >=? 2 then 2 else 0
                 | None => 0
                 end)
            - 2 * Py.llen (filter (fun b : bool => b) (relevance_tests answer)))
    /\ (is_relevant rr = true <-> 4 <= relevance_score rr).
Proof.
  unfold check_answer_relevance. rewrite bind_enter. cbv zeta.
  unfold topic_matches, detected_type, relevance_tests, words_in.
  set (found := find _ QUESTION_RELEVANCE_MAP).
  assert (E : exists st : list string * Z,
    match option_map fst found with
    | Some q_type =>
        if Py.nonempty q_type
        then relevant_keywords <- getitem QUESTION_RELEVANCE_MAP q_type ;;
             ret (if count_in relevant_keywords (Py.lower answer) =? 0
                  then note ("Answer doesn't address the '" ++ q_type
                             ++ "' aspect of the question") (-3) ([], 5)
                  else if count_in relevant_keywords (Py.lower answer) >=? 2
                  then (fst ([] : list string, 5), snd ([] : list string, 5) + 2)
                  else ([], 5))
        else ret ([], 5)
    | None => ret ([], 5)
    end = ret st
    /\ fst st =
         match option_map fst found,
               match option_map fst found with
               | Some q_type =>
                   if Py.nonempty q_type
                   then option_map
                          (fun keywords => count_in keywords (Py.lower answer))
                          (Py.get QUESTION_RELEVANCE_MAP q_type)
                   else None
               | None => None
               end
         with
         | Some q_type, Some 0 => [topic_issue q_type]
         | _, _ => []
         end
    /\ snd st =
         5 + match
               match option_map fst found with
               | Some q_type =>
                   if Py.nonempty q_type
                   then option_map
                          (fun keywords => count_in keywords (Py.lower answer))
                          (Py.get QUESTION_RELEVANCE_MAP q_type)
                   else None
               | None => None
               end
             with
             | Some m => if m =? 0 then -3 else if m >=? 2 then 2 else 0
             | None => 0
             end).
  { destruct found as [e |] eqn:F; cbn [option_map].
    - destruct (Py.nonempty (fst e)).
      + destruct (find_get _ _ _ F) as [kw G].
        unfold getitem. rewrite G, bind_ret. cbn [option_map].
        destruct (count_in kw (Py.lower answer) =? 0) eqn:E0.
        * apply Z.eqb_eq in E0. rewrite E0.
          eexists. split; [reflexivity |]. split; reflexivity.
        * destruct (count_in kw (Py.lower answer) >=? 2);
            (eexists; split; [reflexivity |]; cbn [fst snd]; split;
             [destruct (count_in kw (Py.lower answer)); try reflexivity;
              discriminate E0 | reflexivity]).
      + eexists. split; [reflexivity |]. split; reflexivity.
    - eexists. split; [reflexivity |]. split; reflexivity. }
  destruct E as ([issues0 raw0] & -> & Hi & Hr). cbn [fst snd] in Hi, Hr.
  rewrite bind_ret.
  rewrite <- Hi, <- Hr. clear Hi Hr.
  eexists. split; [reflexivity |].
  unfold ret, note, Py.append; cbn [fst snd question_type rel_issues relevance_score
                                    is_relevant].
  split; [reflexivity |].
  rewrite relevant_iff_clamped.
  destruct (any_in OFF_TOPIC_PHRASES (Py.lower answer));
  destruct (negb (any_in story_indicators (Py.lower answer))
            && (Py.llen (Py.split answer) >? 20));
  destruct (existsb _ generic_starts);
  cbn [fst snd select filter]; unfold Py.llen;
  cbn [List.length Z.of_nat Pos.of_succ_nat Pos.succ];
  rewrite ?app_nil_r, <- ?app_assoc;
  (split; [reflexivity |]);
  (split; [unfold clamp; f_equal; f_equal; lia | unfold clamp; lia]).
Qed.

(** * The claims *)

(** ** C1: the gibberish gate *)

(** C1.  Whenever the gibberish detector reports severity 2 or more, the
    analysis returns the rejection result: [is_valid] is false, the
    rejection reason is set, clarity, confidence, structure and the total
    score are all 1, and the trace holds no scorer, no relevance check and
    no red-flag detection. *)
Theorem gibberish_gate (answer question : string)
    (g : GibberishVerdict) (lg : list fn) :
  detect_gibberish answer = (inr g, lg) ->
  2 <= severity g ->
  exists r l,
    analyze_hr_response answer question = (inr r, l)
    /\ is_valid r = false
    /\ rejection_reason r = Some "Invalid response detected"
    /\ clarity r = 1 /\ confidence r = 1 /\ structure r = 1
    /\ total_score r = 1
    /\ forall f, In f l -> scoring f = false.
Proof.
  intros E Hs.
  destruct (detect_gibberish_returns answer) as (g' & E' & Hg).
  rewrite E' in E. injection E as <- <-.
  assert (G : is_gibberish g' = true) by (rewrite Hg; apply Z.geb_le; lia).
  destruct (analyze_rejected answer question g' E' G) as [fb ->].
  do 2 eexists. split; [reflexivity |].
  cbn [is_valid rejection_reason clarity confidence structure total_score].
  repeat (split; [reflexivity |]).
  intros f [<- | [<- | [<- | []]]]; reflexivity.
Qed.

(** C1, witness: the answer [asdf asdf asdf]. *)
Lemma gibberish_gate_witness :
  exists r l,
    analyze_hr_response "asdf asdf asdf" "" = (inr r, l)
    /\ is_valid r = false
    /\ rejection_reason r = Some "Invalid response detected"
    /\ clarity r = 1 /\ confidence r = 1 /\ structure r = 1
    /\ total_score r = 1
    /\ forall f, In f l -> scoring f = false.
Proof.
  apply (gibberish_gate "asdf asdf asdf" ""
           {| is_gibberish := true; severity := 3;
              issues := ["Contains random or placeholder text"] |}
           [Fdetect_gibberish]).
  - vm_compute. reflexivity.
  - simpl. lia.
Defined.

(** ** C2: the keys of the STAR mapping *)

(** C2, counterexample.  For the answer [asdf] the analysis is rejected
    and its [star_components_found] is the empty mapping: it has none of
    the four keys. *)
Lemma star_keys_counterexample :
  exists r l,
    analyze_hr_response "asdf" "" = (inr r, l)
    /\ star_components_found (details r) = []
    /\ Py.keys (star_components_found (details r)) <> STAR_KEYS.
Proof.
  do 2 eexists. split; [vm_compute; reflexivity |].
  split; [reflexivity | discriminate].
Qed.

(** C2, amended.  The STAR detector always returns a mapping whose keys
    are exactly situation, task, action and result, each mapped to a
    boolean; so does [star_components_found] of every valid result.  The
    rejection result carries the empty mapping. *)
Theorem star_keys (answer question : string) :
  (exists d, detect_star_components answer = (inr d, [Fdetect_star_components])
             /\ Py.keys d = STAR_KEYS)
  /\ exists r l,
       analyze_hr_response answer question = (inr r, l)
       /\ (is_valid r = true ->
           Py.keys (star_components_found (details r)) = STAR_KEYS)
       /\ (is_valid r = false -> star_components_found (details r) = []).
Proof.
  split.
  - destruct (detect_star_components_returns answer) as (s & t & a & r & ->).
    eexists. split; reflexivity.
  - destruct (detect_gibberish_returns answer) as (g & E & Hg).
    destruct (is_gibberish g) eqn:G.
    + destruct (analyze_rejected answer question g E G) as [fb ->].
      do 2 eexists. split; [reflexivity |].
      cbn [is_valid details star_components_found].
      split; [discriminate | reflexivity].
    + destruct (analyze_scored answer question g E G)
        as (flags & c & cf & s & star & fb & l & _ & _ & _ & _ & _ & _ & _
            & Estar & ->).
      do 2 eexists. split; [reflexivity |].
      cbn [is_valid details star_components_found].
      split; [intros _ | discriminate].
      destruct (detect_star_components_returns (Py.lower answer))
        as (bs & bt & ba & br & E').
      rewrite E' in Estar. injection Estar as <-. reflexivity.
Qed.

(** ** C3: when a result is invalid *)

(** C3, counterexample.  The answer [a b c d] has words of mean length 1:
    the verdict is moderate (severity 2), not severe, and the result is
    invalid all the same. *)
Lemma invalid_when_moderate_counterexample :
  exists g r l,
    detect_gibberish "a b c d" = (inr g, [Fdetect_gibberish])
    /\ severity g = 2 /\ severity g <> 3
    /\ analyze_hr_response "a b c d" "" = (inr r, l)
    /\ is_valid r = false.
Proof.
  do 3 eexists. split; [vm_compute; reflexivity |].
  split; [reflexivity |]. split; [discriminate |].
  split; [vm_compute; reflexivity | reflexivity].
Qed.

(** C3, amended.  The result is invalid exactly when the gibberish
    verdict is moderate or severe (severity 2 or more); an invalid result
    has clarity, confidence, structure and total score 1, and no scoring
    was performed. *)
Theorem invalid_iff_gibberish (answer question : string) :
  exists g r l,
    detect_gibberish answer = (inr g, [Fdetect_gibberish])
    /\ analyze_hr_response answer question = (inr r, l)
    /\ (is_valid r = false <-> 2 <= severity g)
    /\ (is_valid r = false ->
        clarity r = 1 /\ confidence r = 1 /\ structure r = 1
        /\ total_score r = 1
        /\ forall f, In f l -> scoring f = false).
Proof.
  destruct (detect_gibberish_returns answer) as (g & E & Hg).
  exists g.
  destruct (is_gibberish g) eqn:G.
  - destruct (analyze_rejected answer question g E G) as [fb ->].
    do 2 eexists. split; [exact E |]. split; [reflexivity |].
    cbn [is_valid clarity confidence structure total_score].
    symmetry in Hg. apply Z.geb_le in Hg.
    split; [split; [intros _; lia | reflexivity] |].
    intros _. repeat (split; [reflexivity |]).
    intros f [<- | [<- | [<- | []]]]; reflexivity.
  - destruct (analyze_scored answer question g E G)
      as (flags & c & cf & s & star & fb & l & _ & _ & _ & _ & _ & _ & _
          & _ & ->).
    do 2 eexists. split; [exact E |]. split; [reflexivity |].
    cbn [is_valid].
    assert (severity g < 2).
    { destruct (Z.lt_ge_cases (severity g) 2) as [H | H]; [exact H |].
      apply Z.geb_le in H. congruence. }
    split; [split; [discriminate | lia] | discriminate].
Qed.

(** ** C4: how the penalties are applied *)

(** C4, counterexample.  For the empty answer to a question about a
    challenge there is one red flag, so the red-flag penalty is 1.5, which
    truncates to 1, and the relevance penalty is 3.  The confidence score
    stays 2: neither the truncated red-flag penalty nor the relevance
    penalty was subtracted from it. *)
Lemma penalty_truncation_counterexample :
  exists r l flags,
    analyze_hr_response "" "Tell me about a challenge" = (inr r, l)
    /\ value (detect_red_flags "") = Some flags
    /\ value (evaluate_confidence "") = Some 2
    /\ Qeq (red_flag_penalty flags) (3 # 2)
    /\ Py.int (red_flag_penalty flags) = 1
    /\ relevance_penalty (relevance_of "Tell me about a challenge" "") = 3
    /\ confidence r = 2
    /\ confidence r <> Z.max 1 (2 - Py.int (red_flag_penalty flags))
    /\ confidence r <>
         Z.max 1 (2 - Py.int (red_flag_penalty flags)
                  - relevance_penalty (relevance_of "Tell me about a challenge" "")).
Proof.
  do 3 eexists. split; [vm_compute; reflexivity |].
  split; [vm_compute; reflexivity |].
  repeat split; vm_compute; discriminate || reflexivity.
Qed.

(** C4, amended.  For every answer that passes the gibberish gate, the
    red-flag penalty is the float min(1.5 x number of red flags, 5); half
    of it, truncated toward zero (0, 1 or 2), is subtracted from the
    clarity score and from the confidence score, and the relevance
    penalty, the integer 3 when a question was given and the answer is
    not relevant and 0 otherwise, is subtracted from the structure score;
    each score is then floored at 1. *)
Theorem penalties_applied (answer question : string) (g : GibberishVerdict) :
  detect_gibberish answer = (inr g, [Fdetect_gibberish]) ->
  is_gibberish g = false ->
  exists flags c cf s r l,
    value (detect_red_flags answer) = Some flags
    /\ value (evaluate_clarity answer) = Some c
    /\ value (evaluate_confidence (Py.lower answer)) = Some cf
    /\ value (evaluate_star_structure (Py.lower answer)) = Some s
    /\ analyze_hr_response answer question = (inr r, l)
    /\ red_flag_penalty flags = Py.fmin (Py.Z2Q (Py.llen flags) * (3 # 2)) 5
    /\ 0 <= Py.int (red_flag_penalty flags / 2) <= 2
    /\ clarity r = Z.max 1 (c - Py.int (red_flag_penalty flags / 2))
    /\ confidence r = Z.max 1 (cf - Py.int (red_flag_penalty flags / 2))
    /\ structure r =
         Z.max 1 (s - relevance_penalty (relevance_of question answer))
    /\ (relevance_penalty (relevance_of question answer) = 3 <->
        exists rr, Py.nonempty question = true
                   /\ value (check_answer_relevance question answer) = Some rr
                   /\ is_relevant rr = false).
Proof.
  intros E G.
  destruct (analyze_scored answer question g E G)
    as (flags & c & cf & s & star & fb & l & Ef & Ec & _ & Ecf & _ & Es & _
        & _ & Er).
  exists flags, c, cf, s. do 2 eexists.
  repeat (split; [eassumption || reflexivity |]).
  split; [apply half_penalty_range |].
  cbn [clarity confidence structure].
  repeat (split; [reflexivity |]).
  unfold relevance_of, relevance_penalty.
  destruct (Py.nonempty question).
  - destruct (value (check_answer_relevance question answer)) as [rr |].
    + destruct (is_relevant rr) eqn:V; cbn [negb]; split.
      * discriminate.
      * intros (rr' & _ & [= <-] & V'). congruence.
      * intros _. exists rr. auto.
      * reflexivity.
    + split; [discriminate | intros (rr' & _ & [=] & _)].
  - split; [discriminate | intros (rr' & [=] & _)].
Qed.

(** C4, witness: the empty answer to a question about a challenge. *)
Lemma penalties_applied_witness :
  exists flags c cf s r l,
    value (detect_red_flags "") = Some flags
    /\ value (evaluate_clarity "") = Some c
    /\ value (evaluate_confidence (Py.lower "")) = Some cf
    /\ value (evaluate_star_structure (Py.lower "")) = Some s
    /\ analyze_hr_response "" "Tell me about a challenge" = (inr r, l)
    /\ red_flag_penalty flags = Py.fmin (Py.Z2Q (Py.llen flags) * (3 # 2)) 5
    /\ 0 <= Py.int (red_flag_penalty flags / 2) <= 2
    /\ clarity r = Z.max 1 (c - Py.int (red_flag_penalty flags / 2))
    /\ confidence r = Z.max 1 (cf - Py.int (red_flag_penalty flags / 2))
    /\ structure r =
         Z.max 1 (s - relevance_penalty
                        (relevance_of "Tell me about a challenge" ""))
    /\ (relevance_penalty (relevance_of "Tell me about a challenge" "") = 3 <->
        exists rr, Py.nonempty "Tell me about a challenge" = true
                   /\ value (check_answer_relevance
                               "Tell me about a challenge" "") = Some rr
                   /\ is_relevant rr = false).
Proof.
  apply (penalties_applied "" "Tell me about a challenge"
           {| is_gibberish := false; severity := 0; issues := [] |}).
  - vm_compute. reflexivity.
  - reflexivity.
Defined.

(** ** C5: the two hedging counts *)

(** C5, counterexample.  An answer of 25 words that hedges with
    [i believe], [possibly] and [somewhat]: the red-flag detector counts 3
    hedging terms and raises its flag, the confidence scorer counts none
    and applies no penalty. *)
Lemma hedging_counts_counterexample :
  count_in hedging_words (Py.lower hedged_answer) = 0
  /\ count_in HEDGING_WORDS (Py.lower hedged_answer) = 3
  /\ count_in hedging_words (Py.lower hedged_answer)
     <> count_in HEDGING_WORDS (Py.lower hedged_answer)
  /\ value (detect_red_flags hedged_answer) = Some [too_brief; hedging_flag]
  /\ value (evaluate_confidence (Py.lower hedged_answer)) =
       Some (clamp 1 10 (2 + 3 + 0 - 0)).
Proof. repeat split; vm_compute; discriminate || reflexivity. Qed.

Lemma count_in_app (l1 l2 : list string) (text : string) :
  count_in (l1 ++ l2) text = count_in l1 text + count_in l2 text.
Proof.
  unfold count_in, Py.count_if, Py.llen.
  rewrite filter_app, length_app. lia.
Qed.

Lemma count_in_nonneg (l : list string) (text : string) : 0 <= count_in l text.
Proof. unfold count_in, Py.count_if, Py.llen. lia. Qed.

(** C5, amended.  The confidence scorer counts the distinct hedging terms
    of its own list, the first seven entries of the shared hedging
    lexicon; the red-flag detector counts those of the whole lexicon.  So
    the scorer's count is the detector's count less the number of the
    other eight terms present: never more, and equal when none of those
    is present.  The scorer's penalty is 3 when its count is at least 3,
    1 when it is at least 1, else 0; the detector raises its hedging flag
    when its own count is at least 3. *)
Theorem hedging_counts (answer : string) :
  let answer_lower := Py.lower answer in
  let scorer_count := count_in hedging_words answer_lower in
  let detector_count := count_in HEDGING_WORDS answer_lower in
  HEDGING_WORDS = (hedging_words ++ other_hedging_words)%list
  /\ detector_count = scorer_count + count_in other_hedging_words answer_lower
  /\ scorer_count <= detector_count
  /\ (count_in other_hedging_words answer_lower = 0 ->
      scorer_count = detector_count)
  /\ (exists penalty,
        value (evaluate_confidence answer_lower) =
          Some (if words_in answer_lower <? 10 then 2
                else if words_in answer_lower <? 20 then 3
                else clamp 1 10
                       (2 + keyword_bonus
                              (count_in CONFIDENCE_KEYWORDS answer_lower
                               + count_in LEADERSHIP_KEYWORDS answer_lower)
                        + ownership_bonus
                            (count_in first_person_patterns answer_lower)
                        - penalty))
        /\ (3 <= scorer_count -> penalty = 3)
        /\ (1 <= scorer_count < 3 -> penalty = 1)
        /\ (scorer_count < 1 -> penalty = 0))
  /\ (exists earlier,
        value (detect_red_flags answer) =
          Some (earlier
                ++ (if detector_count >=? 3 then [hedging_flag] else [])
                ++ (if count_in VAGUE_PHRASES answer_lower >=? 2
                    then [vague_flag] else []))%list).
Proof.
  intros answer_lower scorer_count detector_count.
  assert (S : detector_count
              = scorer_count + count_in other_hedging_words answer_lower).
  { subst detector_count scorer_count.
    change HEDGING_WORDS with (hedging_words ++ other_hedging_words)%list.
    apply count_in_app. }
  pose proof (count_in_nonneg other_hedging_words answer_lower) as N.
  split; [reflexivity |].
  split; [exact S |].
  split; [lia |].
  split; [lia |].
  split.
  - exists (hedging_penalty scorer_count). split.
    + destruct (Z.lt_ge_cases (words_in answer_lower) 20) as [Hw | Hw].
      * rewrite evaluate_confidence_short by assumption.
        unfold value; cbn [fst].
        destruct (words_in answer_lower <? 10); [reflexivity |].
        replace (words_in answer_lower <? 20) with true
          by (symmetry; apply Z.ltb_lt; lia).
        reflexivity.
      * rewrite evaluate_confidence_long by assumption.
        unfold value; cbn [fst].
        replace (words_in answer_lower <? 10) with false
          by (symmetry; apply Z.ltb_ge; lia).
        replace (words_in answer_lower <? 20) with false
          by (symmetry; apply Z.ltb_ge; lia).
        reflexivity.
    + unfold hedging_penalty.
      destruct (scorer_count >=? 3) eqn:E3;
        [apply Z.geb_le in E3 | rewrite Z.geb_leb in E3; apply Z.leb_gt in E3];
        (destruct (scorer_count >=? 1) eqn:E1;
         [apply Z.geb_le in E1 | rewrite Z.geb_leb in E1; apply Z.leb_gt in E1]);
        repeat split; intros; lia.
  - destruct (detect_red_flags_returns answer) as [earlier ->].
    exists earlier. reflexivity.
Qed.

(** ** C6: the ranges of the scores *)

(** C6.  Every analysis returns a result whose clarity, confidence and
    structure are integers from 1 to 10, and whose total score is the
    mean of the three truncated toward zero, hence from 1 to 10 too. *)
Theorem scores_in_range (answer question : string) :
  exists r l,
    analyze_hr_response answer question = (inr r, l)
    /\ 1 <= clarity r <= 10
    /\ 1 <= confidence r <= 10
    /\ 1 <= structure r <= 10
    /\ total_score r
       = Py.int (Py.Z2Q (clarity r + confidence r + structure r) / 3)
    /\ total_score r = (clarity r + confidence r + structure r) ÷ 3
    /\ 1 <= total_score r <= 10.
Proof.
  destruct (detect_gibberish_returns answer) as (g & E & Hg).
  destruct (is_gibberish g) eqn:G.
  - destruct (analyze_rejected answer question g E G) as [fb ->].
    do 2 eexists. split; [reflexivity |].
    cbn [clarity confidence structure total_score].
    repeat split; try lia; reflexivity.
  - destruct (analyze_scored answer question g E G)
      as (flags & c & cf & s & star & fb & l & _ & _ & Hc & _ & Hcf & _ & Hs
          & _ & ->).
    do 2 eexists. split; [reflexivity |].
    cbv zeta. cbn [clarity confidence structure total_score].
    pose proof (half_penalty_range flags) as Hp.
    pose proof (relevance_penalty_range (relevance_of question answer)) as Hr.
    set (p := Py.int (red_flag_penalty flags / 2)) in *.
    set (q := relevance_penalty (relevance_of question answer)) in *.
    rewrite int_mean.
    assert (B : 3 <= Z.max 1 (c - p) + Z.max 1 (cf - p) + Z.max 1 (s - q) <= 30)
      by lia.
    split; [lia |]. split; [lia |]. split; [lia |].
    split; [reflexivity |]. split; [reflexivity |].
    split; [apply Z.quot_le_lower_bound; lia | apply Z.quot_le_upper_bound; lia].
Qed.

(** ** C7: the bands of the clarity scorer *)

Lemma Qle_bool_false (x y : Q) : Qle_bool x y = false -> (y < x)%Q.
Proof.
  intros H. apply Qnot_le_lt. intros L.
  apply Qle_bool_iff in L. congruence.
Qed.

(** Turn the boolean tests on floats in the context into orders. *)
Ltac float_tests :=
  unfold Qle_and, Py.Qlt_bool in *;
  repeat match goal with
  | H : (_ && _) = true |- _ => apply andb_true_iff in H; destruct H
  | H : (_ && _) = false |- _ => apply andb_false_iff in H; destruct H
  | H : negb _ = true |- _ => apply negb_true_iff in H
  | H : negb _ = false |- _ => apply negb_false_iff in H
  | H : Qle_bool _ _ = true |- _ => apply Qle_bool_iff in H
  | H : Qle_bool _ _ = false |- _ => apply Qle_bool_false in H
  end.

(** What the chain of tests yields, by the place of the mean. *)
Lemma band_bonus_cases (mean : Q) :
  ((10 <= mean)%Q /\ (mean <= 25)%Q -> band_bonus mean = 4)
  /\ ((8 <= mean)%Q /\ (mean <= 30)%Q
      -> ~ ((10 <= mean)%Q /\ (mean <= 25)%Q) -> band_bonus mean = 2)
  /\ ((40 < mean)%Q -> band_bonus mean = -1)
  /\ ((mean < 5)%Q -> band_bonus mean = -1)
  /\ ((5 <= mean)%Q /\ (mean < 8)%Q \/ (30 < mean)%Q /\ (mean <= 40)%Q
      -> band_bonus mean = 0)
  /\ (band_bonus mean = 4 \/ band_bonus mean = 2 \/ band_bonus mean = -1
      \/ band_bonus mean = 0)
  /\ (band_bonus mean = -1 -> ~ ((8 <= mean)%Q /\ (mean <= 30)%Q)).
Proof.
  unfold band_bonus.
  destruct (Qle_and 10 mean 25) eqn:B1;
    [| destruct (Qle_and 8 mean 30) eqn:B2;
       [| destruct (Py.Qlt_bool 40 mean) eqn:B3;
          [| destruct (Py.Qlt_bool mean 5) eqn:B4]]].
  all: float_tests.
  all: repeat split.
  all: try discriminate; try tauto.
  all: intros.
  all: repeat match goal with
    | H : _ /\ _ |- _ => destruct H
    | H : _ \/ _ |- _ => destruct H
    end.
  all: try reflexivity.
  all: try solve [exfalso; lra].
  all: try solve [exfalso; match goal with H : ~ _ |- _ => apply H; split; lra end].
  all: intros [? ?]; lra.
Qed.

(** C7, counterexample.  An answer of 21 words in 3 sentences has a mean
    of 7 words per sentence: none of the four tests on the mean holds, no
    branch applies, and the score is 3 + 0 + 2 + 0 = 5. *)
Lemma no_band_counterexample :
  let sentences := sentences_of three_short_sentences in
  let mean := mean_words sentences in
  20 <= words_in three_short_sentences
  /\ 2 <= Py.llen sentences
  /\ Qeq mean 7
  /\ Qle_and 10 mean 25 = false
  /\ Qle_and 8 mean 30 = false
  /\ Py.Qlt_bool 40 mean = false
  /\ Py.Qlt_bool mean 5 = false
  /\ evaluate_clarity three_short_sentences
     = (inr (clamp 1 10 (3 + 0 + run_on_bonus sentences
                         + variation_bonus sentences)),
        [Fevaluate_clarity])
  /\ value (evaluate_clarity three_short_sentences) = Some 5.
Proof. repeat split; vm_compute; discriminate || reflexivity. Qed.

(** C7, amended.  For an answer of at least 20 words with at least 2
    sentences the clarity score is the base 3 plus at most one adjustment
    for the mean sentence length, plus the two later bonuses, clamped.
    The adjustment is that of the first band that matches: +4 for a mean
    in [10,25]; +2 for a mean in [8,30] but not in [10,25]; -1 for a mean
    above 40 or below 5, which happens only when the mean is in neither
    bonus band; and none, 0, for a mean in [5,8) or in (30,40]. *)
Theorem clarity_bands_first_match (answer : string) :
  20 <= words_in answer ->
  2 <= Py.llen (sentences_of answer) ->
  let sentences := sentences_of answer in
  let mean := mean_words sentences in
  exists band,
    evaluate_clarity answer =
      (inr (clamp 1 10 (3 + band + run_on_bonus sentences
                        + variation_bonus sentences)),
       [Fevaluate_clarity])
    /\ ((10 <= mean)%Q /\ (mean <= 25)%Q -> band = 4)
    /\ ((8 <= mean)%Q /\ (mean <= 30)%Q
        -> ~ ((10 <= mean)%Q /\ (mean <= 25)%Q) -> band = 2)
    /\ ((40 < mean)%Q -> band = -1)
    /\ ((mean < 5)%Q -> band = -1)
    /\ ((5 <= mean)%Q /\ (mean < 8)%Q \/ (30 < mean)%Q /\ (mean <= 40)%Q
        -> band = 0)
    /\ (band = 4 \/ band = 2 \/ band = -1 \/ band = 0)
    /\ (band = -1 -> ~ ((8 <= mean)%Q /\ (mean <= 30)%Q)).
Proof.
  intros Hw Hs sentences mean.
  exists (band_bonus mean).
  split; [apply evaluate_clarity_long; assumption |].
  apply band_bonus_cases.
Qed.

(** C7, witness: two sentences of 9 and 15 words, mean 12. *)
Lemma clarity_bands_first_match_witness :
  let sentences := sentences_of two_sentences in
  let mean := mean_words sentences in
  exists band,
    evaluate_clarity two_sentences =
      (inr (clamp 1 10 (3 + band + run_on_bonus sentences
                        + variation_bonus sentences)),
       [Fevaluate_clarity])
    /\ ((10 <= mean)%Q /\ (mean <= 25)%Q -> band = 4)
    /\ ((8 <= mean)%Q /\ (mean <= 30)%Q
        -> ~ ((10 <= mean)%Q /\ (mean <= 25)%Q) -> band = 2)
    /\ ((40 < mean)%Q -> band = -1)
    /\ ((mean < 5)%Q -> band = -1)
    /\ ((5 <= mean)%Q /\ (mean < 8)%Q \/ (30 < mean)%Q /\ (mean <= 40)%Q
        -> band = 0)
    /\ (band = 4 \/ band = 2 \/ band = -1 \/ band = 0)
    /\ (band = -1 -> ~ ((8 <= mean)%Q /\ (mean <= 30)%Q)).
Proof.
  apply (clarity_bands_first_match two_sentences).
  - vm_compute. discriminate.
  - vm_compute. discriminate.
Defined.

(** ** C8: the relevance checker *)

(** C8.  The relevance checker starts from 5: the score it returns is 5
    plus the adjustment for the topic's keywords found in the answer (-3
    for none, +2 for two or more, when the question has a topic) minus 2
    for each of the three later tests that fires, clamped to [0,10]; so
    an answer that moves none of them scores 5.  The answer is flagged
    relevant exactly when the returned score is at least 4. *)
Theorem relevance_baseline_and_clamp (question answer : string) :
  exists rr,
    check_answer_relevance question answer = (inr rr, [Fcheck_answer_relevance])
    /\ relevance_score rr
       = clamp 0 10
           (5 + topic_adjustment (topic_matches question answer)
            - 2 * Py.count_if (fun fired : bool => fired) (relevance_tests answer))
    /\ (topic_adjustment (topic_matches question answer) = 0 ->
        relevance_tests answer = [false; false; false] ->
        relevance_score rr = 5)
    /\ 0 <= relevance_score rr <= 10
    /\ (is_relevant rr = true <-> 4 <= relevance_score rr).
Proof.
  destruct (check_answer_relevance_closed question answer)
    as (rr & E & _ & _ & S & R).
  change (match topic_matches question answer with
          | Some m => if m =? 0 then -3 else if m >=? 2 then 2 else 0
          | None => 0
          end) with (topic_adjustment (topic_matches question answer)) in S.
  exists rr. split; [exact E |]. split; [exact S |].
  split; [intros A T; rewrite S, A, T; reflexivity |].
  split; [rewrite S; unfold clamp; lia | exact R].
Qed.

(** ** C9: totality *)

(** C9.  For every answer and every question, the empty ones included,
    the analysis returns a result and raises nothing: no division by
    zero, no maximum of an empty sequence, no missing key.  So do the
    gibberish detector and the clarity scorer, where the divisions are. *)
Theorem analysis_never_raises (answer question : string) :
  (exists r l, analyze_hr_response answer question = (inr r, l))
  /\ (exists g l, detect_gibberish answer = (inr g, l))
  /\ (exists c l, evaluate_clarity answer = (inr c, l)).
Proof.
  split; [| split].
  - destruct (detect_gibberish_returns answer) as (g & E & Hg).
    destruct (is_gibberish g) eqn:G.
    + destruct (analyze_rejected answer question g E G) as [fb ->]. eauto.
    + destruct (analyze_scored answer question g E G)
        as (flags & c & cf & s & star & fb & l & _ & _ & _ & _ & _ & _ & _
            & _ & ->).
      eauto.
  - destruct (detect_gibberish_returns answer) as (g & E & _). eauto.
  - destruct (evaluate_clarity_returns answer) as (c & E & _). eauto.
Qed.

(** ** C10: the empty answer *)

(** C10.  For the empty answer, whatever the question, the gibberish
    gate does not fire and the result is valid with clarity 1,
    confidence 2, structure 1 and total score 1; the only red flag is the
    one for a brief answer, and the deduction it causes is
    int(1.5 / 2) = 0, so clarity, confidence and structure are the
    scorers' own 1, 2 and 1. *)
Theorem empty_answer (question : string) :
  exists g r l,
    detect_gibberish "" = (inr g, [Fdetect_gibberish])
    /\ is_gibberish g = false
    /\ analyze_hr_response "" question = (inr r, l)
    /\ is_valid r = true
    /\ clarity r = 1 /\ confidence r = 2 /\ structure r = 1
    /\ total_score r = 1
    /\ red_flags (details r) = [too_brief]
    /\ Qeq (red_flag_penalty (red_flags (details r))) (3 # 2)
    /\ Py.int (red_flag_penalty (red_flags (details r)) / 2) = 0
    /\ value (evaluate_clarity "") = Some (clarity r)
    /\ value (evaluate_confidence "") = Some (confidence r)
    /\ value (evaluate_star_structure "") = Some (structure r).
Proof.
  assert (E : detect_gibberish ""
              = (inr {| is_gibberish := false; severity := 0; issues := [] |},
                 [Fdetect_gibberish])) by (vm_compute; reflexivity).
  destruct (analyze_scored "" question _ E eq_refl)
    as (flags & c & cf & s & star & fb & l & Ef & Ec & _ & Ecf & _ & Es & _
        & _ & ->).
  assert (Hf : flags = [too_brief])
    by (vm_compute in Ef; injection Ef as <-; reflexivity).
  assert (Hc : c = 1) by (vm_compute in Ec; congruence).
  assert (Hcf : cf = 2) by (vm_compute in Ecf; congruence).
  assert (Hs : s = 1) by (vm_compute in Es; congruence).
  subst flags c cf s.
  do 3 eexists. split; [exact E |]. split; [reflexivity |].
  split; [reflexivity |].
  cbv zeta.
  cbn [is_valid clarity confidence structure total_score details red_flags].
  change (Py.int (red_flag_penalty [too_brief] / 2)) with 0.
  pose proof (relevance_penalty_range (relevance_of question "")) as Hr.
  set (q := relevance_penalty (relevance_of question "")) in *.
  replace (Z.max 1 (1 - q)) with 1 by lia.
  repeat split; vm_compute; reflexivity.
Qed.

(** * Further properties *)

(** ** The red-flag detector in closed form *)

Lemma detect_red_flags_select (answer : string) :
  detect_red_flags answer =
    (inr (select (red_flag_tests answer) ALL_RED_FLAGS), [Fdetect_red_flags]).
Proof.
  unfold detect_red_flags. rewrite bind_enter.
  destruct result_indicators_found as (l & -> & G). rewrite bind_ret.
  unfold red_flag_tests, has_result_keywords, words_in. rewrite G.
  cbv zeta. unfold ret, Py.append, ALL_RED_FLAGS. cbn [fst snd].
  destruct (any_in blame_patterns (Py.lower answer));
  destruct (any_in negative_patterns (Py.lower answer));
  destruct ((Py.count (Py.lower answer) " we " >? 5)
            && (Py.count (Py.lower answer) " i " <? 2));
  destruct ((Py.llen (Py.split answer) >? 50) && negb (any_in l (Py.lower answer)));
  destruct (any_in l (Py.lower answer) && negb (search NUMBER_PATTERN answer)
            && (Py.llen (Py.split answer) >? 30));
  destruct (Py.llen (Py.split answer) <? 30);
  destruct (count_in HEDGING_WORDS (Py.lower answer) >=? 3);
  destruct (count_in VAGUE_PHRASES (Py.lower answer) >=? 2);
  reflexivity.
Qed.

(** ** Selections from a list *)

Lemma select_incl {A} (mask : list bool) (l : list A) (x : A) :
  In x (select mask l) -> In x l.
Proof.
  revert mask. induction l as [| a l IH]; intros [| b mask]; simpl; try tauto.
  destruct b; simpl; intros H; [destruct H as [H | H]; eauto | eauto].
Qed.

Lemma select_NoDup {A} (mask : list bool) (l : list A) :
  NoDup l -> NoDup (select mask l).
Proof.
  intros ND. revert mask.
  induction ND as [| a l Ha ND IH]; intros [| b mask]; simpl; try constructor.
  destruct b; [constructor |]; auto.
  intros H. apply Ha. eapply select_incl; eauto.
Qed.

Lemma in_select {A} (l : list A) :
  NoDup l ->
  forall (mask : list bool) (i : nat) (x : A),
    nth_error l i = Some x ->
    (In x (select mask l) <-> nth i mask false = true).
Proof.
  induction 1 as [| a l Ha ND IH]; intros mask i x Hx.
  - destruct i; discriminate.
  - destruct i as [| i]; simpl in Hx.
    + injection Hx as ->.
      destruct mask as [| [|] mask]; simpl.
      * split; [tauto | discriminate].
      * split; auto.
      * split; [| discriminate].
        intros H. exfalso. apply Ha. eapply select_incl; eauto.
    + assert (x <> a).
      { intros ->. apply Ha. eapply nth_error_In; eauto. }
      destruct mask as [| [|] mask]; simpl.
      * split; [tauto |]. destruct i; discriminate.
      * rewrite <- (IH mask i x Hx). split; [intros [E | E] |]; auto.
        congruence.
      * apply IH; assumption.
Qed.

Lemma length_select {A} (mask : list bool) (l : list A) :
  (List.length (select mask l) <= List.length (filter (fun b : bool => b) mask))%nat.
Proof.
  revert mask. induction l as [| a l IH]; intros [| b mask]; simpl; try lia.
  destruct b; simpl; [apply le_n_S |]; apply IH.
Qed.

Lemma ALL_RED_FLAGS_NoDup : NoDup ALL_RED_FLAGS.
Proof.
  unfold ALL_RED_FLAGS, blame_flag, negative_flag, we_flag, no_outcome_flag,
    no_metrics_flag, too_brief, hedging_flag, vague_flag.
  repeat constructor; cbn [In];
    intros H; repeat (destruct H as [H | H]; [discriminate H |]); exact H.
Qed.

(** ** X1: the red flags are ordered and distinct *)

(** X1.  The flags that [detect_red_flags] returns are entries of the
    fixed list of eight, in that list's order and without repetition,
    and there are never more than six of them. *)
Theorem red_flags_ordered_distinct (answer : string) :
  exists flags,
    detect_red_flags answer = (inr flags, [Fdetect_red_flags])
    /\ (exists mask, flags = select mask ALL_RED_FLAGS)
    /\ NoDup flags
    /\ (forall f, In f flags -> In f ALL_RED_FLAGS)
    /\ Py.llen flags <= 6.
Proof.
  eexists. split; [apply detect_red_flags_select |].
  split; [eauto |].
  split; [apply select_NoDup, ALL_RED_FLAGS_NoDup |].
  split; [intros f; apply select_incl |].
  unfold Py.llen.
  pose proof (length_select (red_flag_tests answer) ALL_RED_FLAGS) as L.
  enough (List.length (filter (fun b : bool => b) (red_flag_tests answer)) <= 6)%nat
    by lia.
  clear L. unfold red_flag_tests. cbv zeta.
  destruct (any_in blame_patterns (Py.lower answer));
  destruct (any_in negative_patterns (Py.lower answer));
  destruct ((Py.count (Py.lower answer) " we " >? 5)
            && (Py.count (Py.lower answer) " i " <? 2));
  destruct (count_in HEDGING_WORDS (Py.lower answer) >=? 3);
  destruct (count_in VAGUE_PHRASES (Py.lower answer) >=? 2);
  destruct (has_result_keywords answer);
  destruct (search NUMBER_PATTERN answer);
  destruct (words_in answer >? 50) eqn:E50;
  destruct (words_in answer >? 30) eqn:E30;
  destruct (words_in answer <? 30) eqn:E29;
  try (apply Z.gtb_lt in E50); try (apply Z.gtb_lt in E30);
  try (apply Z.ltb_lt in E29);
  try (rewrite Z.gtb_ltb in E50; apply Z.ltb_ge in E50);
  try (rewrite Z.gtb_ltb in E30; apply Z.ltb_ge in E30);
  try (apply Z.ltb_ge in E29);
  simpl; lia.
Qed.

(** ** The number pattern finds a digit *)

Lemma match_prefix_Empty (s : string) : match_prefix Empty s = false.
Proof. induction s as [| c s IH]; [reflexivity | exact IH]. Qed.

Lemma count_chars_nonneg (p : ascii -> bool) (s : string) :
  0 <= Py.count_chars p s.
Proof. induction s as [| c s IH]; simpl; [lia | destruct (p c); lia]. Qed.

Lemma number_pattern_digit (s : string) :
  Re.search NUMBER_PATTERN s = negb (Py.count_chars Py.isdecimal s =? 0).
Proof.
  unfold NUMBER_PATTERN, Re.search.
  induction s as [| c s IH]; [reflexivity |].
  cbn [match_anywhere Py.count_chars]. rewrite IH. clear IH.
  pose proof (count_chars_nonneg Py.isdecimal s) as N.
  cbn [match_prefix Cat fold_right nullable Plus Opt andb orb deriv].
  destruct (Py.isdecimal c); cbn [of_bool seq alt nullable andb orb].
  - replace (1 + Py.count_chars Py.isdecimal s =? 0) with false
      by (symmetry; apply Z.eqb_neq; lia).
    destruct s; reflexivity.
  - rewrite match_prefix_Empty. reflexivity.
Qed.

(** ** X2: which length-dependent flag is raised *)

(** X2.  The too-brief flag is raised exactly for answers of fewer than
    30 words; the no-outcome flag exactly for answers of more than 50
    words in which the STAR detector finds no result component; the
    no-metrics flag exactly for answers of more than 30 words with a
    result component and no decimal digit.  No answer gets two of these
    three flags. *)
Theorem red_flags_by_length (answer : string) :
  exists flags components,
    detect_red_flags answer = (inr flags, [Fdetect_red_flags])
    /\ detect_star_components (Py.lower answer)
       = (inr components, [Fdetect_star_components])
    /\ (In too_brief flags <-> words_in answer < 30)
    /\ (In no_outcome_flag flags <->
        50 < words_in answer /\ get_truthy components "result" = false)
    /\ (In no_metrics_flag flags <->
        30 < words_in answer /\ get_truthy components "result" = true
        /\ Py.count_chars Py.isdecimal answer = 0)
    /\ ~ (In too_brief flags /\ In no_outcome_flag flags)
    /\ ~ (In too_brief flags /\ In no_metrics_flag flags)
    /\ ~ (In no_outcome_flag flags /\ In no_metrics_flag flags).
Proof.
  do 2 eexists. split; [apply detect_red_flags_select |].
  split; [reflexivity |].
  change (get_truthy _ "result") with (has_result_keywords answer).
  rewrite (in_select _ ALL_RED_FLAGS_NoDup (red_flag_tests answer) 5 too_brief eq_refl).
  rewrite (in_select _ ALL_RED_FLAGS_NoDup (red_flag_tests answer) 3 no_outcome_flag eq_refl).
  rewrite (in_select _ ALL_RED_FLAGS_NoDup (red_flag_tests answer) 4 no_metrics_flag eq_refl).
  unfold red_flag_tests. cbv zeta. cbn [nth].
  rewrite number_pattern_digit.
  destruct (Py.count_chars Py.isdecimal answer =? 0) eqn:D;
    [apply Z.eqb_eq in D | apply Z.eqb_neq in D];
  (destruct (words_in answer >? 50) eqn:E50;
    [apply Z.gtb_lt in E50
    | rewrite Z.gtb_ltb in E50; apply Z.ltb_ge in E50]);
  (destruct (words_in answer >? 30) eqn:E30;
    [apply Z.gtb_lt in E30
    | rewrite Z.gtb_ltb in E30; apply Z.ltb_ge in E30]);
  (destruct (words_in answer <? 30) eqn:E29;
    [apply Z.ltb_lt in E29 | apply Z.ltb_ge in E29]);
  try lia;
  destruct (has_result_keywords answer); cbn [negb andb];
  repeat split; intros;
    repeat match goal with H : _ /\ _ |- _ => destruct H end;
    try assumption; try discriminate; try lia; try congruence.
Qed.

(** ** X3: the relevance verdict and its issues *)

(** X3.  The relevance checker records at most four issues.  An answer
    with no issue recorded is relevant, with a score of at least 5; so an
    answer judged not relevant always comes with an issue.  When the
    question has no topic, the answer is relevant exactly when no issue
    was recorded. *)
Theorem relevance_verdict_and_issues (question answer : string) :
  exists rr,
    check_answer_relevance question answer = (inr rr, [Fcheck_answer_relevance])
    /\ question_type rr = detected_type question
    /\ Py.llen (rel_issues rr) <= 4
    /\ (rel_issues rr = [] -> is_relevant rr = true /\ 5 <= relevance_score rr)
    /\ (is_relevant rr = false -> rel_issues rr <> [])
    /\ (detected_type question = None ->
        (is_relevant rr = true <-> rel_issues rr = [])).
Proof.
  destruct (check_answer_relevance_closed question answer)
    as (rr & E & Ht & Hi & Hs & Hv).
  exists rr. split; [exact E |]. split; [exact Ht |].
  assert (A : forall b : bool, b = false <-> ~ b = true)
    by (intros []; split; congruence).
  rewrite A, Hv, Hs, Hi. clear E Ht Hi Hs Hv A.
  unfold topic_matches, relevance_tests. cbv zeta.
  destruct (detected_type question) as [qt |].
  - destruct (Py.nonempty qt); [destruct (Py.get QUESTION_RELEVANCE_MAP qt) |];
      cbn [option_map];
      try (destruct (count_in l (Py.lower answer)) eqn:C;
           [| destruct (Z.pos p >=? 2) | destruct (Z.neg p >=? 2)]);
      destruct (any_in OFF_TOPIC_PHRASES (Py.lower answer));
      destruct (negb (any_in story_indicators (Py.lower answer))
                && (words_in answer >? 20));
      destruct (existsb _ generic_starts);
      cbn [select filter app Z.eqb]; unfold Py.llen, clamp;
      cbn [List.length Z.of_nat Pos.of_succ_nat Pos.succ];
      repeat split; intros; try discriminate; try lia; try (exfalso; lia).
  - destruct (any_in OFF_TOPIC_PHRASES (Py.lower answer));
      destruct (negb (any_in story_indicators (Py.lower answer))
                && (words_in answer >? 20));
      destruct (existsb _ generic_starts);
      cbn [select filter app]; unfold Py.llen, clamp;
      cbn [List.length Z.of_nat Pos.of_succ_nat Pos.succ];
      repeat split; intros; try discriminate; try reflexivity; try lia;
      try (exfalso; lia).
Qed.

(** ** X4: an answer that misses the topic *)

Lemma detected_type_key (question q_type : string) :
  detected_type question = Some q_type ->
  In q_type (Py.keys QUESTION_RELEVANCE_MAP).
Proof.
  unfold detected_type.
  destruct (find _ QUESTION_RELEVANCE_MAP) as [e |] eqn:F; [| discriminate].
  intros [= <-]. apply find_some in F. destruct F as [F _].
  unfold Py.keys. apply in_map. exact F.
Qed.

Lemma detected_type_nonempty (question q_type : string) :
  detected_type question = Some q_type ->
  Py.nonempty q_type = true /\ Py.nonempty question = true.
Proof.
  intros H. split.
  - apply detected_type_key in H. cbn in H.
    repeat (destruct H as [<- | H]; [reflexivity |]). destruct H.
  - destruct question; [vm_compute in H; discriminate | reflexivity].
Qed.

(** X4.  When the question has a topic and the answer holds none of that
    topic's keywords, the relevance checker judges the answer not
    relevant, with a score of at most 2 and the topic issue recorded
    first.  An analysis that accepts the answer as valid then takes 3
    off the structure score (floored at 1) and reports the issue; one
    that rejects it as gibberish never asks the checker: the structure
    score is 1 and no relevance issues are reported. *)
Theorem topic_miss_costs_structure (question answer q_type : string)
    (keywords : list string) :
  detected_type question = Some q_type ->
  Py.get QUESTION_RELEVANCE_MAP q_type = Some keywords ->
  count_in keywords (Py.lower answer) = 0 ->
  (exists rr others,
     check_answer_relevance question answer = (inr rr, [Fcheck_answer_relevance])
     /\ is_relevant rr = false
     /\ relevance_score rr <= 2
     /\ rel_issues rr = topic_issue q_type :: others)
  /\ exists r l,
       analyze_hr_response answer question = (inr r, l)
       /\ (is_valid r = true ->
           exists s others,
             value (evaluate_star_structure (Py.lower answer)) = Some s
             /\ structure r = Z.max 1 (s - 3)
             /\ relevance_issues (details r) = Some (topic_issue q_type :: others))
       /\ (is_valid r = false ->
           structure r = 1 /\ relevance_issues (details r) = None).
Proof.
  intros Ht Hk Hc.
  destruct (detected_type_nonempty _ _ Ht) as [Nt Nq].
  destruct (check_answer_relevance_closed question answer)
    as (rr & E & _ & Hi & Hs & Hv).
  unfold topic_matches in Hi, Hs. rewrite Ht, Nt, Hk in Hi, Hs.
  cbn [option_map] in Hi, Hs. rewrite Hc in Hi, Hs. cbn [Z.eqb app] in Hi, Hs.
  assert (L : relevance_score rr <= 2).
  { rewrite Hs. unfold clamp.
    pose proof (Zle_0_nat (List.length
      (filter (fun b : bool => b) (relevance_tests answer)))) as P.
    unfold Py.llen. lia. }
  assert (V : is_relevant rr = false).
  { destruct (is_relevant rr); [| reflexivity].
    assert (4 <= relevance_score rr) by (apply Hv; reflexivity). lia. }
  split; [exists rr; eexists; repeat split; eassumption |].
  destruct (detect_gibberish_returns answer) as (g & Eg & Hg).
  destruct (is_gibberish g) eqn:G.
  - destruct (analyze_rejected answer question g Eg G) as [fb ->].
    do 2 eexists. split; [reflexivity |]. cbn [is_valid].
    split; [discriminate | intros _; split; reflexivity].
  - destruct (analyze_scored answer question g Eg G)
      as (flags & c & cf & s & star & fb & l & _ & _ & _ & _ & _ & Es & _
          & _ & ->).
    do 2 eexists. split; [reflexivity |].
    split; [intros _ | cbv zeta; cbn [is_valid]; discriminate].
    exists s. eexists. split; [exact Es |].
    cbv zeta. cbn [structure details relevance_issues].
    unfold relevance_of. rewrite Nq, E. unfold value; cbn [fst].
    unfold relevance_penalty. rewrite V, Hi. cbn [negb].
    split; reflexivity.
Qed.

(** X4, witness: the empty answer to a question about a challenge. *)
Lemma topic_miss_costs_structure_witness :
  (exists rr others,
     check_answer_relevance "Tell me about a challenge" ""
       = (inr rr, [Fcheck_answer_relevance])
     /\ is_relevant rr = false
     /\ relevance_score rr <= 2
     /\ rel_issues rr = topic_issue "challenge" :: others)
  /\ exists r l,
       analyze_hr_response "" "Tell me about a challenge" = (inr r, l)
       /\ (is_valid r = true ->
           exists s others,
             value (evaluate_star_structure (Py.lower "")) = Some s
             /\ structure r = Z.max 1 (s - 3)
             /\ relevance_issues (details r)
                = Some (topic_issue "challenge" :: others))
       /\ (is_valid r = false ->
           structure r = 1 /\ relevance_issues (details r) = None).
Proof.
  apply (topic_miss_costs_structure "Tell me about a challenge" "" "challenge"
           [ "challenge"; "difficult"; "hard"; "problem"; "obstacle";
             "struggle"; "issue"; "tough"; "overcome" ]).
  - vm_compute. reflexivity.
  - vm_compute. reflexivity.
  - vm_compute. reflexivity.
Defined.

(** ** X5: the first topic wins *)

(** X5.  A question that holds any keyword of the first topic,
    challenge, is typed challenge, whatever other topic it also names:
    the mere word "difficult" keeps a question from ever being typed
    "difficult team member". *)
Theorem challenge_keywords_come_first (question answer keyword : string)
    (keywords : list string) :
  Py.get QUESTION_RELEVANCE_MAP "challenge" = Some keywords ->
  In keyword keywords ->
  Py.contains keyword (Py.lower question) = true ->
  detected_type question = Some "challenge"
  /\ exists rr,
       check_answer_relevance question answer = (inr rr, [Fcheck_answer_relevance])
       /\ question_type rr = Some "challenge".
Proof.
  intros Hk Hin Hc.
  assert (D : detected_type question = Some "challenge").
  { unfold detected_type, QUESTION_RELEVANCE_MAP. cbn [find snd].
    injection Hk as <-.
    replace (any_in _ (Py.lower question)) with true; [reflexivity |].
    symmetry. unfold any_in. apply existsb_exists. eauto. }
  split; [exact D |].
  destruct (check_answer_relevance_closed question answer) as (rr & E & Ht & _).
  exists rr. split; [exact E | congruence].
Qed.

(** X5, witness: the second question of the bank. *)
Lemma challenge_keywords_come_first_witness :
  detected_type
    "Describe a situation where you had to work with a difficult team member."
    = Some "challenge"
  /\ exists rr,
       check_answer_relevance
         "Describe a situation where you had to work with a difficult team member."
         ""
       = (inr rr, [Fcheck_answer_relevance])
       /\ question_type rr = Some "challenge".
Proof.
  apply (challenge_keywords_come_first
           "Describe a situation where you had to work with a difficult team member."
           "" "difficult"
           [ "challenge"; "difficult"; "hard"; "problem"; "obstacle";
             "struggle"; "issue"; "tough"; "overcome" ]).
  - reflexivity.
  - simpl. auto.
  - vm_compute. reflexivity.
Defined.

(** ** X6: how the question bank is typed *)

Lemma question_type_detected (question answer : string) :
  match value (check_answer_relevance question answer) with
  | Some rr => question_type rr
  | None => None
  end = detected_type question.
Proof.
  destruct (check_answer_relevance_closed question answer)
    as (rr & -> & T & _).
  exact T.
Qed.

(** X6.  The bank has eight questions and [QUESTION_RELEVANCE_MAP] eight
    keys, and the question at each place holds the key at that place.
    Whatever the answer, the relevance checker types the questions
    challenge, challenge, leadership, leadership, deadline, deadline,
    persuade and deadline: the second, fourth, sixth and eighth are
    typed by another key than the one they hold. *)
Theorem question_bank_types (answer : string) :
  map (fun entry =>
         match value (check_answer_relevance (bank_question entry) answer) with
         | Some rr => question_type rr
         | None => None
         end)
      get_hr_question_bank
  = [ Some "challenge"; Some "challenge"; Some "leadership"; Some "leadership";
      Some "deadline"; Some "deadline"; Some "persuade"; Some "deadline" ]
  /\ Py.keys QUESTION_RELEVANCE_MAP
     = [ "challenge"; "difficult team member"; "leadership"; "failed";
         "deadline"; "above and beyond"; "persuade"; "feedback" ]
  /\ map (fun pair : string * BankEntry =>
            Py.contains (fst pair) (Py.lower (bank_question (snd pair))))
         (combine (Py.keys QUESTION_RELEVANCE_MAP) get_hr_question_bank)
     = [ true; true; true; true; true; true; true; true ].
Proof.
  split; [| split; vm_compute; reflexivity].
  unfold get_hr_question_bank. cbn [map bank_question].
  rewrite !question_type_detected. vm_compute. reflexivity.
Qed.

(** ** X7: what the red flags cost *)

Lemma half_penalty_table (flags : list string) :
  Py.int (red_flag_penalty flags / 2)
  = if Py.llen flags <=? 1 then 0 else if Py.llen flags =? 2 then 1 else 2.
Proof.
  unfold red_flag_penalty, Py.fmin, Py.Qlt_bool.
  assert (N : 0 <= Py.llen flags) by (unfold Py.llen; lia).
  destruct (Qle_bool (Py.Z2Q (Py.llen flags) * (3 # 2)) 5) eqn:E; cbn [negb].
  - apply Qle_bool_iff in E. unfold Qle, Py.Z2Q, inject_Z in E. simpl in E.
    assert (C : Py.llen flags = 0 \/ Py.llen flags = 1
                \/ Py.llen flags = 2 \/ Py.llen flags = 3) by lia.
    destruct C as [-> | [-> | [-> | ->]]]; reflexivity.
  - apply Qle_bool_false in E. unfold Qlt, Py.Z2Q, inject_Z in E. simpl in E.
    replace (Py.llen flags <=? 1) with false by (symmetry; apply Z.leb_gt; lia).
    replace (Py.llen flags =? 2) with false by (symmetry; apply Z.eqb_neq; lia).
    reflexivity.
Qed.

(** X7.  In a valid result the red flags reported are those of the
    detector, and they cost clarity and confidence the same amount:
    nothing for at most one flag, 1 point for two flags, 2 points for
    three or more, each score floored at 1. *)
Theorem red_flags_cost (answer question : string) :
  exists r l,
    analyze_hr_response answer question = (inr r, l)
    /\ (is_valid r = true ->
        exists c cf,
          value (evaluate_clarity answer) = Some c
          /\ value (evaluate_confidence (Py.lower answer)) = Some cf
          /\ value (detect_red_flags answer) = Some (red_flags (details r))
          /\ let n := Py.llen (red_flags (details r)) in
             let cost := if n <=? 1 then 0 else if n =? 2 then 1 else 2 in
             clarity r = Z.max 1 (c - cost)
             /\ confidence r = Z.max 1 (cf - cost)).
Proof.
  destruct (detect_gibberish_returns answer) as (g & Eg & Hg).
  destruct (is_gibberish g) eqn:G.
  - destruct (analyze_rejected answer question g Eg G) as [fb ->].
    do 2 eexists. split; [reflexivity |]. cbn [is_valid]. discriminate.
  - destruct (analyze_scored answer question g Eg G)
      as (flags & c & cf & s & star & fb & l & Ef & Ec & _ & Ecf & _ & _ & _
          & _ & ->).
    do 2 eexists. split; [reflexivity |]. intros _.
    exists c, cf. cbv zeta. cbn [clarity confidence details red_flags].
    rewrite <- half_penalty_table. auto.
Qed.

(** ** X8: the confidence score stops at 9 *)

Lemma keyword_bonus_range (k : Z) : 0 <= keyword_bonus k <= 5.
Proof.
  unfold keyword_bonus.
  repeat match goal with |- context [if ?b then _ else _] => destruct b end; lia.
Qed.

Lemma ownership_bonus_range (n : Z) : 0 <= ownership_bonus n <= 2.
Proof.
  unfold ownership_bonus.
  repeat match goal with |- context [if ?b then _ else _] => destruct b end; lia.
Qed.

Lemma hedging_penalty_range (n : Z) : 0 <= hedging_penalty n <= 3.
Proof.
  unfold hedging_penalty.
  repeat match goal with |- context [if ?b then _ else _] => destruct b end; lia.
Qed.

Lemma evaluate_confidence_at_most_9 (answer_lower : string) :
  exists v l, evaluate_confidence answer_lower = (inr v, l) /\ 1 <= v <= 9.
Proof.
  destruct (Z.lt_ge_cases (words_in answer_lower) 20) as [Hw | Hw].
  - rewrite evaluate_confidence_short by assumption.
    do 2 eexists. split; [reflexivity |].
    destruct (words_in answer_lower <? 10); lia.
  - rewrite evaluate_confidence_long by assumption.
    do 2 eexists. split; [reflexivity |].
    pose proof (keyword_bonus_range
                  (count_in CONFIDENCE_KEYWORDS answer_lower
                   + count_in LEADERSHIP_KEYWORDS answer_lower)).
    pose proof (ownership_bonus_range
                  (count_in first_person_patterns answer_lower)).
    pose proof (hedging_penalty_range (count_in hedging_words answer_lower)).
    unfold clamp. lia.
Qed.

(** X8.  The confidence scorer never gives more than 9: its base of 2,
    its keyword bonus of at most 5 and its ownership bonus of at most 2
    cannot reach 10.  So no analysis has a confidence of 10, and the
    total score never exceeds 9 either. *)
Theorem confidence_never_ten (answer question : string) :
  (exists v l, evaluate_confidence answer = (inr v, l) /\ 1 <= v <= 9)
  /\ exists r l,
       analyze_hr_response answer question = (inr r, l)
       /\ confidence r <= 9
       /\ total_score r <= 9.
Proof.
  split; [apply evaluate_confidence_at_most_9 |].
  destruct (detect_gibberish_returns answer) as (g & Eg & Hg).
  destruct (is_gibberish g) eqn:G.
  - destruct (analyze_rejected answer question g Eg G) as [fb ->].
    do 2 eexists. split; [reflexivity |].
    cbn [confidence total_score]. lia.
  - destruct (analyze_scored answer question g Eg G)
      as (flags & c & cf & s & star & fb & l & _ & _ & Hc & Ecf & _ & _ & Hs
          & _ & ->).
    do 2 eexists. split; [reflexivity |].
    cbv zeta. cbn [confidence total_score].
    destruct (evaluate_confidence_at_most_9 (Py.lower answer))
      as (v & lv & Ev & Hv).
    rewrite Ev in Ecf. injection Ecf as <-.
    pose proof (half_penalty_range flags) as Hp.
    pose proof (relevance_penalty_range (relevance_of question answer)) as Hr.
    set (p := Py.int (red_flag_penalty flags / 2)) in *.
    set (q := relevance_penalty (relevance_of question answer)) in *.
    rewrite int_mean.
    split; [lia |].
    enough (Z.quot (Z.max 1 (c - p) + Z.max 1 (v - p) + Z.max 1 (s - q)) 3 < 10)
      by lia.
    apply Z.quot_lt_upper_bound; lia.
Qed.

(** ** X9: the structure score by components *)

(** X9.  For an answer of at least 20 words the structure score depends
    only on which STAR components the detector finds: it is one of 1, 2,
    4, 5, 7, 8 and 10; it is 10 exactly when all four are found; and it
    is 8 or more exactly when situation and result are found together
    with task or action. *)
Theorem structure_by_components (answer_lower : string) :
  20 <= words_in answer_lower ->
  exists components v,
    detect_star_components answer_lower
      = (inr components, [Fdetect_star_components])
    /\ evaluate_star_structure answer_lower
       = (inr v, [Fevaluate_star_structure; Fdetect_star_components])
    /\ let found := get_truthy components in
       (v = 1 \/ v = 2 \/ v = 4 \/ v = 5 \/ v = 7 \/ v = 8 \/ v = 10)
       /\ (v = 10 <->
           found "situation" = true /\ found "task" = true
           /\ found "action" = true /\ found "result" = true)
       /\ (8 <= v <->
           found "situation" = true /\ found "result" = true
           /\ (found "task" = true \/ found "action" = true)).
Proof.
  intros Hw.
  destruct (detect_star_components_returns answer_lower)
    as (s & t & a & r & E).
  do 2 eexists. split; [exact E |].
  unfold evaluate_star_structure. rewrite bind_enter.
  fold (words_in answer_lower). cbv zeta.
  replace (words_in answer_lower <? 10) with false by (symmetry; apply Z.ltb_ge; lia).
  replace (words_in answer_lower <? 20) with false by (symmetry; apply Z.ltb_ge; lia).
  rewrite E, bind_returned. unfold ret. cbn [fst snd app].
  split; [reflexivity |].
  destruct s, t, a, r; vm_compute;
    repeat split; intros;
    repeat match goal with
    | H : _ /\ _ |- _ => destruct H
    | H : _ \/ _ |- _ => destruct H
    end;
    try discriminate; try tauto; try congruence.
Qed.

(** X9, witness: an answer of 30 words with all four components. *)
Lemma structure_by_components_witness :
  exists components v,
    detect_star_components (Py.lower star_answer)
      = (inr components, [Fdetect_star_components])
    /\ evaluate_star_structure (Py.lower star_answer)
       = (inr v, [Fevaluate_star_structure; Fdetect_star_components])
    /\ let found := get_truthy components in
       (v = 1 \/ v = 2 \/ v = 4 \/ v = 5 \/ v = 7 \/ v = 8 \/ v = 10)
       /\ (v = 10 <->
           found "situation" = true /\ found "task" = true
           /\ found "action" = true /\ found "result" = true)
       /\ (8 <= v <->
           found "situation" = true /\ found "result" = true
           /\ (found "task" = true \/ found "action" = true)).
Proof.
  apply (structure_by_components (Py.lower star_answer)).
  vm_compute. discriminate.
Defined.

(** ** X10: the order of execution *)

Lemma generate_hr_feedback_trace (clarity confidence structure : Z)
    (answer_lower : string) (red_flags : list string)
    (relevance_result : option RelevanceVerdict) :
  exists fb,
    generate_hr_feedback clarity confidence structure
      answer_lower red_flags relevance_result
    = (inr fb, [Fgenerate_hr_feedback; Fdetect_star_components]).
Proof.
  destruct (detect_star_components_returns answer_lower)
    as (s & t & a & r & Estar).
  unfold generate_hr_feedback.
  eexists.
  eapply (bind_step _ _ tt [Fgenerate_hr_feedback]); [reflexivity |].
  eapply (bind_step _ _ _ []); [apply truediv_const; reflexivity |].
  eapply (bind_step _ _ _ [Fdetect_star_components]); [exact Estar |].
  reflexivity.
Qed.

Lemma analyze_scored_trace (answer question : string) (g : GibberishVerdict) :
  detect_gibberish answer = (inr g, [Fdetect_gibberish]) ->
  is_gibberish g = false ->
  exists r,
    analyze_hr_response answer question =
      (inr r,
       ([Fanalyze_hr_response; Fdetect_gibberish]
        ++ (if Py.nonempty question then [Fcheck_answer_relevance] else [])
        ++ [Fdetect_red_flags; Fevaluate_clarity]
        ++ trace (evaluate_confidence (Py.lower answer))
        ++ trace (evaluate_star_structure (Py.lower answer))
        ++ [Fgenerate_hr_feedback; Fdetect_star_components;
            Fdetect_star_components; Fcount_confidence_keywords;
            Fcount_leadership_keywords])%list)
    /\ is_valid r = true.
Proof.
  intros E G.
  assert (R : exists rel,
    (if Py.nonempty question
     then rr <- check_answer_relevance question answer ;; ret (Some rr)
     else ret None)
    = (inr rel, if Py.nonempty question then [Fcheck_answer_relevance] else [])).
  { destruct (Py.nonempty question); [| eexists; reflexivity].
    destruct (check_answer_relevance_returns question answer)
      as (? & ? & ? & ? & rr & -> & _).
    rewrite bind_returned. eexists. reflexivity. }
  destruct R as [rel Er].
  destruct (detect_red_flags_returns answer) as [earlier Ef].
  set (flags := (earlier ++ _ ++ _)%list) in Ef. clearbody flags.
  destruct (evaluate_clarity_returns answer) as (c & Ec & Hc).
  destruct (evaluate_confidence_returns (Py.lower answer)) as (cf & lcf & Ecf & Hcf).
  destruct (evaluate_star_structure_returns (Py.lower answer)) as (s & ls & Es & Hs).
  destruct (detect_star_components_returns (Py.lower answer))
    as (bs & bt & ba & br & Estar).
  destruct (generate_hr_feedback_trace
              (Z.max 1 (c - Py.int (red_flag_penalty flags / 2)))
              (Z.max 1 (cf - Py.int (red_flag_penalty flags / 2)))
              (Z.max 1 (s - relevance_penalty rel))
              (Py.lower answer) flags rel)
    as (fb & Efb).
  rewrite Ecf, Es. unfold trace. cbn [snd].
  eexists. split.
  - unfold analyze_hr_response.
    eapply (bind_step _ _ tt [Fanalyze_hr_response]); [reflexivity |].
    cbv beta zeta.
    eapply (bind_step _ _ _ [Fdetect_gibberish]); [exact E |].
    cbv beta. rewrite G. cbn [app].
    eapply bind_step; [exact Er |]. cbv beta.
    eapply (bind_step _ _ _ [Fdetect_red_flags]); [exact Ef |]. cbv beta.
    eapply (bind_step _ _ _ [Fevaluate_clarity]); [exact Ec |]. cbv beta.
    eapply bind_step; [exact Ecf |]. cbv beta.
    eapply bind_step; [exact Es |]. cbv beta.
    eapply (bind_step _ _ _ []); [apply truediv_const; reflexivity |]. cbv beta.
    eapply (bind_step _ _ _ []); [apply truediv_const; reflexivity |]. cbv beta.
    eapply (bind_step _ _ _ []); [apply truediv_const; reflexivity |]. cbv beta.
    eapply (bind_step _ _ _ [Fgenerate_hr_feedback; Fdetect_star_components]);
      [exact Efb |]. cbv beta.
    eapply (bind_step _ _ _ [Fdetect_star_components]); [exact Estar |]. cbv beta.
    eapply (bind_step _ _ _ [Fcount_confidence_keywords]);
      [apply count_confidence_keywords_returns |]. cbv beta.
    eapply (bind_step _ _ _ [Fcount_leadership_keywords]);
      [apply count_leadership_keywords_returns |]. cbv beta.
    reflexivity.
  - reflexivity.
Qed.

Lemma evaluate_star_structure_trace (answer_lower : string) :
  trace (evaluate_star_structure answer_lower)
  = if words_in answer_lower <? 20 then [Fevaluate_star_structure]
    else [Fevaluate_star_structure; Fdetect_star_components].
Proof.
  unfold evaluate_star_structure. rewrite bind_enter.
  fold (words_in answer_lower). cbv zeta.
  destruct (Z.lt_ge_cases (words_in answer_lower) 20) as [Hw | Hw].
  - replace (words_in answer_lower <? 20) with true by (symmetry; apply Z.ltb_lt; lia).
    destruct (words_in answer_lower <? 10); reflexivity.
  - replace (words_in answer_lower <? 10) with false by (symmetry; apply Z.ltb_ge; lia).
    replace (words_in answer_lower <? 20) with false by (symmetry; apply Z.ltb_ge; lia).
    destruct (detect_star_components_returns answer_lower)
      as (s & t & a & r & ->).
    rewrite bind_returned. reflexivity.
Qed.

Lemma evaluate_confidence_trace (answer_lower : string) :
  trace (evaluate_confidence answer_lower)
  = if words_in answer_lower <? 20 then [Fevaluate_confidence]
    else [Fevaluate_confidence; Fcount_confidence_keywords;
          Fcount_leadership_keywords].
Proof.
  destruct (Z.lt_ge_cases (words_in answer_lower) 20) as [Hw | Hw].
  - rewrite evaluate_confidence_short by assumption.
    replace (words_in answer_lower <? 20) with true by (symmetry; apply Z.ltb_lt; lia).
    reflexivity.
  - rewrite evaluate_confidence_long by assumption.
    replace (words_in answer_lower <? 20) with false by (symmetry; apply Z.ltb_ge; lia).
    reflexivity.
Qed.

(** X10.  Every analysis enters [detect_gibberish] first.  A rejected
    analysis enters only the rejection feedback after it.  A valid one
    enters, in this order: the relevance checker, exactly when a
    question is given; the red-flag detector; the clarity, confidence
    and structure scorers, the last two with their helpers only for an
    answer of 20 words or more; the feedback generator; and the helpers
    that fill the details. *)
Theorem order_of_execution (answer question : string) :
  exists r l,
    analyze_hr_response answer question = (inr r, l)
    /\ (is_valid r = false ->
        l = [Fanalyze_hr_response; Fdetect_gibberish;
             Fgenerate_rejection_feedback])
    /\ (is_valid r = true ->
        let long := negb (words_in (Py.lower answer) <? 20) in
        l = ([Fanalyze_hr_response; Fdetect_gibberish]
             ++ (if Py.nonempty question then [Fcheck_answer_relevance] else [])
             ++ [Fdetect_red_flags; Fevaluate_clarity; Fevaluate_confidence]
             ++ (if long then [Fcount_confidence_keywords;
                               Fcount_leadership_keywords] else [])
             ++ [Fevaluate_star_structure]
             ++ (if long then [Fdetect_star_components] else [])
             ++ [Fgenerate_hr_feedback; Fdetect_star_components;
                 Fdetect_star_components; Fcount_confidence_keywords;
                 Fcount_leadership_keywords])%list)
    /\ (In Fcheck_answer_relevance l <->
        is_valid r = true /\ Py.nonempty question = true).
Proof.
  destruct (detect_gibberish_returns answer) as (g & Eg & Hg).
  destruct (is_gibberish g) eqn:G.
  - destruct (analyze_rejected answer question g Eg G) as [fb ->].
    do 2 eexists. split; [reflexivity |]. cbn [is_valid].
    split; [reflexivity |]. split; [discriminate |].
    split; [| intros [[=] _]].
    intros [H | [H | [H | []]]]; discriminate H.
  - destruct (analyze_scored_trace answer question g Eg G) as (r & -> & V).
    do 2 eexists. split; [reflexivity |]. rewrite V.
    rewrite evaluate_confidence_trace, evaluate_star_structure_trace.
    split; [discriminate |].
    split; [intros _; cbv zeta;
            destruct (words_in (Py.lower answer) <? 20); reflexivity |].
    destruct (Py.nonempty question);
      destruct (words_in (Py.lower answer) <? 20); cbn [app In];
      (split; [intros H | intros [_ H]]);
      try (split; reflexivity); try discriminate H; auto;
      repeat (destruct H as [H | H]; [discriminate H |]); destruct H.
Qed.

(** ** X11: an analysis without a question *)

(** X11.  Without a question the relevance checker is never entered;
    a valid result then has an empty list of relevance issues and its
    structure score is the structure scorer's own value. *)
Theorem without_question (answer : string) :
  exists r l,
    analyze_hr_response answer "" = (inr r, l)
    /\ ~ In Fcheck_answer_relevance l
    /\ (is_valid r = true ->
        relevance_issues (details r) = Some []
        /\ value (evaluate_star_structure (Py.lower answer))
           = Some (structure r)).
Proof.
  destruct (detect_gibberish_returns answer) as (g & Eg & Hg).
  destruct (is_gibberish g) eqn:G.
  - destruct (analyze_rejected answer "" g Eg G) as [fb ->].
    do 2 eexists. split; [reflexivity |]. cbn [is_valid].
    split; [| discriminate].
    intros [H | [H | [H | []]]]; discriminate H.
  - destruct (analyze_scored answer "" g Eg G)
      as (flags & c & cf & s & star & fb & l & _ & _ & _ & _ & _ & Es & Hs
          & _ & E).
    destruct (analyze_scored_trace answer "" g Eg G) as (r' & E' & _).
    rewrite E in E'. injection E' as _ ->. rewrite E. clear E.
    do 2 eexists. split; [reflexivity |].
    split.
    + rewrite evaluate_confidence_trace, evaluate_star_structure_trace.
      destruct (words_in (Py.lower answer) <? 20); cbn [Py.nonempty app In];
        intros H; repeat (destruct H as [H | H]; [discriminate H |]); destruct H.
    + intros _. cbv zeta. cbn [details relevance_issues structure].
      unfold relevance_of. cbn [Py.nonempty relevance_penalty].
      split; [reflexivity |]. rewrite Es. f_equal. lia.
Qed.

(** ** X12: the grades of the gibberish detector *)

Lemma graded_flag2 (severe : bool) (n : nat) (msg : string) (st : list string * Z) :
  graded severe n st -> graded severe (S n) (flag msg 2 st).
Proof.
  unfold graded, flag, Py.append. cbn [fst snd].
  intros (I & L & S3). rewrite length_app. cbn [List.length].
  split; [right; split; [lia | destruct (fst st); discriminate] |].
  split; [lia |]. rewrite <- S3. lia.
Qed.

Lemma graded_keep (severe : bool) (n : nat) (st : list string * Z) :
  graded severe n st -> graded severe (S n) st.
Proof. unfold graded. intros (I & L & S3). repeat split; try tauto; lia. Qed.

Lemma graded_step2 (severe : bool) (n : nat) (msg : string) (c : bool)
    (st : list string * Z) :
  graded severe n st ->
  graded severe (S n) (if c then flag msg 2 st else st).
Proof. destruct c; [apply graded_flag2 | apply graded_keep]. Qed.

Lemma detect_gibberish_graded (text : string) :
  exists g,
    detect_gibberish text = (inr g, [Fdetect_gibberish])
    /\ is_gibberish g = (severity g >=? 2)
    /\ graded (placeholder_found text || low_diversity text) 6
              (issues g, severity g).
Proof.
  unfold detect_gibberish. rewrite bind_enter. cbv zeta.
  fold (placeholder_found text). fold (low_diversity text).
  set (st1 := if low_diversity text then _ else _).
  assert (G1 : graded (placeholder_found text || low_diversity text) 2 st1).
  { subst st1. unfold graded, flag, Py.append.
    destruct (placeholder_found text); destruct (low_diversity text);
      cbn [fst snd app List.length orb Z.max];
      (split; [first [left; split; reflexivity
                     | right; split; [auto | discriminate]] |]);
      (split; [lia |]); split; congruence || discriminate || reflexivity. }
  clearbody st1.
  assert (E1 : exists e,
    (if Py.len text >? 10
     then r <- truediv (Py.Z2Q (Py.count_chars Py.ispunct text))
                 (Py.Z2Q (Py.len text)) ;; ret (Py.Qlt_bool (3 # 10) r)
     else ret false) = ret e).
  { destruct (Py.len text >? 10) eqn:E; [| eexists; reflexivity].
    rewrite truediv_nonzero by (apply Z.gtb_lt in E; lia).
    rewrite bind_ret. eexists; reflexivity. }
  destruct E1 as [e ->]. rewrite bind_ret.
  rewrite truediv_nonzero by lia. rewrite bind_ret.
  set (st2 := if e then _ else st1).
  assert (G2 : graded (placeholder_found text || low_diversity text) 3 st2)
    by (apply graded_step2; exact G1).
  clearbody st2.
  set (st3 := if _ && _ && _ then _ else st2).
  assert (G3 : graded (placeholder_found text || low_diversity text) 4 st3)
    by (apply graded_step2; exact G2).
  clearbody st3.
  destruct (truthy (Py.split (Py.lower text))) eqn:W.
  - set (wc := fold_left _ _ _).
    assert (E2 : exists m, (if truthy wc then pymax (Py.values wc) else ret 0) = ret m).
    { destruct (truthy wc) eqn:T; [| eexists; reflexivity].
      apply pymax_truthy. unfold Py.values. rewrite truthy_map. exact T. }
    destruct E2 as [m ->]. rewrite !bind_ret.
    rewrite truediv_nonzero by (apply truthy_llen; exact W).
    rewrite !bind_ret.
    set (st4 := if _ && _ then _ else st3).
    assert (G4 : graded (placeholder_found text || low_diversity text) 5 st4)
      by (apply graded_step2; exact G3).
    clearbody st4.
    set (st5 := if _ || _ then _ else st4).
    assert (G5 : graded (placeholder_found text || low_diversity text) 6 st5)
      by (apply graded_step2; exact G4).
    clearbody st5.
    eexists. split; [reflexivity |]. split; [reflexivity |].
    destruct st5. exact G5.
  - rewrite !bind_ret.
    eexists. split; [reflexivity |]. split; [reflexivity |].
    destruct st3. apply graded_keep, graded_keep. exact G3.
Qed.

(** X12.  The gibberish detector grades a text 0, 2 or 3, never 1.  The
    grade is 0 exactly when no issue is recorded, so a text is gibberish
    exactly when the detector names an issue; there are at most six
    issues; and the grade is 3 exactly when a placeholder pattern is
    found or the text has more than 20 characters, spaces apart, of
    fewer than 8 kinds. *)
Theorem gibberish_grades (text : string) :
  exists g,
    detect_gibberish text = (inr g, [Fdetect_gibberish])
    /\ (severity g = 0 \/ severity g = 2 \/ severity g = 3)
    /\ (severity g = 0 <-> issues g = [])
    /\ (is_gibberish g = true <-> issues g <> [])
    /\ Py.llen (issues g) <= 6
    /\ (severity g = 3 <->
        placeholder_found text = true \/ low_diversity text = true).
Proof.
  destruct (detect_gibberish_graded text) as (g & E & Hg & I & L & S3).
  cbn [fst snd] in I, L, S3.
  exists g. split; [exact E |].
  rewrite Hg, Z.geb_le. rewrite orb_true_iff in S3. unfold Py.llen.
  assert (D : issues g = [] \/ issues g <> [])
    by (destruct (issues g); [left; reflexivity | right; discriminate]).
  split; [destruct I as [[I1 _] | [I1 _]]; lia |].
  split; [destruct I as [[I1 I2] | [I1 I2]]; split; intros;
          first [assumption | lia | contradiction | exfalso; lia | congruence] |].
  split; [destruct I as [[I1 I2] | [I1 I2]]; split; intros;
          first [assumption | lia | congruence | exfalso; lia | exfalso; congruence] |].
  split; [lia | exact S3].
Qed.

(** ** X13: what a rejected result reports *)

(** X13.  A rejected result reports the issues of the gibberish
    detector, of which there is at least one, as its red flags; its
    feedback is the rejection text built from those issues; its keyword
    counts are 0 and it has no entry for relevance issues. *)
Theorem rejection_reports_issues (answer question : string) :
  exists g r l,
    detect_gibberish answer = (inr g, [Fdetect_gibberish])
    /\ analyze_hr_response answer question = (inr r, l)
    /\ (is_valid r = false ->
        red_flags (details r) = issues g
        /\ red_flags (details r) <> []
        /\ value (generate_rejection_feedback (issues g)) = Some (feedback r)
        /\ confidence_keywords_found (details r) = 0
        /\ leadership_keywords_found (details r) = 0
        /\ relevance_issues (details r) = None).
Proof.
  destruct (detect_gibberish_graded answer) as (g & E & Hg & I & _).
  cbn [fst snd] in I.
  exists g.
  destruct (is_gibberish g) eqn:G.
  - assert (N : issues g <> []).
    { symmetry in Hg. apply Z.geb_le in Hg.
      destruct I as [[I1 _] | [_ I2]]; [lia | exact I2]. }
    unfold analyze_hr_response. rewrite bind_enter. cbv zeta.
    rewrite E, bind_returned, G.
    do 2 eexists. split; [reflexivity |]. split; [reflexivity |].
    intros _. cbn [fst details red_flags feedback confidence_keywords_found
                   leadership_keywords_found relevance_issues].
    repeat split; try reflexivity. exact N.
  - destruct (analyze_scored answer question g E G)
      as (flags & c & cf & s & star & fb & l & _ & _ & _ & _ & _ & _ & _
          & _ & ->).
    do 2 eexists. split; [exact E |]. split; [reflexivity |].
    cbn [is_valid]. discriminate.
Qed.

(** ** X14: a placeholder phrase anywhere rejects the answer *)

Lemma seq_Eps_Lit (s : string) : seq Eps (Lit s) = Lit s.
Proof. destruct s; reflexivity. Qed.

Lemma same_char_refl (c : ascii) : same_char c c = true.
Proof. unfold same_char. apply Ascii.eqb_refl. Qed.

Lemma prefix_match_prefix (sub s : string) :
  String.prefix sub s = true -> match_prefix (Lit sub) s = true.
Proof.
  revert s. induction sub as [| c sub IH]; intros s H; [destruct s; reflexivity |].
  destruct s as [| d s]; [discriminate |].
  cbn [String.prefix] in H.
  destruct (ascii_dec c d) as [<- | ]; [| discriminate].
  cbn [Lit match_prefix nullable andb orb deriv].
  rewrite same_char_refl. cbn [of_bool]. rewrite seq_Eps_Lit.
  apply IH. exact H.
Qed.

Lemma contains_search (sub s : string) :
  Py.contains sub s = true -> Re.search (Find (Lit sub)) s = true.
Proof.
  cbn [Re.search].
  induction s as [| c s IH]; cbn [Py.contains match_anywhere]; intros H.
  - rewrite orb_false_r in H. rewrite (prefix_match_prefix _ _ H). reflexivity.
  - apply orb_true_iff in H. destruct H as [H | H].
    + rewrite (prefix_match_prefix _ _ H). reflexivity.
    + rewrite (IH H). apply orb_true_r.
Qed.

(** X14.  An answer that holds, in any letter case and at any place, one
    of the phrases asdf, qwerty, zxcv, jkl, lorem ipsum, no idea or not
    sure is graded severe and rejected with all scores 1, whatever else
    it says. *)
Theorem placeholder_phrase_rejects (answer question phrase : string) :
  In phrase PLACEHOLDER_PHRASES ->
  Py.contains phrase (Py.lower answer) = true ->
  exists g r l,
    detect_gibberish answer = (inr g, [Fdetect_gibberish])
    /\ severity g = 3
    /\ analyze_hr_response answer question = (inr r, l)
    /\ is_valid r = false
    /\ clarity r = 1 /\ confidence r = 1 /\ structure r = 1
    /\ total_score r = 1.
Proof.
  intros Hin Hc.
  assert (P : placeholder_found answer = true).
  { unfold placeholder_found. apply existsb_exists.
    exists (Find (Lit phrase)). split; [| apply contains_search; exact Hc].
    cbn in Hin.
    repeat (destruct Hin as [<- | Hin]; [cbn; tauto |]). destruct Hin. }
  destruct (detect_gibberish_graded answer) as (g & E & Hg & _ & _ & S3).
  cbn [fst snd] in S3. rewrite P in S3. cbn [orb] in S3.
  assert (S : severity g = 3) by (apply S3; reflexivity).
  assert (G : is_gibberish g = true) by (rewrite Hg, S; reflexivity).
  destruct (analyze_rejected answer question g E G) as [fb ->].
  exists g. do 2 eexists. split; [exact E |]. split; [exact S |].
  split; [reflexivity |]. repeat split.
Qed.

(** X14, witness: a real answer that says "Not Sure". *)
Lemma placeholder_phrase_rejects_witness :
  exists g r l,
    detect_gibberish unsure_answer = (inr g, [Fdetect_gibberish])
    /\ severity g = 3
    /\ analyze_hr_response unsure_answer "" = (inr r, l)
    /\ is_valid r = false
    /\ clarity r = 1 /\ confidence r = 1 /\ structure r = 1
    /\ total_score r = 1.
Proof.
  apply (placeholder_phrase_rejects unsure_answer "" "not sure").
  - simpl. tauto.
  - vm_compute. reflexivity.
Defined.

(** ** Lowering a text *)

Ltac by_cases_on_char c :=
  destruct c as [[] [] [] [] [] [] [] []]; reflexivity.

Lemma lower_char_idem (c : ascii) :
  Py.lower_char (Py.lower_char c) = Py.lower_char c.
Proof. by_cases_on_char c. Qed.

Lemma isspace_lower_char (c : ascii) : Py.isspace (Py.lower_char c) = Py.isspace c.
Proof. by_cases_on_char c. Qed.

Lemma ispunct_lower_char (c : ascii) : Py.ispunct (Py.lower_char c) = Py.ispunct c.
Proof. by_cases_on_char c. Qed.

Lemma isdigit_lower_char (c : ascii) : Py.isdigit (Py.lower_char c) = Py.isdigit c.
Proof. by_cases_on_char c. Qed.

Lemma isdecimal_lower_char (c : ascii) :
  Py.isdecimal (Py.lower_char c) = Py.isdecimal c.
Proof. by_cases_on_char c. Qed.

Lemma is_LF_lower_char (c : ascii) :
  Ascii.eqb (Py.lower_char c) LF = Ascii.eqb c LF.
Proof. by_cases_on_char c. Qed.

Lemma is_terminal_lower_char (c : ascii) :
  Py.has_char (Py.lower_char c) ".!?" = Py.has_char c ".!?".
Proof. by_cases_on_char c. Qed.

Lemma is_percent_lower_char (c : ascii) :
  (if ascii_dec "%" (Py.lower_char c) then true else false)
  = (if ascii_dec "%" c then true else false).
Proof. by_cases_on_char c. Qed.

Lemma is_dollar_lower_char (c : ascii) :
  (if ascii_dec "$" (Py.lower_char c) then true else false)
  = (if ascii_dec "$" c then true else false).
Proof. by_cases_on_char c. Qed.

Lemma lower_cons (c : ascii) (s : string) :
  Py.lower (String c s) = String (Py.lower_char c) (Py.lower s).
Proof. reflexivity. Qed.

Lemma lower_idem (s : string) : Py.lower (Py.lower s) = Py.lower s.
Proof.
  induction s as [| c s IH]; [reflexivity |].
  rewrite !lower_cons, lower_char_idem. f_equal. exact IH.
Qed.

Lemma lower_app (s t : string) :
  Py.lower (s ++ t) = (Py.lower s ++ Py.lower t)%string.
Proof.
  induction s as [| c s IH]; [reflexivity |].
  cbn [append]. rewrite !lower_cons. cbn [append]. f_equal. exact IH.
Qed.

Lemma len_lower (s : string) : Py.len (Py.lower s) = Py.len s.
Proof.
  unfold Py.len. f_equal.
  induction s as [| c s IH]; [reflexivity |].
  rewrite lower_cons. cbn [String.length]. f_equal. exact IH.
Qed.

Lemma nonempty_lower (s : string) : Py.nonempty (Py.lower s) = Py.nonempty s.
Proof. destruct s; reflexivity. Qed.

Lemma count_chars_lower (p : ascii -> bool) (s : string) :
  (forall c, p (Py.lower_char c) = p c) ->
  Py.count_chars p (Py.lower s) = Py.count_chars p s.
Proof.
  intros H. induction s as [| c s IH]; [reflexivity |].
  rewrite lower_cons. cbn [Py.count_chars]. rewrite H, IH. reflexivity.
Qed.

Lemma fields_lower (sep : ascii -> bool) (s cur : string) :
  (forall c, sep (Py.lower_char c) = sep c) ->
  Py.fields sep (Py.lower s) (Py.lower cur) = map Py.lower (Py.fields sep s cur).
Proof.
  intros H. revert cur. induction s as [| c s IH]; intros cur; [reflexivity |].
  rewrite lower_cons. cbn [Py.fields]. rewrite H.
  destruct (sep c).
  - cbn [map]. f_equal. apply (IH EmptyString).
  - rewrite <- IH. f_equal. rewrite lower_app. reflexivity.
Qed.

Lemma fields_lower_start (sep : ascii -> bool) (s : string) :
  (forall c, sep (Py.lower_char c) = sep c) ->
  Py.fields sep (Py.lower s) EmptyString
  = map Py.lower (Py.fields sep s EmptyString).
Proof. intros H. exact (fields_lower sep s EmptyString H). Qed.

Lemma filter_nonempty_lower (l : list string) :
  filter Py.nonempty (map Py.lower l) = map Py.lower (filter Py.nonempty l).
Proof.
  induction l as [| x l IH]; [reflexivity |].
  cbn [map filter]. rewrite nonempty_lower.
  destruct (Py.nonempty x); cbn [map]; rewrite IH; reflexivity.
Qed.

Lemma split_lower (s : string) : Py.split (Py.lower s) = map Py.lower (Py.split s).
Proof.
  unfold Py.split.
  rewrite (fields_lower_start Py.isspace s isspace_lower_char).
  apply filter_nonempty_lower.
Qed.

Lemma llen_map {A B} (f : A -> B) (l : list A) : Py.llen (map f l) = Py.llen l.
Proof. unfold Py.llen. rewrite length_map. reflexivity. Qed.

Lemma words_in_lower (s : string) : words_in (Py.lower s) = words_in s.
Proof. unfold words_in. rewrite split_lower. apply llen_map. Qed.

Lemma lstrip_lower (s : string) : Py.lstrip (Py.lower s) = Py.lower (Py.lstrip s).
Proof.
  induction s as [| c s IH]; [reflexivity |].
  rewrite lower_cons. cbn [Py.lstrip]. rewrite isspace_lower_char.
  destruct (Py.isspace c); [exact IH | rewrite lower_cons; reflexivity].
Qed.

Lemma rstrip_lower (s : string) : Py.rstrip (Py.lower s) = Py.lower (Py.rstrip s).
Proof.
  induction s as [| c s IH]; [reflexivity |].
  rewrite lower_cons. cbn [Py.rstrip].
  rewrite isspace_lower_char, IH, nonempty_lower.
  destruct (Py.isspace c && negb (Py.nonempty (Py.rstrip s)));
    [reflexivity | rewrite lower_cons; reflexivity].
Qed.

Lemma strip_lower (s : string) : Py.strip (Py.lower s) = Py.lower (Py.strip s).
Proof. unfold Py.strip. rewrite lstrip_lower. apply rstrip_lower. Qed.

Lemma sentences_of_lower (s : string) :
  sentences_of (Py.lower s) = map Py.lower (sentences_of s).
Proof.
  unfold sentences_of, split_class.
  rewrite (fields_lower_start _ s is_terminal_lower_char).
  rewrite map_map.
  rewrite (map_ext _ (fun x => Py.lower (Py.strip x)) strip_lower).
  rewrite <- (map_map Py.strip Py.lower).
  apply filter_nonempty_lower.
Qed.

Lemma contains_char_lower (d : ascii) (s : string) :
  (forall c, (if ascii_dec d (Py.lower_char c) then true else false)
             = (if ascii_dec d c then true else false)) ->
  Py.contains (String d EmptyString) (Py.lower s)
  = Py.contains (String d EmptyString) s.
Proof.
  intros H. induction s as [| c s IH]; [reflexivity |].
  rewrite lower_cons. cbn [Py.contains String.prefix].
  rewrite IH. f_equal.
  specialize (H c).
  destruct (ascii_dec d (Py.lower_char c)); destruct (ascii_dec d c);
    try discriminate; destruct (Py.lower s); destruct s; reflexivity.
Qed.

(** Searching ignores the case of the text. *)

Lemma same_char_lower (c d : ascii) :
  same_char c (Py.lower_char d) = same_char c d.
Proof. unfold same_char. rewrite lower_char_idem. reflexivity. Qed.

Lemma same_char_lower_l (c d : ascii) :
  same_char (Py.lower_char c) d = same_char c d.
Proof. unfold same_char. rewrite lower_char_idem. reflexivity. Qed.

Lemma deriv_lower (c : ascii) (r : regex) :
  deriv (Py.lower_char c) r = deriv c r.
Proof.
  induction r; cbn [deriv];
    rewrite ?same_char_lower, ?is_LF_lower_char, ?isspace_lower_char,
      ?isdecimal_lower_char, ?IHr, ?IHr1, ?IHr2; reflexivity.
Qed.

Lemma match_prefix_lower (r : regex) (s : string) :
  match_prefix r (Py.lower s) = match_prefix r s.
Proof.
  revert r. induction s as [| c s IH]; intros r; [reflexivity |].
  rewrite lower_cons. cbn [match_prefix].
  rewrite deriv_lower, IH. reflexivity.
Qed.

Lemma match_all_lower (r : regex) (s : string) :
  match_all r (Py.lower s) = match_all r s.
Proof.
  revert r. induction s as [| c s IH]; intros r; [reflexivity |].
  rewrite lower_cons. cbn [match_all].
  rewrite deriv_lower, IH. reflexivity.
Qed.

Lemma match_anywhere_lower (r : regex) (s : string) :
  match_anywhere r (Py.lower s) = match_anywhere r s.
Proof.
  induction s as [| c s IH]; [reflexivity |].
  rewrite lower_cons. cbn [match_anywhere]. rewrite IH.
  rewrite <- lower_cons, match_prefix_lower. reflexivity.
Qed.

Lemma run_of_lower (c : ascii) (n : nat) (s : string) :
  run_of c n (Py.lower s) = run_of c n s.
Proof.
  revert s. induction n as [| n IH]; intros s; [reflexivity |].
  destruct s as [| d s]; [reflexivity |].
  rewrite lower_cons. cbn [run_of].
  rewrite same_char_lower, IH. reflexivity.
Qed.

Lemma run_of_lower_l (c : ascii) (n : nat) (s : string) :
  run_of (Py.lower_char c) n s = run_of c n s.
Proof.
  revert s. induction n as [| n IH]; intros s; [reflexivity |].
  destruct s as [| d s]; [reflexivity |].
  cbn [run_of]. rewrite same_char_lower_l, IH. reflexivity.
Qed.

Lemma repeated_lower (n : nat) (s : string) :
  repeated n (Py.lower s) = repeated n s.
Proof.
  induction s as [| c s IH]; [reflexivity |].
  rewrite lower_cons. cbn [repeated].
  rewrite is_LF_lower_char, run_of_lower_l, run_of_lower, IH. reflexivity.
Qed.

Lemma search_lower (p : pattern) (s : string) :
  Re.search p (Py.lower s) = Re.search p s.
Proof.
  destruct p; cbn [Re.search].
  - apply match_anywhere_lower.
  - apply match_all_lower.
  - apply repeated_lower.
Qed.

(** ** X15: the analysis is blind to letter case *)

Lemma detect_gibberish_lower (text : string) :
  detect_gibberish (Py.lower text) = detect_gibberish text.
Proof.
  unfold detect_gibberish.
  rewrite lower_idem, len_lower.
  rewrite (count_chars_lower Py.ispunct text ispunct_lower_char).
  rewrite (count_chars_lower Py.isdigit text isdigit_lower_char).
  rewrite (contains_char_lower "%" text is_percent_lower_char).
  rewrite (contains_char_lower "$" text is_dollar_lower_char).
  reflexivity.
Qed.

Lemma split_length_lower (s : string) :
  Py.llen (Py.split (Py.lower s)) = Py.llen (Py.split s).
Proof. exact (words_in_lower s). Qed.

Lemma check_answer_relevance_lower (question answer : string) :
  check_answer_relevance (Py.lower question) (Py.lower answer)
  = check_answer_relevance question answer.
Proof.
  unfold check_answer_relevance.
  rewrite !lower_idem, split_length_lower. reflexivity.
Qed.

Lemma detect_red_flags_lower (answer : string) :
  detect_red_flags (Py.lower answer) = detect_red_flags answer.
Proof.
  unfold detect_red_flags.
  rewrite lower_idem, split_length_lower, search_lower. reflexivity.
Qed.

Lemma map_words_lower (l : list string) :
  map (fun s => Py.llen (Py.split s)) (map Py.lower l)
  = map (fun s => Py.llen (Py.split s)) l.
Proof. rewrite map_map. apply map_ext. intros s. apply split_length_lower. Qed.

Lemma count_if_words_lower (n : Z) (l : list string) :
  Py.count_if (fun s => Py.llen (Py.split s) >? n) (map Py.lower l)
  = Py.count_if (fun s => Py.llen (Py.split s) >? n) l.
Proof.
  unfold Py.count_if, Py.llen at 1 3. f_equal.
  induction l as [| x l IH]; [reflexivity |].
  cbn [map filter]. rewrite split_length_lower.
  destruct (Py.llen (Py.split x) >? n); cbn [List.length]; rewrite IH; reflexivity.
Qed.

Lemma evaluate_clarity_lower (answer : string) :
  evaluate_clarity (Py.lower answer) = evaluate_clarity answer.
Proof.
  unfold evaluate_clarity.
  rewrite split_length_lower, sentences_of_lower.
  rewrite truthy_map, llen_map, map_words_lower, count_if_words_lower.
  reflexivity.
Qed.

Lemma analyze_hr_response_lower (answer question : string) :
  analyze_hr_response (Py.lower answer) (Py.lower question)
  = analyze_hr_response answer question.
Proof.
  unfold analyze_hr_response.
  rewrite lower_idem, detect_gibberish_lower, nonempty_lower,
    check_answer_relevance_lower, detect_red_flags_lower,
    evaluate_clarity_lower.
  reflexivity.
Qed.

(** X15.  On texts of code points 0..255, the characters of [string],
    where [str.lower] maps character by character: two answers with the
    same lower-case form, to two questions with the same lower-case
    form, get the same analysis: the same scores, flags, issues and
    feedback, by the same steps.  (Beyond that range lowering can
    lengthen a text, and the ratios of the gibberish detector with it.) *)
Theorem analysis_ignores_case (answer answer' question question' : string) :
  Py.lower answer = Py.lower answer' ->
  Py.lower question = Py.lower question' ->
  analyze_hr_response answer question = analyze_hr_response answer' question'.
Proof.
  intros Ha Hq.
  rewrite <- (analyze_hr_response_lower answer question).
  rewrite <- (analyze_hr_response_lower answer' question').
  rewrite Ha, Hq. reflexivity.
Qed.

(** X15, witness: a shouted answer and the same answer in lower case. *)
Lemma analysis_ignores_case_witness :
  analyze_hr_response "I LED The Team." "Tell me about LEADERSHIP."
  = analyze_hr_response "i led the team." "tell me about leadership.".
Proof.
  apply analysis_ignores_case.
  - vm_compute. reflexivity.
  - vm_compute. reflexivity.
Defined.

(** ** X16: answers of fewer than 20 words *)

Lemma evaluate_clarity_short (answer : string) :
  words_in answer < 20 ->
  evaluate_clarity answer =
    (inr (if words_in answer <? 5 then 1
          else if words_in answer <? 10 then 2 else 3),
     [Fevaluate_clarity]).
Proof.
  intros Hw. unfold evaluate_clarity. rewrite bind_enter.
  fold (words_in answer). cbv zeta.
  destruct (words_in answer <? 5); [reflexivity |].
  destruct (words_in answer <? 10); [reflexivity |].
  replace (words_in answer <? 20) with true by (symmetry; apply Z.ltb_lt; lia).
  reflexivity.
Qed.

Lemma evaluate_star_structure_short (answer_lower : string) :
  words_in answer_lower < 20 ->
  evaluate_star_structure answer_lower =
    (inr (if words_in answer_lower <? 10 then 1 else 2),
     [Fevaluate_star_structure]).
Proof.
  intros Hw. unfold evaluate_star_structure. rewrite bind_enter.
  fold (words_in answer_lower). cbv zeta.
  destruct (words_in answer_lower <? 10); [reflexivity |].
  replace (words_in answer_lower <? 20) with true by (symmetry; apply Z.ltb_lt; lia).
  reflexivity.
Qed.

(** X16.  An answer of fewer than 20 words that passes the gibberish
    gate is scored without being read: clarity and confidence are at
    most 3, structure at most 2 and the total at most 2, whatever the
    words are, and the red flags include the one for a brief answer. *)
Theorem short_answers_score_low (answer question : string) :
  words_in answer < 20 ->
  exists r l,
    analyze_hr_response answer question = (inr r, l)
    /\ (is_valid r = true ->
        clarity r <= 3 /\ confidence r <= 3 /\ structure r <= 2
        /\ total_score r <= 2
        /\ In too_brief (red_flags (details r))).
Proof.
  intros Hw.
  destruct (detect_gibberish_returns answer) as (g & Eg & Hg).
  destruct (is_gibberish g) eqn:G.
  - destruct (analyze_rejected answer question g Eg G) as [fb ->].
    do 2 eexists. split; [reflexivity |]. cbn [is_valid]. discriminate.
  - destruct (analyze_scored answer question g Eg G)
      as (flags & c & cf & s & star & fb & l & Ef & Ec & Hc & Ecf & Hcf & Es
          & Hs & _ & ->).
    do 2 eexists. split; [reflexivity |]. intros _.
    cbv zeta. cbn [clarity confidence structure total_score details red_flags].
    rewrite evaluate_clarity_short in Ec by assumption.
    rewrite evaluate_confidence_short in Ecf by (rewrite words_in_lower; lia).
    rewrite evaluate_star_structure_short in Es by (rewrite words_in_lower; lia).
    rewrite detect_red_flags_select in Ef.
    unfold value in Ec, Ecf, Es, Ef. cbn [fst] in Ec, Ecf, Es, Ef.
    injection Ec as <-. injection Ecf as <-. injection Es as <-.
    injection Ef as <-.
    pose proof (half_penalty_range
                  (select (red_flag_tests answer) ALL_RED_FLAGS)) as Hp.
    pose proof (relevance_penalty_range (relevance_of question answer)) as Hr.
    set (p := Py.int (red_flag_penalty _ / 2)) in *.
    set (q := relevance_penalty (relevance_of question answer)) in *.
    rewrite int_mean.
    assert (Cv : (if words_in answer <? 5 then 1
                  else if words_in answer <? 10 then 2 else 3) <= 3)
      by (repeat match goal with |- context [if ?b then _ else _] =>
                   destruct b end; lia).
    assert (Fv : (if words_in (Py.lower answer) <? 10 then 2 else 3) <= 3)
      by (destruct (words_in (Py.lower answer) <? 10); lia).
    assert (Sv : (if words_in (Py.lower answer) <? 10 then 1 else 2) <= 2)
      by (destruct (words_in (Py.lower answer) <? 10); lia).
    split; [lia |]. split; [lia |]. split; [lia |].
    split.
    + match goal with |- Z.quot ?x 3 <= 2 => enough (Z.quot x 3 < 3) by lia end.
      apply Z.quot_lt_upper_bound; lia.
    + apply (in_select _ ALL_RED_FLAGS_NoDup (red_flag_tests answer) 5 too_brief
               eq_refl).
      unfold red_flag_tests. cbv zeta. cbn [nth].
      apply Z.ltb_lt. lia.
Qed.

(** X16, witness: an answer of nine words. *)
Lemma short_answers_score_low_witness :
  exists r l,
    analyze_hr_response "I worked hard and it went well I guess." ""
      = (inr r, l)
    /\ (is_valid r = true ->
        clarity r <= 3 /\ confidence r <= 3 /\ structure r <= 2
        /\ total_score r <= 2
        /\ In too_brief (red_flags (details r))).
Proof.
  apply (short_answers_score_low "I worked hard and it went well I guess." "").
  vm_compute. reflexivity.
Defined.

(** * The PDF text extractor *)

(** ** Stripping *)

Lemma lstrip_rstrip_lstrip (s : string) :
  Py.lstrip (Py.rstrip (Py.lstrip s)) = Py.rstrip (Py.lstrip s).
Proof.
  induction s as [| c s IH]; [reflexivity |].
  cbn [Py.lstrip]. destruct (Py.isspace c) eqn:E; [exact IH |].
  cbn [Py.rstrip]. rewrite E. cbn [andb Py.lstrip]. rewrite E. reflexivity.
Qed.

Lemma rstrip_idem (s : string) : Py.rstrip (Py.rstrip s) = Py.rstrip s.
Proof.
  induction s as [| c s IH]; [reflexivity |].
  cbn [Py.rstrip].
  destruct (Py.isspace c && negb (Py.nonempty (Py.rstrip s))) eqn:E;
    [reflexivity |].
  cbn [Py.rstrip]. rewrite IH, E. reflexivity.
Qed.

Lemma strip_idem (s : string) : Py.strip (Py.strip s) = Py.strip s.
Proof.
  unfold Py.strip. rewrite lstrip_rstrip_lstrip. apply rstrip_idem.
Qed.

Lemma clean_text_stripped (text : string) :
  Py.strip (Parser.clean_text text) = Parser.clean_text text.
Proof.
  unfold Parser.clean_text.
  destruct (negb (Py.nonempty text)); [reflexivity | apply strip_idem].
Qed.

(** ** X17: what optical character recognition returns and lets escape *)

Lemma ocr_attempt_cleaned (L : Parser.Libraries) (pdf_bytes : list Byte.byte)
    (text : string) :
  Parser.ocr_attempt L pdf_bytes = inr text ->
  exists text_content, text = Parser.clean_text (Py.join newline text_content).
Proof.
  unfold Parser.ocr_attempt.
  destruct (Parser.POPPLER_PATH L) as [path |];
    [destruct (Py.nonempty path) |];
    (destruct (Parser.convert_from_bytes L pdf_bytes 300 _)
       as [e | [images stop]]; [discriminate |];
     destruct (Parser.page_texts _ images stop [])
       as [text_content [e |]]; [discriminate |];
     intros [= <-]; eauto).
Qed.

Lemma ocr_returned (L : Parser.Libraries) (pdf_bytes : list Byte.byte)
    (text : string) (printed : list string) :
  Parser.extract_text_with_ocr L pdf_bytes = (inr text, printed) ->
  Py.strip text = text
  /\ ((printed = []
       /\ exists text_content,
            text = Parser.clean_text (Py.join newline text_content))
      \/ (text = ""
          /\ exists e s,
               Parser.ocr_attempt L pdf_bytes = inl e
               /\ Parser.is_Exception L e = true
               /\ Parser.str L e = inr s
               /\ printed = ["OCR extraction failed: " ++ s])).
Proof.
  unfold Parser.extract_text_with_ocr.
  destruct (Parser.ocr_attempt L pdf_bytes) as [e | cleaned] eqn:A.
  - destruct (Parser.is_Exception L e) eqn:X; [| discriminate].
    destruct (Parser.str L e) as [e' | s] eqn:S; [discriminate |].
    cbv zeta. destruct (Parser.print L _); [discriminate |].
    intros [= <- <-]. split; [reflexivity |].
    right. split; [reflexivity |]. exists e, s. auto.
  - intros [= <- <-].
    destruct (ocr_attempt_cleaned L pdf_bytes cleaned A) as [tc ->].
    split; [apply clean_text_stripped | left; eauto].
Qed.



(** ** X18: what the upload returns and raises *)

Lemma blank_stripped (text : string) :
  Py.strip text = text -> Parser.blank text = negb (Py.nonempty text).
Proof. intros H. unfold Parser.blank. rewrite H. reflexivity. Qed.

(** The [try] block of the upload: a text is never blank, and the only
    exception built is the status 400. *)
Lemma from_pdf_attempt_cases (L : Parser.Libraries)
    (file : Parser.pyexn L + list Byte.byte) :
  let (outcome, printed) := Parser.from_pdf_attempt L file in
  match outcome with
  | inr text => Py.nonempty text = true /\ Py.strip text = text
  | inl (Parser.HTTPException status_code _) => status_code = 400
  | inl (Parser.ValueError _) => False
  | inl (Parser.LibraryError _) => True
  end.
Proof.
  unfold Parser.from_pdf_attempt. cbv zeta.
  destruct file as [e | contents]; [exact I |].
  destruct (Parser.direct_texts L contents) as [e | tc]; [exact I |].
  set (direct := Parser.clean_text (Py.join newline tc)).
  assert (Sd : Py.strip direct = direct) by apply clean_text_stripped.
  destruct (Parser.blank direct) eqn:B.
  - destruct (Parser.extract_text_with_ocr L contents)
      as [[x | text] printed] eqn:O; [exact I |].
    destruct (ocr_returned L contents text printed O) as [So _].
    destruct (Parser.blank text) eqn:B'; [reflexivity |].
    rewrite (blank_stripped _ So) in B'. apply negb_false_iff in B'. auto.
  - rewrite B.
    rewrite (blank_stripped _ Sd) in B. apply negb_false_iff in B. auto.
Qed.

(** X18.  A text that [extract_text_from_pdf] returns is not empty and
    has no white space at either end.  The only exception it builds is
    an [HTTPException] of status 400.  Any other exception that escapes
    it is one of the environment's, let through as it is: an
    [HTTPException], which [except HTTPException: raise] re-raises; an
    exception that is not an [Exception], which no clause catches; or
    the exception that [str(e)] raised in the last handler. *)
Theorem upload_outcomes (L : Parser.Libraries)
    (file : Parser.pyexn L + list Byte.byte) :
  let (outcome, printed) := Parser.extract_text_from_pdf L file in
  match outcome with
  | inr text => Py.nonempty text = true /\ Py.strip text = text
  | inl (Parser.HTTPException status_code _) => status_code = 400
  | inl (Parser.ValueError _) => False
  | inl (Parser.LibraryError e) =>
      Parser.is_HTTPException L e = true
      \/ Parser.is_Exception L e = false
      \/ exists e0,
           Parser.is_HTTPException L e0 = false
           /\ Parser.is_Exception L e0 = true
           /\ Parser.str L e0 = inl e
  end.
Proof.
  pose proof (from_pdf_attempt_cases L file) as A.
  unfold Parser.extract_text_from_pdf. cbv zeta.
  destruct (Parser.from_pdf_attempt L file) as [[[st d | m | e] | text] printed].
  - exact A.
  - destruct A.
  - destruct (Parser.is_HTTPException L e) eqn:H; [left; exact H |].
    destruct (Parser.is_Exception L e) eqn:X; [| right; left; exact X].
    destruct (Parser.str L e) as [e' | s] eqn:S; [| reflexivity].
    right. right. exists e. auto.
  - exact A.
Qed.

(** ** X19: the two entry points side by side *)

(** The two [try] blocks read the same text; the upload alone refuses a
    blank one. *)
Lemma attempts_agree (L : Parser.Libraries) (contents : list Byte.byte) :
  Parser.from_pdf_attempt L (inr contents)
  = match Parser.from_bytes_attempt L contents with
    | (inr text, printed) =>
        if Parser.blank text
        then (inl (Parser.HTTPException 400
                     "Could not extract text from PDF. The file may be empty or OCR failed."),
              printed)
        else (inr text, printed)
    | (inl e, printed) => (inl (Parser.LibraryError e), printed)
    end.
Proof.
  unfold Parser.from_pdf_attempt, Parser.from_bytes_attempt. cbv zeta.
  destruct (Parser.direct_texts L contents) as [e | tc]; [reflexivity |].
  destruct (Parser.blank (Parser.clean_text (Py.join newline tc))) eqn:B.
  - destruct (Parser.extract_text_with_ocr L contents)
      as [[x | text] printed]; reflexivity.
  - rewrite B. reflexivity.
Qed.

Lemma from_bytes_attempt_stripped (L : Parser.Libraries)
    (contents : list Byte.byte) (text : string) (printed : list string) :
  Parser.from_bytes_attempt L contents = (inr text, printed) ->
  Py.strip text = text.
Proof.
  unfold Parser.from_bytes_attempt. cbv zeta.
  destruct (Parser.direct_texts L contents) as [e | tc]; [discriminate |].
  destruct (Parser.blank (Parser.clean_text (Py.join newline tc))).
  - intros O. exact (proj1 (ocr_returned L contents text printed O)).
  - intros [= <- <-]. apply clean_text_stripped.
Qed.

(** X19.  On the same bytes the two entry points read the same text:
    what [extract_text_from_pdf] returns, [extract_text_from_bytes]
    returns too, and a text of [extract_text_from_bytes] that is not
    empty is returned by [extract_text_from_pdf].  They part on
    failure.  Where [extract_text_from_bytes] returns the empty text,
    [extract_text_from_pdf] raises its status 400.  Where the first
    raises its [ValueError], for an [Exception] [e] whose [str] is [s],
    the second re-raises [e] when it is an [HTTPException] and
    otherwise raises status 400 with the same [s].  Where the first
    lets an exception through, the second lets the same one through,
    unless that exception was raised by [str(e)] for an [HTTPException]
    [e], which the second re-raises before calling [str].  The first
    never raises an [HTTPException] of its own making. *)
Theorem entry_points_agree (L : Parser.Libraries) (contents : list Byte.byte) :
  let upload := Parser.extract_text_from_pdf L (inr contents) in
  let direct := Parser.extract_text_from_bytes L contents in
  (forall text printed,
     upload = (inr text, printed) -> direct = (inr text, printed))
  /\ (forall text printed,
        direct = (inr text, printed) -> Py.nonempty text = true ->
        upload = (inr text, printed))
  /\ (forall text printed,
        direct = (inr text, printed) -> Py.nonempty text = false ->
        text = ""
        /\ upload
           = (inl (Parser.HTTPException 400
                     "Could not extract text from PDF. The file may be empty or OCR failed."),
              printed))
  /\ (forall message printed,
        direct = (inl (Parser.ValueError message), printed) ->
        exists e s,
          Parser.is_Exception L e = true
          /\ Parser.str L e = inr s
          /\ message = "Failed to parse PDF: " ++ s
          /\ upload
             = (if Parser.is_HTTPException L e
                then inl (Parser.LibraryError e)
                else inl (Parser.HTTPException 400
                            ("Failed to parse PDF: " ++ s
                             ++ ". The file may be corrupted or not a valid PDF.")),
                printed))
  /\ (forall e printed,
        direct = (inl (Parser.LibraryError e), printed) ->
        upload = (inl (Parser.LibraryError e), printed)
        \/ exists e0,
             Parser.is_HTTPException L e0 = true
             /\ Parser.str L e0 = inl e
             /\ upload = (inl (Parser.LibraryError e0), printed))
  /\ (forall status_code detail printed,
        direct <> (inl (Parser.HTTPException status_code detail), printed)).
Proof.
  unfold Parser.extract_text_from_pdf, Parser.extract_text_from_bytes.
  cbv zeta. rewrite attempts_agree.
  pose proof (from_bytes_attempt_stripped L contents) as St.
  destruct (Parser.from_bytes_attempt L contents) as [[e | text] printed].
  - clear St.
    destruct (Parser.is_Exception L e) eqn:X;
      [destruct (Parser.str L e) as [e' | s] eqn:S |];
      destruct (Parser.is_HTTPException L e) eqn:H;
      repeat split; intros; try discriminate;
      repeat match goal with
      | E : (inl _, _) = (inl _, _) |- _ => injection E as <- <-
      end;
      try (left; reflexivity);
      try (right; exists e; auto; fail);
      try (exists e, s; rewrite H; auto; fail).
  - specialize (St text printed eq_refl).
    rewrite (blank_stripped _ St).
    destruct text as [| c text]; cbn [Py.nonempty negb];
      repeat split; intros; try discriminate;
      repeat match goal with
      | E : (inr _, _) = (inr _, _) |- _ => injection E as <- <-
      end;
      try reflexivity; try discriminate;
      try match goal with E : Py.nonempty _ = _ |- _ => discriminate E end.
Qed.

(** ** X20: what a cleaned text looks like *)

Lemma single_spaced_weaken (p : bool) (s : string) :
  single_spaced p s = true -> single_spaced false s = true.
Proof. destruct s as [| c s]; [reflexivity |]. cbn. destruct p; cbn; [| tauto].
  intros H. apply andb_true_iff in H. tauto. Qed.

Lemma single_spaced_contains (p : bool) (s : string) :
  single_spaced p s = true -> Py.contains "  " s = false.
Proof.
  revert p. induction s as [| c s IH]; intros p H; [reflexivity |].
  cbn [single_spaced] in H. apply andb_true_iff in H. destruct H as [_ H].
  cbn [Py.contains]. rewrite (IH _ H), orb_false_r.
  cbn [String.prefix].
  destruct (ascii_dec " " c) as [<- |]; [| reflexivity].
  destruct s as [| d s]; [reflexivity |]. cbn [String.prefix].
  destruct (ascii_dec " " d) as [<- |]; [| reflexivity].
  cbn in H. discriminate H.
Qed.

Lemma squeeze_spaces_single (run : nat) (s : string) :
  single_spaced (0 <? run)%nat (Parser.squeeze_from " " 1 run s) = true.
Proof.
  revert run. induction s as [| c s IH]; intros run; [reflexivity |].
  cbn [Parser.squeeze_from].
  destruct (Ascii.eqb c " ") eqn:E.
  - destruct run as [| run]; cbn [Nat.ltb Nat.leb].
    + cbn [single_spaced]. rewrite E. exact (IH 1%nat).
    + exact (IH (S (S run))).
  - cbn [single_spaced]. rewrite E, andb_false_r. exact (IH 0%nat).
Qed.

Lemma squeeze_newlines_single (run : nat) (p : bool) (s : string) :
  (run <> 0%nat -> p = false) ->
  single_spaced p s = true ->
  single_spaced p (Parser.squeeze_from LF 2 run s) = true.
Proof.
  revert run p. induction s as [| c s IH]; intros run p Hp H; [reflexivity |].
  cbn [single_spaced] in H. apply andb_true_iff in H. destruct H as [H1 H2].
  cbn [Parser.squeeze_from].
  destruct (Ascii.eqb c LF) eqn:E.
  - apply Ascii.eqb_eq in E. subst c.
    change (Ascii.eqb LF " ") with false in *.
    destruct run as [| [| run]]; cbn [Nat.ltb Nat.leb].
    + cbn [single_spaced]. change (Ascii.eqb LF " ") with false.
      rewrite andb_false_r. apply IH; [reflexivity | exact H2].
    + cbn [single_spaced]. change (Ascii.eqb LF " ") with false.
      rewrite andb_false_r. apply IH; [reflexivity | exact H2].
    + rewrite (Hp (Nat.neq_succ_0 _)). apply IH; [reflexivity | exact H2].
  - cbn [single_spaced]. rewrite H1. apply IH; [congruence | exact H2].
Qed.

Lemma append_empty_r (s : string) : (s ++ "")%string = s.
Proof. induction s as [| c s IH]; [reflexivity |]. cbn. f_equal. exact IH. Qed.

Lemma append_assoc' (a b c : string) :
  ((a ++ b) ++ c)%string = (a ++ (b ++ c))%string.
Proof. induction a as [| x a IH]; [reflexivity |]. cbn. f_equal. exact IH. Qed.

(** The piece being read is the start of the first field. *)
Lemma fields_cur (sep : ascii -> bool) (s cur : string) :
  Py.fields sep s cur =
    match Py.fields sep s EmptyString with
    | f :: r => (cur ++ f)%string :: r
    | [] => [cur]
    end.
Proof.
  revert cur. induction s as [| c s IH]; intros cur.
  - cbn. rewrite append_empty_r. reflexivity.
  - cbn [Py.fields]. destruct (sep c).
    + rewrite append_empty_r. reflexivity.
    + rewrite (IH (cur ++ String c "")%string).
      rewrite (IH ("" ++ String c "")%string).
      destruct (Py.fields sep s "") as [| f r]; [reflexivity |].
      rewrite append_assoc'. reflexivity.
Qed.

Lemma fields_single_spaced (s : string) :
  forall p f r,
    single_spaced p s = true ->
    Py.fields Parser.is_LF s EmptyString = f :: r ->
    single_spaced p f = true /\ forallb (single_spaced false) r = true.
Proof.
  induction s as [| c s IH]; intros p f r H F.
  - cbn in F. injection F as <- <-. split; reflexivity.
  - cbn [single_spaced] in H. apply andb_true_iff in H. destruct H as [H1 H2].
    cbn [Py.fields] in F. unfold Parser.is_LF in F at 1.
    destruct (Ascii.eqb c LF) eqn:E.
    + apply Ascii.eqb_eq in E. subst c.
      change (Ascii.eqb LF " ") with false in H2.
      injection F as <- <-. split; [reflexivity |].
      destruct (Py.fields Parser.is_LF s "") as [| f' r'] eqn:F'.
      * reflexivity.
      * destruct (IH false f' r' H2 eq_refl) as [A B].
        cbn [forallb]. rewrite A, B. reflexivity.
    + rewrite fields_cur in F.
      destruct (Py.fields Parser.is_LF s "") as [| f' r'] eqn:F'.
      * injection F as <- <-. cbn [append single_spaced]. rewrite H1.
        split; reflexivity.
      * injection F as <- <-.
        destruct (IH _ f' r' H2 eq_refl) as [A B].
        cbn [append single_spaced]. rewrite H1, A. split; [reflexivity | exact B].
Qed.

Lemma lstrip_single_spaced (p : bool) (s : string) :
  single_spaced p s = true -> single_spaced false (Py.lstrip s) = true.
Proof.
  revert p. induction s as [| c s IH]; intros p H; [reflexivity |].
  cbn [Py.lstrip]. destruct (Py.isspace c).
  - cbn [single_spaced] in H. apply andb_true_iff in H. destruct H as [_ H].
    exact (IH _ H).
  - exact (single_spaced_weaken _ _ H).
Qed.

Lemma rstrip_single_spaced (p : bool) (s : string) :
  single_spaced p s = true -> single_spaced p (Py.rstrip s) = true.
Proof.
  revert p. induction s as [| c s IH]; intros p H; [reflexivity |].
  cbn [single_spaced] in H. apply andb_true_iff in H. destruct H as [H1 H2].
  cbn [Py.rstrip].
  destruct (Py.isspace c && negb (Py.nonempty (Py.rstrip s))); [reflexivity |].
  cbn [single_spaced]. rewrite H1. exact (IH _ H2).
Qed.

Lemma strip_single_spaced (p : bool) (s : string) :
  single_spaced p s = true -> single_spaced false (Py.strip s) = true.
Proof.
  intros H. unfold Py.strip.
  apply rstrip_single_spaced. exact (lstrip_single_spaced _ _ H).
Qed.

Lemma append_line_single_spaced (p : bool) (a rest : string) :
  single_spaced p a = true ->
  single_spaced false rest = true ->
  single_spaced p (a ++ newline ++ rest) = true.
Proof.
  revert p. induction a as [| c a IH]; intros p Ha Hr.
  - cbn [append newline single_spaced].
    change (Ascii.eqb LF " ") with false. rewrite andb_false_r. exact Hr.
  - cbn [single_spaced] in Ha. apply andb_true_iff in Ha. destruct Ha as [H1 H2].
    cbn [append single_spaced]. rewrite H1. exact (IH _ H2 Hr).
Qed.

Lemma join_single_spaced (lines : list string) :
  forallb (single_spaced false) lines = true ->
  single_spaced false (Py.join newline lines) = true.
Proof.
  unfold Py.join.
  induction lines as [| a lines IH]; intros H; [reflexivity |].
  cbn [forallb] in H. apply andb_true_iff in H. destruct H as [Ha Hl].
  destruct lines as [| b lines]; [exact Ha |].
  cbn [String.concat]. apply append_line_single_spaced; [exact Ha |].
  exact (IH Hl).
Qed.

Lemma forallb_map_strip (lines : list string) :
  forallb (single_spaced false) lines = true ->
  forallb (single_spaced false) (map Py.strip lines) = true.
Proof.
  induction lines as [| a lines IH]; intros H; [reflexivity |].
  cbn [forallb] in H. apply andb_true_iff in H. destruct H as [Ha Hl].
  cbn [map forallb]. rewrite (strip_single_spaced _ _ Ha). exact (IH Hl).
Qed.

(** X20.  A cleaned text has no white space at either end and never two
    spaces in a row; cleaning the empty text gives the empty text. *)
Theorem clean_text_shape (text : string) :
  Py.strip (Parser.clean_text text) = Parser.clean_text text
  /\ Py.contains "  " (Parser.clean_text text) = false
  /\ Parser.clean_text "" = "".
Proof.
  split; [apply clean_text_stripped |]. split; [| reflexivity].
  apply (single_spaced_contains false).
  unfold Parser.clean_text.
  destruct (negb (Py.nonempty text)); [reflexivity |]. cbv zeta.
  apply strip_single_spaced with (p := false).
  apply join_single_spaced, forallb_map_strip.
  assert (S : single_spaced false
                (Parser.squeeze LF 2 (Parser.squeeze " " 1 text)) = true).
  { apply squeeze_newlines_single; [congruence |].
    exact (squeeze_spaces_single 0 text). }
  destruct (Py.fields Parser.is_LF _ "") as [| f r] eqn:F; [reflexivity |].
  destruct (fields_single_spaced _ _ f r S F) as [A B].
  cbn [forallb]. rewrite A, B. reflexivity.
Qed.

(** * The feedback text *)

(** ** Lines of a joined text *)

Lemma prefix_append (x r : string) : String.prefix x (x ++ r) = true.
Proof.
  induction x as [| c x IH]; [destruct r; reflexivity |].
  cbn [append String.prefix]. destruct (ascii_dec c c); [exact IH | congruence].
Qed.

Lemma contains_append_r (x a b : string) :
  Py.contains x b = true -> Py.contains x (a ++ b) = true.
Proof.
  intros H. induction a as [| c a IH]; [exact H |].
  cbn [append Py.contains]. rewrite IH. apply orb_true_r.
Qed.

Lemma contains_prefix (x b : string) :
  String.prefix x b = true -> Py.contains x b = true.
Proof. intros H. destruct b; cbn [Py.contains]; rewrite H; reflexivity. Qed.

Lemma contains_join (sep x : string) (l : list string) :
  In x l -> Py.contains x (Py.join sep l) = true.
Proof.
  unfold Py.join. induction l as [| a l IH]; [intros [] |].
  intros [-> | H].
  - destruct l as [| b l]; cbn [String.concat].
    + apply contains_prefix. rewrite <- (append_empty_r x) at 2.
      apply prefix_append.
    + apply contains_prefix, prefix_append.
  - destruct l as [| b l]; [destruct H |].
    cbn [String.concat]. apply contains_append_r, contains_append_r.
    exact (IH H).
Qed.

Lemma feedback_lines_bind {A} (m : M A) (k : A -> M string) a l P :
  m = (inr a, l) -> feedback_lines (k a) P -> feedback_lines (bind m k) P.
Proof.
  intros E (parts & l' & Ek & H). exists parts, (l ++ l')%list.
  split; [exact (bind_step _ _ _ _ _ _ E Ek) | exact H].
Qed.

Lemma feedback_lines_ret (parts : list string) (P : list string -> Prop) :
  P parts -> feedback_lines (ret (Py.join newline parts)) P.
Proof. intros H. exists parts, []. split; [reflexivity | exact H]. Qed.

(** Thresholds on the float mean of three integer scores. *)
Lemma mean_threshold (k n : Z) :
  Qle_bool (k # 1) (Py.Z2Q n / 3) = (3 * k <=? n).
Proof.
  set (b := 3 * k <=? n).
  unfold Qle_bool, Py.Z2Q, inject_Z, Qdiv, Qmult, Qinv.
  cbn [Qnum Qden Z.mul Pos.mul]. subst b.
  destruct (Z.leb_spec (k * 3) (n * 1 * 1)), (Z.leb_spec (3 * k) n);
    (reflexivity || lia).
Qed.

(** Walk through the generator, naming the value of each assignment. *)
Ltac walk Estar :=
  repeat lazymatch goal with
  | |- feedback_lines (bind (detect_star_components _) _) _ =>
      eapply feedback_lines_bind; [exact Estar |]; cbv beta
  | |- feedback_lines (bind (truediv _ _) _) _ =>
      eapply feedback_lines_bind; [apply truediv_const; reflexivity |];
      cbv beta
  | |- feedback_lines (bind (enter _) _) _ =>
      eapply feedback_lines_bind; [reflexivity |]; cbv beta
  | |- feedback_lines (let x := ?E in @?R x) ?P =>
      let v := fresh "v" in
      let Ev := fresh "Ev" in
      pose (v := E); assert (Ev : v = E) by reflexivity;
      change (feedback_lines (R v) P); clearbody v; cbv beta
  end.

(** The lines one step adds are bullets. *)
Ltac bullets :=
  split;
  [ unfold Py.llen;
    cbn [app List.length Z.of_nat Pos.of_succ_nat Pos.succ]; lia
  | cbn [app]; repeat (apply Forall_cons; [reflexivity |]);
    apply Forall_nil ].

Ltac added :=
  eexists; split; [rewrite <- ?app_assoc; reflexivity |].

Lemma generate_hr_feedback_layout (clarity confidence structure : Z)
    (answer_lower : string) (red_flags : list string)
    (relevance_result : option RelevanceVerdict) :
  feedback_lines
    (generate_hr_feedback clarity confidence structure
       answer_lower red_flags relevance_result)
    (layout clarity confidence structure answer_lower red_flags
       relevance_result).
Proof.
  destruct (detect_star_components_returns answer_lower)
    as (s & t & a & r & Estar).
  cbv delta [generate_hr_feedback]; cbv beta.
  walk Estar.
  apply feedback_lines_ret.
  (* v, v0, v1: the parts at the start, after the red flags and after
     the relevance issues; v4 .. v7, v10 .. v14 and v16 .. v18: after
     each later step *)
  assert (E0 : v0 = critical_section red_flags).
  { rewrite Ev0, Ev. unfold critical_section.
    destruct (truthy red_flags); reflexivity. }
  assert (E1 : v1 = (v0 ++ relevance_section relevance_result)%list).
  { rewrite Ev1. unfold relevance_section.
    destruct relevance_result as [rr |]; [| symmetry; apply app_nil_r].
    destruct (truthy (rel_issues rr)); [reflexivity |].
    symmetry; apply app_nil_r. }
  assert (E5 : exists ls, v5 = (v4 ++ ls)%list /\ bulleted 1 3 ls
                 /\ (8 <= structure -> ls = [all_components_present])).
  { rewrite Ev5. unfold Py.append. cbv zeta.
    destruct (structure >=? 8) eqn:G8.
    - added. split; [bullets | reflexivity].
    - assert (N : ~ 8 <= structure)
        by (intros H; apply Z.geb_le in H; congruence).
      destruct (structure >=? 5);
        [destruct (truthy v2) | destruct (structure >=? 3)];
        added; (split; [bullets | intros H; destruct (N H)]). }
  assert (E10 : exists ls, v10 = (v7 ++ ls)%list /\ bulleted 1 2 ls).
  { rewrite Ev10. unfold Py.append.
    destruct (confidence >=? 8);
      [| destruct (confidence >=? 5);
         [destruct (v8 >? v9) | destruct (confidence >=? 3)]];
      added; bullets. }
  assert (E13 : exists ls, v13 = (v12 ++ ls)%list /\ bulleted 1 2 ls).
  { rewrite Ev13. unfold Py.append.
    destruct (clarity >=? 8);
      [| destruct (clarity >=? 5); [| destruct (clarity >=? 3)]];
      added; bullets. }
  assert (T8 := mean_threshold 8 (clarity + confidence + structure)).
  assert (T6 := mean_threshold 6 (clarity + confidence + structure)).
  assert (T4 := mean_threshold 4 (clarity + confidence + structure)).
  assert (T2 := mean_threshold 2 (clarity + confidence + structure)).
  change (3 * 8) with 24 in T8. change (3 * 6) with 18 in T6.
  change (3 * 4) with 12 in T4. change (3 * 2) with 6 in T2.
  assert (E16 : exists ls, v16 = (v14 ++ ls)%list
                  /\ (ls = []
                      \/ exists advice,
                           ls = ("📊 MISSING METRICS:" :: advice ++ [""])%list
                           /\ bulleted 2 2 advice)
                  /\ (ls = [] <->
                      Re.search NUMBER_PATTERN answer_lower = true
                      \/ 24 <= clarity + confidence + structure)).
  { rewrite Ev16, Ev15. unfold Py.Qlt_bool. rewrite T8.
    destruct (search NUMBER_PATTERN answer_lower); cbn [negb andb].
    - exists []. split; [symmetry; apply app_nil_r |].
      split; [left; reflexivity | tauto].
    - destruct (Z.leb_spec 24 (clarity + confidence + structure));
        cbn [negb].
      + exists []. split; [symmetry; apply app_nil_r |].
        split; [left; reflexivity | tauto].
      + added. split.
        * right.
          lazymatch goal with
          | |- exists advice, [_; ?x; ?y; _] = _ /\ _ => exists [x; y]
          end.
          split; [reflexivity | bullets].
        * split; [discriminate | intros [H' | H']; [discriminate | lia]]. }
  assert (E18 : exists ls, v18 = (v17 ++ ls)%list /\ bulleted 2 3 ls
                  /\ hd "" ls
                     = verdict_headline (clarity + confidence + structure)).
  { rewrite Ev18, T8, T6, T4, T2. unfold verdict_headline.
    destruct (24 <=? _); [| destruct (18 <=? _);
      [| destruct (12 <=? _); [| destruct (6 <=? _)]]];
      added; (split; [bullets | reflexivity]). }
  destruct E5 as (l5 & E5 & B5 & A5).
  destruct E10 as (l10 & E10 & B10).
  destruct E13 as (l13 & E13 & B13).
  destruct E16 as (l16 & E16 & M16 & N16).
  destruct E18 as (l18 & E18 & B18 & H18).
  exists l5, l10, l13, l16, l18.
  repeat (split; [first [assumption | idtac] |]); try assumption.
  rewrite E18, Ev17, E16, Ev14, E13, Ev12, Ev11, E10, Ev7, Ev6, E5, Ev4,
    E1, E0.
  unfold Py.append. rewrite <- !app_assoc. reflexivity.
Qed.

(** What a text of that layout holds. *)
Lemma layout_lines (clarity confidence structure : Z) (answer_lower : string)
    (red_flags : list string) (relevance_result : option RelevanceVerdict)
    (parts : list string) :
  layout clarity confidence structure answer_lower red_flags
    relevance_result parts ->
  In "📋 STRUCTURE ANALYSIS:" parts
  /\ In "💪 OWNERSHIP & CONFIDENCE:" parts
  /\ In "🎯 CLARITY & COMMUNICATION:" parts
  /\ In "📝 OVERALL ASSESSMENT:" parts
  /\ (forall flag, In flag (Py.take 3 red_flags) -> In (bullet flag) parts)
  /\ (forall rr issue,
        relevance_result = Some rr -> In issue (Py.take 2 (rel_issues rr)) ->
        In (bullet issue) parts)
  /\ (8 <= structure -> In all_components_present parts)
  /\ In (verdict_headline (clarity + confidence + structure)) parts.
Proof.
  intros (sl & cl & kl & mx & vd & -> & _ & _ & _ & [Bv _] & _ & _ & A & V).
  repeat split.
  - rewrite !in_app_iff. cbn [In]. tauto.
  - rewrite !in_app_iff. cbn [In]. tauto.
  - rewrite !in_app_iff. cbn [In]. tauto.
  - rewrite !in_app_iff. cbn [In]. tauto.
  - intros flag F. apply in_or_app. left. unfold critical_section.
    destruct red_flags as [| f0 fs]; [destruct F |].
    cbn [truthy]. right. apply in_or_app. left. apply in_map, F.
  - intros rr issue -> F. apply in_or_app. right. apply in_or_app. left.
    unfold relevance_section.
    destruct (rel_issues rr) as [| i0 others]; [destruct F |].
    cbn [truthy]. right. apply in_or_app. left. apply in_map, F.
  - intros S. rewrite (A S), !in_app_iff. cbn [In]. tauto.
  - rewrite <- V. destruct vd as [| v0 vd].
    + unfold Py.llen in Bv. cbn in Bv. lia.
    + rewrite !in_app_iff. cbn [hd In]. tauto.
Qed.

(** The feedback of a valid result is the generator's, called on the
    scores, flags and verdict the result reports. *)
Lemma analyze_scored_feedback (answer question : string)
    (g : GibberishVerdict) :
  detect_gibberish answer = (inr g, [Fdetect_gibberish]) ->
  is_gibberish g = false ->
  exists r l,
    analyze_hr_response answer question = (inr r, l)
    /\ is_valid r = true
    /\ total_score r = (clarity r + confidence r + structure r) ÷ 3
    /\ 1 <= clarity r /\ 1 <= confidence r /\ 1 <= structure r
    /\ relevance_issues (details r)
       = Some (match relevance_of question answer with
               | Some rr => rel_issues rr
               | None => []
               end)
    /\ generate_hr_feedback (clarity r) (confidence r) (structure r)
         (Py.lower answer) (red_flags (details r))
         (relevance_of question answer)
       = (inr (feedback r),
          [Fgenerate_hr_feedback; Fdetect_star_components]).
Proof.
  intros E G.
  assert (R : exists lr,
    (if Py.nonempty question
     then rr <- check_answer_relevance question answer ;; ret (Some rr)
     else ret None) = (inr (relevance_of question answer), lr)).
  { unfold relevance_of. destruct (Py.nonempty question); [| eexists; reflexivity].
    destruct (check_answer_relevance_returns question answer)
      as (? & ? & ? & ? & rr & -> & _).
    rewrite bind_returned. eexists. reflexivity. }
  destruct R as [lr Er].
  destruct (detect_red_flags_returns answer) as [earlier Ef].
  set (flags := (earlier ++ _ ++ _)%list) in Ef. clearbody flags.
  destruct (evaluate_clarity_returns answer) as (c & Ec & Hc).
  destruct (evaluate_confidence_returns (Py.lower answer)) as (cf & lcf & Ecf & Hcf).
  destruct (evaluate_star_structure_returns (Py.lower answer)) as (s & ls & Es & Hs).
  destruct (detect_star_components_returns (Py.lower answer))
    as (bs & bt & ba & br & Estar).
  destruct (generate_hr_feedback_trace
              (Z.max 1 (c - Py.int (red_flag_penalty flags / 2)))
              (Z.max 1 (cf - Py.int (red_flag_penalty flags / 2)))
              (Z.max 1 (s - relevance_penalty (relevance_of question answer)))
              (Py.lower answer) flags (relevance_of question answer))
    as (fb & Efb).
  do 2 eexists. split.
  { unfold analyze_hr_response.
    eapply bind_step; [reflexivity |]. cbv beta zeta.
    eapply bind_step; [exact E |]. cbv beta. rewrite G.
    eapply bind_step; [exact Er |]. cbv beta.
    eapply bind_step; [exact Ef |]. cbv beta.
    eapply bind_step; [exact Ec |]. cbv beta.
    eapply bind_step; [exact Ecf |]. cbv beta.
    eapply bind_step; [exact Es |]. cbv beta.
    eapply bind_step; [apply truediv_const; reflexivity |]. cbv beta.
    eapply bind_step; [apply truediv_const; reflexivity |]. cbv beta.
    eapply bind_step; [apply truediv_const; reflexivity |]. cbv beta.
    eapply bind_step; [exact Efb |]. cbv beta.
    eapply bind_step; [exact Estar |]. cbv beta.
    eapply bind_step; [apply count_confidence_keywords_returns |]. cbv beta.
    eapply bind_step; [apply count_leadership_keywords_returns |]. cbv beta.
    reflexivity. }
  cbn [is_valid total_score clarity confidence structure details
       relevance_issues red_flags feedback].
  split; [reflexivity |]. split; [apply int_mean |].
  repeat (split; [lia || reflexivity |]). exact Efb.
Qed.

(** ** X21: the layout of the feedback *)

(** X21.  For scores from 1 to 10, the range the orchestrator passes,
    the feedback of [generate_hr_feedback] is a text of one fixed
    layout, its lines joined by newlines: the critical issues (a
    heading, the first three red flags as bullets and a blank line) when
    there is a red flag; the relevance concerns (a heading, the first
    two issues as bullets and a blank line) when a verdict with issues
    is passed; then the structure heading with one to three bullets, a
    blank line, the ownership heading with one or two bullets, a blank
    line, the clarity heading with one or two bullets, a blank line, the
    advice on metrics (a heading, two bullets and a blank line) exactly
    when the answer holds no number and the three scores sum to less
    than 24, and the overall heading with two or three bullets, the
    first of which is chosen by the sum of the scores.  A structure
    score of 8 or more gives the single structure bullet that all
    components are present. *)
Theorem feedback_layout (clarity confidence structure : Z)
    (answer_lower : string) (red_flags : list string)
    (relevance_result : option RelevanceVerdict) :
  1 <= clarity <= 10 -> 1 <= confidence <= 10 -> 1 <= structure <= 10 ->
  exists parts,
    generate_hr_feedback clarity confidence structure
      answer_lower red_flags relevance_result
    = (inr (Py.join newline parts),
       [Fgenerate_hr_feedback; Fdetect_star_components])
    /\ layout clarity confidence structure answer_lower red_flags
         relevance_result parts.
Proof.
  intros _ _ _.
  destruct (generate_hr_feedback_trace clarity confidence structure
              answer_lower red_flags relevance_result) as (fb & E).
  destruct (generate_hr_feedback_layout clarity confidence structure
              answer_lower red_flags relevance_result)
    as (parts & l & E' & L).
  exists parts. split; [| exact L].
  rewrite E in E' |- *. injection E' as -> _. reflexivity.
Qed.

(** X21, witness: the scores 7, 6 and 8 of a brief answer with one red
    flag. *)
Lemma feedback_layout_witness :
  exists parts,
    generate_hr_feedback 7 6 8 "i led the team and we delivered the project."
      [too_brief] None
    = (inr (Py.join newline parts),
       [Fgenerate_hr_feedback; Fdetect_star_components])
    /\ layout 7 6 8 "i led the team and we delivered the project."
         [too_brief] None parts.
Proof. apply feedback_layout; lia. Defined.

(** ** X22: the feedback follows the scores *)

(** X22.  The feedback of a valid result holds the four section
    headings, a bullet for each of the first three red flags and of the
    first two relevance issues the result reports, the statement that
    all STAR components are present as soon as the structure score is 8
    or more, and the verdict that goes with the total score: strong from
    8, acceptable at 6 and 7, weak at 4 and 5, poor at 2 and 3,
    unacceptable at 1. *)
Theorem feedback_follows_scores (answer question : string) :
  exists r l,
    analyze_hr_response answer question = (inr r, l)
    /\ (is_valid r = true ->
        let says line := Py.contains line (feedback r) = true in
        says "📋 STRUCTURE ANALYSIS:"
        /\ says "💪 OWNERSHIP & CONFIDENCE:"
        /\ says "🎯 CLARITY & COMMUNICATION:"
        /\ says "📝 OVERALL ASSESSMENT:"
        /\ (forall flag,
              In flag (Py.take 3 (red_flags (details r))) -> says (bullet flag))
        /\ (forall issues issue,
              relevance_issues (details r) = Some issues ->
              In issue (Py.take 2 issues) -> says (bullet issue))
        /\ (8 <= structure r -> says all_components_present)
        /\ (8 <= total_score r -> says strong_response)
        /\ (6 <= total_score r < 8 -> says acceptable_response)
        /\ (4 <= total_score r < 6 -> says weak_response)
        /\ (2 <= total_score r < 4 -> says poor_response)
        /\ (total_score r < 2 -> says unacceptable_response)).
Proof.
  destruct (detect_gibberish_returns answer) as (g & Eg & Hg).
  destruct (is_gibberish g) eqn:G.
  - destruct (analyze_rejected answer question g Eg G) as [fb ->].
    do 2 eexists. split; [reflexivity |]. cbn [is_valid]. discriminate.
  - destruct (analyze_scored_feedback answer question g Eg G)
      as (r & l & E & _ & T & C1 & C2 & C3 & I & F).
    exists r, l. split; [exact E |]. intros _.
    destruct (generate_hr_feedback_layout (clarity r) (confidence r)
                (structure r) (Py.lower answer) (red_flags (details r))
                (relevance_of question answer)) as (parts & l' & E' & L).
    rewrite F in E'. injection E' as -> _.
    destruct (layout_lines _ _ _ _ _ _ _ L)
      as (H1 & H2 & H3 & H4 & Hf & Hi & Ha & Hv).
    assert (Q : 0 <= clarity r + confidence r + structure r) by lia.
    rewrite (Z.quot_div_nonneg _ 3 Q) in T by lia.
    assert (D : 3 * total_score r <= clarity r + confidence r + structure r
                < 3 * total_score r + 3).
    { rewrite T.
      pose proof (Z.div_mod (clarity r + confidence r + structure r) 3).
      pose proof (Z.mod_pos_bound (clarity r + confidence r + structure r) 3).
      lia. }
    clear T.
    unfold verdict_headline in Hv.
    cbv zeta. repeat split; try (apply contains_join; assumption).
    + intros flag Fl. apply contains_join, Hf, Fl.
    + intros issues issue Ei Is. apply contains_join.
      rewrite I in Ei. injection Ei as <-.
      destruct (relevance_of question answer) as [rr |]; [| destruct Is].
      exact (Hi rr issue eq_refl Is).
    + intros S. apply contains_join, Ha, S.
    + intros S. apply contains_join.
      destruct (Z.leb_spec 24 (clarity r + confidence r + structure r));
        [exact Hv | exfalso; lia].
    + intros S. apply contains_join.
      destruct (Z.leb_spec 24 (clarity r + confidence r + structure r));
        [exfalso; lia |].
      destruct (Z.leb_spec 18 (clarity r + confidence r + structure r));
        [exact Hv | exfalso; lia].
    + intros S. apply contains_join.
      destruct (Z.leb_spec 24 (clarity r + confidence r + structure r));
        [exfalso; lia |].
      destruct (Z.leb_spec 18 (clarity r + confidence r + structure r));
        [exfalso; lia |].
      destruct (Z.leb_spec 12 (clarity r + confidence r + structure r));
        [exact Hv | exfalso; lia].
    + intros S. apply contains_join.
      destruct (Z.leb_spec 24 (clarity r + confidence r + structure r));
        [exfalso; lia |].
      destruct (Z.leb_spec 18 (clarity r + confidence r + structure r));
        [exfalso; lia |].
      destruct (Z.leb_spec 12 (clarity r + confidence r + structure r));
        [exfalso; lia |].
      destruct (Z.leb_spec 6 (clarity r + confidence r + structure r));
        [exact Hv | exfalso; lia].
    + intros S. apply contains_join.
      destruct (Z.leb_spec 24 (clarity r + confidence r + structure r));
        [exfalso; lia |].
      destruct (Z.leb_spec 18 (clarity r + confidence r + structure r));
        [exfalso; lia |].
      destruct (Z.leb_spec 12 (clarity r + confidence r + structure r));
        [exfalso; lia |].
      destruct (Z.leb_spec 6 (clarity r + confidence r + structure r));
        [exfalso; lia | exact Hv].
Qed.

(** ** X23: the rejection names the issues *)

Lemma prefix_append_l (x a b : string) :
  String.prefix x a = true -> String.prefix x (a ++ b) = true.
Proof.
  revert a. induction x as [| c x IH]; intros a H.
  - destruct (a ++ b)%string; reflexivity.
  - destruct a as [| d a]; [discriminate |].
    cbn [append String.prefix] in *.
    destruct (ascii_dec c d); [exact (IH a H) | discriminate].
Qed.

Lemma contains_append_l (x a b : string) :
  Py.contains x a = true -> Py.contains x (a ++ b) = true.
Proof.
  induction a as [| c a IH]; intros H.
  - cbn [Py.contains] in H. rewrite orb_false_r in H.
    apply contains_prefix. exact (prefix_append_l x "" b H).
  - cbn [Py.contains] in H. apply orb_true_iff in H.
    destruct H as [H | H].
    + apply contains_prefix. exact (prefix_append_l _ _ b H).
    + cbn [append Py.contains]. rewrite (IH H). apply orb_true_r.
Qed.

Lemma generate_rejection_feedback_names (issues : list string) :
  exists fb,
    generate_rejection_feedback issues
    = (inr fb, [Fgenerate_rejection_feedback])
    /\ String.prefix "This response cannot be evaluated. " fb = true
    /\ (forall issue, In issue issues -> Py.contains issue fb = true).
Proof.
  unfold generate_rejection_feedback. rewrite bind_enter.
  eexists. split; [reflexivity |]. split.
  - apply prefix_append.
  - intros issue H.
    apply contains_append_r, contains_append_l, contains_join, H.
Qed.

(** X23.  The feedback of a rejected result opens with the statement that
    the response cannot be evaluated and names every issue the result
    reports in its red flags, of which there is at least one. *)
Theorem rejection_names_issues (answer question : string) :
  exists r l,
    analyze_hr_response answer question = (inr r, l)
    /\ (is_valid r = false ->
        String.prefix "This response cannot be evaluated. " (feedback r) = true
        /\ red_flags (details r) <> []
        /\ forall issue,
             In issue (red_flags (details r)) ->
             Py.contains issue (feedback r) = true).
Proof.
  destruct (detect_gibberish_graded answer) as (g & E & Hg & I & _).
  cbn [fst snd] in I.
  destruct (is_gibberish g) eqn:G.
  - assert (N : issues g <> []).
    { symmetry in Hg. apply Z.geb_le in Hg.
      destruct I as [[I1 _] | [_ I2]]; [lia | exact I2]. }
    destruct (generate_rejection_feedback_names (issues g))
      as (fb & Efb & P & C).
    unfold analyze_hr_response. rewrite bind_enter. cbv zeta.
    rewrite E, bind_returned, G, Efb, bind_returned.
    do 2 eexists. split; [reflexivity |].
    intros _. cbn [fst details red_flags feedback].
    repeat split; assumption.
  - destruct (analyze_scored answer question g E G)
      as (flags & c & cf & s & star & fb & l & _ & _ & _ & _ & _ & _ & _
          & _ & ->).
    do 2 eexists. split; [reflexivity |].
    cbn [is_valid]. discriminate.
Qed.
